(** * Trivia feed: fingerprints, duplicate check, topic colours,
    profile synchronisation, weights and scoring

  A shallow embedding of the TypeScript sources
    - [src/lib/openaiService.ts]: fingerprints and the duplicate check;
    - the design module ([topicColors], [getTopicColor]) and the
      design-system hook module: topic colours;
    - [src/components/SimplifiedSyncManager.tsx]: the initial data load;
    - the code excerpts of [docs/system-architecture-and-data-flow.md]:
      the cold-start filter, the score, the weight clamps and the merge
      of the conflict resolution.

  Conventions.  A JavaScript string is a Rocq [string]: a sequence of
  code units below 256 (the Latin-1 range of UTF-16); the module [Utf16]
  has the fingerprint on sequences of 16-bit code units.  A JavaScript
  [number] that holds a weight or a score is a rational [Q] (rounding of
  binary floating point is not modelled); timestamps and counters are
  integers [Z].  JavaScript objects used as dictionaries whose key order
  is observable are association lists, the others are [gmap]s. *)

From Stdlib Require Import ZArith QArith Qminmax Lia Lqa.
From Stdlib Require Import Strings.String Strings.Ascii List Permutation.
From stdpp Require Import gmap strings.

Import ListNotations.
Local Open Scope string_scope.

(* ===================================================================== *)
(** * JavaScript string primitives                                        *)
(* ===================================================================== *)

Module JsString.

Definition code (c : ascii) : N := N_of_ascii c.

Definition inRange (lo hi : N) (c : ascii) : bool :=
  ((lo <=? code c) && (code c <=? hi))%N.

(** [\s] of a JavaScript regular expression, restricted to code units
    below 256: TAB, LF, VT, FF, CR, SPACE and NO-BREAK SPACE.  The same
    set is removed by [String.prototype.trim]. *)
Definition isSpace (c : ascii) : bool :=
  (inRange 9 13 c || (code c =? 32) || (code c =? 160))%N.

(** [\w] of a JavaScript regular expression: [A-Za-z0-9_]. *)
Definition isWordChar (c : ascii) : bool :=
  (inRange 65 90 c || inRange 97 122 c || inRange 48 57 c || (code c =? 95))%N.

(** [String.prototype.toLowerCase] on one code unit below 256: A-Z and
    the Latin-1 capitals U+00C0..U+00DE (without the multiplication sign
    U+00D7) move up by 32. *)
Definition toLowerChar (c : ascii) : ascii :=
  if (inRange 65 90 c || (inRange 192 222 c && negb (code c =? 215)))%N
  then ascii_of_N (code c + 32)
  else c.

Fixpoint toLowerCase (s : string) : string :=
  match s with
  | EmptyString => EmptyString
  | String c s' => String (toLowerChar c) (toLowerCase s')
  end.

(** [s.replace(/[^\w\s]/g, '')] *)
Fixpoint removeNonWordNonSpace (s : string) : string :=
  match s with
  | EmptyString => EmptyString
  | String c s' =>
      if isWordChar c || isSpace c
      then String c (removeNonWordNonSpace s')
      else removeNonWordNonSpace s'
  end.

(** [s.replace(/\s+/g, ' ')]: every maximal run of white space becomes
    one SPACE.  [inRun] tells that the previous code unit was white
    space, whose run has already produced its SPACE. *)
Fixpoint collapseFrom (inRun : bool) (s : string) : string :=
  match s with
  | EmptyString => EmptyString
  | String c s' =>
      if isSpace c
      then (if inRun then collapseFrom true s'
            else String " " (collapseFrom true s'))
      else String c (collapseFrom false s')
  end.

Definition collapseSpaces (s : string) : string := collapseFrom false s.

Fixpoint trimStart (s : string) : string :=
  match s with
  | EmptyString => EmptyString
  | String c s' => if isSpace c then trimStart s' else s
  end.

Fixpoint trimEnd (s : string) : string :=
  match s with
  | EmptyString => EmptyString
  | String c s' =>
      match trimEnd s' with
      | EmptyString => if isSpace c then EmptyString else String c EmptyString
      | t => String c t
      end
  end.

(** [String.prototype.trim] *)
Definition trim (s : string) : string := trimEnd (trimStart s).

(** [s.startsWith(p)] *)
Fixpoint startsWith (p s : string) : bool :=
  match p, s with
  | EmptyString, _ => true
  | String a p', String b s' => Ascii.eqb a b && startsWith p' s'
  | String _ _, EmptyString => false
  end.

(** [s.includes(sub)] *)
Fixpoint includes (s sub : string) : bool :=
  startsWith sub s
  || match s with
     | EmptyString => false
     | String _ s' => includes s' sub
     end.

(** [parts.join(sep)] *)
Fixpoint join (sep : string) (parts : list string) : string :=
  match parts with
  | [] => EmptyString
  | [p] => p
  | p :: rest => p ++ sep ++ join sep rest
  end.

(** [s.split(sep)] for a separator of one code unit; [cur] is the piece
    being read, in reverse. *)
Fixpoint splitFrom (sep : ascii) (cur : string) (s : string) : list string :=
  match s with
  | EmptyString => [String.rev cur]
  | String c s' =>
      if Ascii.eqb c sep
      then String.rev cur :: splitFrom sep EmptyString s'
      else splitFrom sep (String c cur) s'
  end.

Definition split (sep : ascii) (s : string) : list string :=
  splitFrom sep EmptyString s.

(** [s.split(sep)[0]]: [split] never returns the empty array. *)
Definition firstPiece (sep : ascii) (s : string) : string :=
  match split sep s with
  | p :: _ => p
  | [] => EmptyString
  end.

(** [Array.prototype.sort] without comparator on an array of strings:
    ascending in the lexicographic order of code units.  Strings that
    compare equal are identical, so every sorting algorithm returns the
    list computed here by insertion. *)
Fixpoint insertSorted (x : string) (l : list string) : list string :=
  match l with
  | [] => [x]
  | y :: l' => if String.leb x y then x :: l else y :: insertSorted x l'
  end.

Fixpoint sort (l : list string) : list string :=
  match l with
  | [] => []
  | x :: l' => insertSorted x (sort l')
  end.

End JsString.

(* ===================================================================== *)
(** * openaiService.ts: fingerprints                                      *)
(* ===================================================================== *)

Module Fingerprint.
Import JsString.

(** The normalisation chain shared by [generateQuestionFingerprint],
    [checkQuestionSimilarity] and [fallbackQuestionCheck]:
    [.toLowerCase().replace(/[^\w\s]/g, '').replace(/\s+/g, ' ').trim()] *)
Definition normalizeText (question : string) : string :=
  trim (collapseSpaces (removeNonWordNonSpace (toLowerCase question))).

Definition generateQuestionFingerprint (question : string) (tags : list string)
  : string :=
  let normalizedQuestion := normalizeText question in
  let normalizedTags := toLowerCase (join "|" (sort tags)) in
  normalizedQuestion ++ "|" ++ normalizedTags.

(** A code unit that [/[^\w\s]/] matches. *)
Definition isPunctuation (c : ascii) : bool :=
  negb (isWordChar c || isSpace c).


End Fingerprint.


(* ===================================================================== *)
(** * The fingerprint on strings of 16-bit code units                     *)
(* ===================================================================== *)

(** [generateQuestionFingerprint] once more, on strings as JavaScript has
    them: sequences of UTF-16 code units.  [toLowerCase] is given on the
    code units below 256 and on the two code units above them whose lower
    case is an ASCII letter, U+0130 and U+212A; on any other code unit it
    is left undefined ([None]) rather than guessed. *)
Module Utf16.

Definition unitsBetween (lo hi c : N) : bool := ((lo <=? c) && (c <=? hi))%N.

(** [\s] of a JavaScript regular expression, and what
    [String.prototype.trim] removes: TAB to CR, SPACE, NO-BREAK SPACE,
    U+1680, U+2000 to U+200A, U+2028, U+2029, U+202F, U+205F, U+3000 and
    U+FEFF. *)
Definition isSpace (c : N) : bool :=
  (unitsBetween 9 13 c || (c =? 32) || (c =? 160) || (c =? 5760)
   || unitsBetween 8192 8202 c || (c =? 8232) || (c =? 8233) || (c =? 8239)
   || (c =? 8287) || (c =? 12288) || (c =? 65279))%N.

(** [\w]: [A-Za-z0-9_], without the [u] and [i] flags. *)
Definition isWordChar (c : N) : bool :=
  (unitsBetween 65 90 c || unitsBetween 97 122 c || unitsBetween 48 57 c
   || (c =? 95))%N.

(** The lower case of one code unit: as [JsString.toLowerChar] below 256;
    U+0130 (capital I with dot above) gives [i] and the combining dot
    U+0307; U+212A (the Kelvin sign) gives [k]. *)
Definition toLowerUnit (c : N) : option (list N) :=
  if (c <? 256)%N then
    Some [JsString.code (JsString.toLowerChar (ascii_of_N c))]
  else if (c =? 304)%N then Some [105; 775]%N
  else if (c =? 8490)%N then Some [107]%N
  else None.

Fixpoint toLowerCase (s : list N) : option (list N) :=
  match s with
  | [] => Some []
  | c :: s' =>
      match toLowerUnit c, toLowerCase s' with
      | Some lowered, Some rest => Some (lowered ++ rest)%list
      | _, _ => None
      end
  end.

(** [s.replace(/[^\w\s]/g, '')] *)
Definition removeNonWordNonSpace (s : list N) : list N :=
  List.filter (fun c => isWordChar c || isSpace c) s.

(** [s.replace(/\s+/g, ' ')] *)
Fixpoint collapseFrom (inRun : bool) (s : list N) : list N :=
  match s with
  | [] => []
  | c :: s' =>
      if isSpace c
      then (if inRun then collapseFrom true s'
            else 32%N :: collapseFrom true s')
      else c :: collapseFrom false s'
  end.

Definition collapseSpaces (s : list N) : list N := collapseFrom false s.

Fixpoint trimStart (s : list N) : list N :=
  match s with
  | [] => []
  | c :: s' => if isSpace c then trimStart s' else s
  end.

Fixpoint trimEnd (s : list N) : list N :=
  match s with
  | [] => []
  | c :: s' =>
      match trimEnd s' with
      | [] => if isSpace c then [] else [c]
      | t => c :: t
      end
  end.

Definition trim (s : list N) : list N := trimEnd (trimStart s).

(** The order of [Array.prototype.sort] without comparator: by code
    units. *)
Fixpoint compare (x y : list N) : comparison :=
  match x, y with
  | [], [] => Eq
  | [], _ :: _ => Lt
  | _ :: _, [] => Gt
  | a :: x', b :: y' =>
      match (a ?= b)%N with
      | Eq => compare x' y'
      | other => other
      end
  end.

Definition leb (x y : list N) : bool :=
  match compare x y with Gt => false | _ => true end.

Fixpoint insertSorted (x : list N) (l : list (list N)) : list (list N) :=
  match l with
  | [] => [x]
  | y :: l' => if leb x y then x :: l else y :: insertSorted x l'
  end.

Fixpoint sort (l : list (list N)) : list (list N) :=
  match l with
  | [] => []
  | x :: l' => insertSorted x (sort l')
  end.

Fixpoint join (sep : list N) (parts : list (list N)) : list N :=
  match parts with
  | [] => []
  | [p] => p
  | p :: rest => (p ++ sep ++ join sep rest)%list
  end.

(** The code unit of [|]. *)
Definition bar : N := 124.

Definition generateQuestionFingerprint (question : list N)
  (tags : list (list N)) : option (list N) :=
  match toLowerCase question, toLowerCase (join [bar] (sort tags)) with
  | Some lowered, Some normalizedTags =>
      let normalizedQuestion :=
        trim (collapseSpaces (removeNonWordNonSpace lowered)) in
      Some (normalizedQuestion ++ [bar] ++ normalizedTags)%list
  | _, _ => None
  end.

(** A code unit that [/[^\w\s]/] matches. *)
Definition isPunctuation (c : N) : bool := negb (isWordChar c || isSpace c).

(** The code units of a string of the Latin-1 range. *)
Fixpoint units (s : string) : list N :=
  match s with
  | EmptyString => []
  | String c s' => JsString.code c :: units s'
  end.

End Utf16.

(* ===================================================================== *)
(** * The shape of a normalised text                                      *)
(* ===================================================================== *)

Module NormalText.
Import JsString.

(** A lower-case word character: [a-z0-9_]. *)
Definition isLowerWordChar (c : ascii) : bool :=
  (inRange 97 122 c || inRange 48 57 c || (code c =? 95))%N.

(** Where a scan of a normalised text stands: at its start, after a word
    character, or after a separating SPACE. *)
Inductive Position : Type := AtStart | AfterWord | AfterSpace.

(** Words of lower-case word characters, separated by single SPACEs. *)
Fixpoint normalFrom (p : Position) (s : string) : bool :=
  match s with
  | EmptyString =>
      match p with AfterSpace => false | _ => true end
  | String c s' =>
      if isLowerWordChar c then normalFrom AfterWord s'
      else if (code c =? 32)%N then
        match p with
        | AfterWord => normalFrom AfterSpace s'
        | _ => false
        end
      else false
  end.

(** The texts made of words of [a-z0-9_], one SPACE between two words. *)
Definition isNormalText (s : string) : bool := normalFrom AtStart s.

(** No code unit of [s] is [c]. *)
Fixpoint lacks (c : ascii) (s : string) : bool :=
  match s with
  | EmptyString => true
  | String d s' => negb (Ascii.eqb d c) && lacks c s'
  end.

(** A code unit of a normalised text. *)
Definition isNormalUnit (c : ascii) : bool :=
  isLowerWordChar c || (code c =? 32)%N.

(** The code units that survive lower-casing and stripping. *)
Definition isKeptLower (c : ascii) : bool := isLowerWordChar c || isSpace c.

Fixpoint allUnits (P : ascii -> bool) (s : string) : bool :=
  match s with
  | EmptyString => true
  | String c s' => P c && allUnits P s'
  end.

(** A collapsed text: lower-case word characters and SPACEs, no SPACE
    after a SPACE; [afterSpace] tells that a SPACE came just before. *)
Fixpoint spacedFrom (afterSpace : bool) (s : string) : bool :=
  match s with
  | EmptyString => true
  | String c s' =>
      if isLowerWordChar c then spacedFrom false s'
      else (code c =? 32)%N && negb afterSpace && spacedFrom true s'
  end.

End NormalText.

(* ===================================================================== *)
(** * Topic colours: the design module and the design-system hook module  *)
(* ===================================================================== *)

Module JsObject.

(** What reading a property of a plain object of strings can give: a string
    of the object's own, a member inherited from [Object.prototype] (a
    function, or the prototype itself for [__proto__]), or [undefined]. *)
Inductive JsValue : Type :=
| JsUndefined
| JsStr (s : string)
| JsInherited (name : string).

(** An object literal with string values; [Object.keys] lists its keys in
    the order of the literal (none of the keys here is an array index). *)
Definition StringRecord : Type := list (string * string).

Definition objectPrototypeKeys : list string :=
  [ "constructor"; "__defineGetter__"; "__defineSetter__"; "hasOwnProperty";
    "__lookupGetter__"; "__lookupSetter__"; "isPrototypeOf";
    "propertyIsEnumerable"; "toString"; "valueOf"; "__proto__";
    "toLocaleString" ].

Definition ownProperty (o : StringRecord) (key : string) : option string :=
  match List.find (fun kv => String.eqb (fst kv) key) o with
  | Some kv => Some (snd kv)
  | None => None
  end.

Definition inherited (key : string) : bool :=
  existsb (String.eqb key) objectPrototypeKeys.

(** [o[key]] *)
Definition getProperty (o : StringRecord) (key : string) : JsValue :=
  match ownProperty o key with
  | Some v => JsStr v
  | None => if inherited key then JsInherited key else JsUndefined
  end.

(** [key in o] *)
Definition hasProperty (o : StringRecord) (key : string) : bool :=
  match ownProperty o key with
  | Some _ => true
  | None => inherited key
  end.

(** The truth value a condition gives to [v]. *)
Definition truthy (v : JsValue) : bool :=
  match v with
  | JsUndefined => false
  | JsStr s => negb (String.eqb s EmptyString)
  | JsInherited _ => true
  end.

(** [Object.keys(o)] *)
Definition objectKeys (o : StringRecord) : list string := List.map fst o.

(** [a || b] on values *)
Definition orElse (a b : JsValue) : JsValue := if truthy a then a else b.

End JsObject.

Module DesignIndex.
Import JsString JsObject.

Definition topicColors : StringRecord :=
  [ ("Music", "#6200EA");
    ("Entertainment", "#FF4081");
    ("Science", "#00B8D4");
    ("History", "#D500F9");
    ("Pop Culture", "#FFD600");
    ("Miscellaneous", "#FF9800");
    ("Literature", "#D50000");
    ("Technology", "#304FFE");
    ("Arts", "#F50057");
    ("Culture", "#9C27B0");
    ("Politics", "#651FFF");
    ("Geography", "#00C853");
    ("Chemistry", "#00BCD4");
    ("Countries", "#3F51B5");
    ("Nature", "#64DD17");
    ("Biology", "#00C853");
    ("Physics", "#FFD600");
    ("Environment", "#4CAF50");
    ("Ancient History", "#9C27B0");
    ("Language", "#2962FF");
    ("Modern History", "#7E57C2");
    ("Sports", "#FF6D00");
    ("Art", "#F50057");
    ("Astronomy", "#673AB7");
    ("Engineering", "#FF5722");
    ("Mathematics", "#00BFA5");
    ("General Knowledge", "#00BFA5");
    ("Food and Drink", "#FF3D00");
    ("Computers", "#0288D1");
    ("Math", "#00BFA5");
    ("Food", "#FF3D00");
    ("Modern Cinema", "#C51162");
    ("Mythology", "#AA00FF");
    ("Animals", "#76FF03");
    ("Movies", "#673AB7");
    ("default", "#455A64") ].

Definition getTopicColor (category : string) : JsValue :=
  let lowerCategory := toLowerCase category in
  if truthy (getProperty topicColors category) then
    getProperty topicColors category
  else
    let partialMatch :=
      List.find (fun key =>
                   includes lowerCategory (toLowerCase key)
                   || includes (toLowerCase key) lowerCategory)
                (objectKeys topicColors) in
    match partialMatch with
    | Some key => getProperty topicColors key
    | None => getProperty topicColors "default"
    end.

End DesignIndex.

Module UseDesignSystem.
Import JsString JsObject.

(** The table the hook module uses when the import gave no object. *)
Definition defaultTopicColors : StringRecord :=
  [ ("Music", "#6200EA");
    ("Entertainment", "#FF4081");
    ("Science", "#00B8D4");
    ("History", "#D500F9");
    ("Pop Culture", "#FFD600");
    ("Miscellaneous", "#FF9800");
    ("default", "#455A64") ].

(** [getTopicColor] of the hook module; [imported] is the binding
    [topicColors] of its import statement, [None] when it is not an
    object. *)
Definition getTopicColorWith (imported : option StringRecord)
  (category : string) : JsValue :=
  let matches (key : string) :=
    includes (toLowerCase category) (toLowerCase key)
    || includes (toLowerCase key) (toLowerCase category) in
  match imported with
  | Some topicColors =>
      if hasProperty topicColors category then
        getProperty topicColors category
      else
        match List.find matches (objectKeys topicColors) with
        | Some partialMatch => getProperty topicColors partialMatch
        | None => orElse (getProperty topicColors "default") (JsStr "#455A64")
        end
  | None =>
      if truthy (getProperty defaultTopicColors category) then
        getProperty defaultTopicColors category
      else
        match List.find matches (objectKeys defaultTopicColors) with
        | Some partialMatch => getProperty defaultTopicColors partialMatch
        | None => getProperty defaultTopicColors "default"
        end
  end.

(** [import { categoryColors, topicColors } from '../design/index'] *)
Definition importedTopicColors : option StringRecord :=
  Some DesignIndex.topicColors.

Definition getTopicColor (category : string) : JsValue :=
  getTopicColorWith importedTopicColors category.

End UseDesignSystem.

(* ===================================================================== *)
(** * openaiService.ts: does a question already exist?                    *)
(* ===================================================================== *)

Module Async.

(** What a [try] block can catch here. *)
Inductive Exn : Type :=
| StoreError (message : option string) (* an error object of the store *)
| PromiseRejected                       (* an awaited request that fails *)
| TypeError.                            (* a method call on [undefined] *)

(** The completion of a block of statements, and so of an [async]
    function: [Returned b] is a promise resolved with [b], [Thrown e] a
    rejected one. *)
Inductive Outcome (A : Type) : Type :=
| Returned (a : A)
| Thrown (e : Exn).
Arguments Returned {A} a.
Arguments Thrown {A} e.

Definition bind {A B : Type} (c : Outcome A) (k : A -> Outcome B) : Outcome B :=
  match c with
  | Returned a => k a
  | Thrown e => Thrown e
  end.

(** [try { body } catch (error) { handler }] *)
Definition tryCatch {A : Type} (body : Outcome A) (handler : Exn -> Outcome A)
  : Outcome A :=
  match body with
  | Returned a => Returned a
  | Thrown e => handler e
  end.

(** A request to the store, once awaited: it resolves, or it fails (the
    promise rejects, or building the request throws). *)
Inductive Awaited (A : Type) : Type :=
| Resolved (a : A)
| Rejected.
Arguments Resolved {A} a.
Arguments Rejected {A}.

Definition await {A : Type} (p : Awaited A) : Outcome A :=
  match p with
  | Resolved a => Returned a
  | Rejected => Thrown PromiseRejected
  end.

End Async.

Notation "'let*' x ':=' c 'in' k" := (Async.bind c (fun x => k))
  (at level 10, x name, c at level 100, k at level 200).

Module QuestionStore.
Import JsString Fingerprint Async.

(** The [{ data, error }] object a query resolves to; the error object has
    a [message], which [None] models as missing. *)
Record Response (Row : Type) : Type := {
  data : option (list Row);
  error : option (option string)
}.
Arguments data {Row} r.
Arguments error {Row} r.

(** A row of [trivia_questions] with the columns the checks select. *)
Record QuestionRow : Type := {
  id : string;
  question_text : option string;
  fingerprint : option string
}.

(** The remote table, as the three queries see it:
    [select('id').eq('fingerprint', fp).limit(1)],
    [select('id, question_text, fingerprint)] and
    [select('id, question_text').limit(10)]. *)
Record Store : Type := {
  selectByFingerprint : string -> Awaited (Response string);
  selectAll : Awaited (Response QuestionRow);
  selectTen : Awaited (Response QuestionRow)
}.

(** A nullable text column used as a condition. *)
Definition nonEmptyText (t : option string) : option string :=
  match t with
  | Some EmptyString => None
  | other => other
  end.

(** [new Set(words)], spread again: the distinct words in order of first
    occurrence. *)
Fixpoint distinct (words : list string) : list string :=
  match words with
  | [] => []
  | w :: rest =>
      w :: List.filter (fun v => negb (String.eqb v w)) (distinct rest)
  end.

Definition has (set : list string) (w : string) : bool :=
  existsb (String.eqb w) set.

(** The number of words of either side that the other side lacks. *)
Definition wordDifferences (normalizedQuestion storedNormalized : string) : nat :=
  let questionWords := distinct (split " " normalizedQuestion) in
  let storedWords := distinct (split " " storedNormalized) in
  let uniqueToNew := List.filter (fun w => negb (has storedWords w)) questionWords in
  let uniqueToStored := List.filter (fun w => negb (has questionWords w)) storedWords in
  (List.length uniqueToNew + List.length uniqueToStored)%nat.

Definition storedNormalizedOf (text : string) (fp : option string) : string :=
  match nonEmptyText fp with
  | Some f => firstPiece "|" f
  | None => normalizeText text
  end.

Definition doubleQuote : ascii := ascii_of_N 34.

(** The text [column "fingerprint" does not exist]. *)
Definition missingColumnMessage : string :=
  "column " ++ String doubleQuote "fingerprint"
            ++ String doubleQuote " does not exist".

Section Checks.

(** The semantic comparison of [checkQuestionSimilarity]: the two calls of
    [generateEnhancedFingerprint], [calculateFingerprintSimilarity] and the
    test [semanticSimilarity > 0.75], on the normalised new question and the
    stored question text.  Its verdict is left open here; it may throw. *)
Variable semanticallySimilar : string -> string -> Outcome bool.

(** The [for (const question of questions)] loop of
    [checkQuestionSimilarity]. *)
Fixpoint similarityLoop (normalizedQuestion : string)
  (questions : list QuestionRow) : Outcome bool :=
  match questions with
  | [] => Returned false
  | question :: rest =>
      match nonEmptyText (question_text question) with
      | None => similarityLoop normalizedQuestion rest
      | Some text =>
          let storedNormalized := storedNormalizedOf text (fingerprint question) in
          if (wordDifferences normalizedQuestion storedNormalized <=? 3)%nat
          then Returned true
          else
            let* found := tryCatch (semanticallySimilar normalizedQuestion text)
                                   (fun _ => Returned false) in
            if found then Returned true
            else similarityLoop normalizedQuestion rest
      end
  end.

Definition checkQuestionSimilarity (store : Store) (fp : string) : Outcome bool :=
  tryCatch
    (let normalizedQuestion := firstPiece "|" fp in
     let* r := await (selectAll store) in
     match error r with
     | Some _ => Returned false
     | None =>
         match data r with
         | Some (q :: qs) => similarityLoop normalizedQuestion (q :: qs)
         | _ => Returned false
         end
     end)
    (fun _ => Returned false).

Definition textsMatch (storedNormalized normalizedQuestion : string) : bool :=
  String.eqb storedNormalized normalizedQuestion
  || includes storedNormalized normalizedQuestion
  || includes normalizedQuestion storedNormalized.

(** The loop of [fallbackQuestionCheck]. *)
Fixpoint fallbackLoop (normalizedQuestion : string)
  (questions : list QuestionRow) : bool :=
  match questions with
  | [] => false
  | question :: rest =>
      match nonEmptyText (question_text question) with
      | None => fallbackLoop normalizedQuestion rest
      | Some text =>
          if textsMatch (normalizeText text) normalizedQuestion then true
          else fallbackLoop normalizedQuestion rest
      end
  end.

Definition fallbackQuestionCheck (store : Store) (fp : string) : Outcome bool :=
  tryCatch
    (let normalizedQuestion := firstPiece "|" fp in
     let* r := await (selectTen store) in
     match error r with
     | Some _ => Returned false
     | None =>
         match data r with
         | Some (q :: qs) => Returned (fallbackLoop normalizedQuestion (q :: qs))
         | _ => Returned false
         end
     end)
    (fun _ => Returned false).

(** [fingerprintError.message.includes(...)]: a missing message makes the
    call throw. *)
Definition messageIncludes (message : option string) (text : string)
  : Outcome bool :=
  match message with
  | Some m => Returned (includes m text)
  | None => Thrown TypeError
  end.

(** The two checks are returned as promises, without [await]: the [try]
    block then completes with the promise, and a rejection of that promise
    would not be caught by the [catch] of this function. *)
Definition checkQuestionExists (store : Store) (fp : string) : Outcome bool :=
  let completion : Outcome (Outcome bool) :=
    tryCatch
      (let* r := await (selectByFingerprint store fp) in
       match error r with
       | Some fingerprintError =>
           let* missing :=
             messageIncludes fingerprintError missingColumnMessage in
           if missing then Returned (fallbackQuestionCheck store fp)
           else Thrown (StoreError fingerprintError)
       | None =>
           match data r with
           | Some (_ :: _) => Returned (Returned true)
           | _ => Returned (checkQuestionSimilarity store fp)
           end
       end)
      (fun _ => Returned (Returned false)) in
  match completion with
  | Returned promise => promise
  | Thrown e => Thrown e
  end.

(** The fingerprint query failed with something else than the missing
    column: the request rejected, or its error does not carry the
    missing-column text. *)
Definition fingerprintQueryFailed (store : Store) (fp : string) : Prop :=
  selectByFingerprint store fp = Rejected
  \/ exists r message,
       selectByFingerprint store fp = Resolved r
       /\ error r = Some message
       /\ messageIncludes message missingColumnMessage <> Returned true.

Definition exactFingerprintMatch (store : Store) (fp : string) : Prop :=
  exists r row rows,
    selectByFingerprint store fp = Resolved r
    /\ error r = None /\ data r = Some (row :: rows).

(** A stored question of the similarity query that the loop accepts: at
    most three differing words, or a positive semantic verdict. *)
Definition similarStoredQuestion (store : Store) (fp : string) : Prop :=
  exists r rows question text,
    selectAll store = Resolved r /\ error r = None /\ data r = Some rows
    /\ In question rows
    /\ nonEmptyText (question_text question) = Some text
    /\ ((wordDifferences (firstPiece "|" fp)
           (storedNormalizedOf text (fingerprint question)) <= 3)%nat
        \/ semanticallySimilar (firstPiece "|" fp) text = Returned true).

(** A stored question of the fallback query whose normalised text equals,
    contains or is contained in the new question. *)
Definition fallbackTextMatch (store : Store) (fp : string) : Prop :=
  exists r message r10 rows question text,
    selectByFingerprint store fp = Resolved r
    /\ error r = Some (Some message)
    /\ includes message missingColumnMessage = true
    /\ selectTen store = Resolved r10 /\ error r10 = None /\ data r10 = Some rows
    /\ In question rows
    /\ nonEmptyText (question_text question) = Some text
    /\ textsMatch (normalizeText text) (firstPiece "|" fp) = true.

End Checks.

End QuestionStore.

(* ===================================================================== *)
(** * openaiService.ts: enhanced fingerprints and their similarity        *)
(* ===================================================================== *)

Module Semantic.
Import JsString Fingerprint.

(** ** The regular expressions of the intent tests *)

(** [\b] before the code unit that follows [prev]. *)
Definition boundaryAfter (prev : option ascii) : bool :=
  match prev with
  | None => true
  | Some c => negb (isWordChar c)
  end.

(** [\b] at the head of [s], after a word character. *)
Definition boundaryBefore (s : string) : bool :=
  match s with
  | EmptyString => true
  | String c _ => negb (isWordChar c)
  end.

(** What is left of [s] after its prefix [p]. *)
Fixpoint afterPrefix (p s : string) : option string :=
  match p, s with
  | EmptyString, _ => Some s
  | String a p', String b s' =>
      if Ascii.eqb a b then afterPrefix p' s' else None
  | String _ _, EmptyString => None
  end.

(** [\b(w1|w2|...)\b] matched at the head of [s]; the words are made of
    word characters. *)
Definition wordsHere (ws : list string) (prev : option ascii) (s : string)
  : bool :=
  boundaryAfter prev
  && existsb (fun w =>
                match afterPrefix w s with
                | Some rest => boundaryBefore rest
                | None => false
                end) ws.

(** [\b(a1|a2|...)\s+(b1|b2|...)\b] matched at the head of [s]. *)
Definition phraseHere (firsts seconds : list string) (prev : option ascii)
  (s : string) : bool :=
  boundaryAfter prev
  && existsb (fun w =>
                match afterPrefix w s with
                | Some (String c rest) =>
                    isSpace c
                    && existsb (fun v =>
                                  match afterPrefix v (trimStart rest) with
                                  | Some rest' => boundaryBefore rest'
                                  | None => false
                                  end) seconds
                | _ => false
                end) firsts.

(** [regex.test(text)]: a match at some position of [text]. *)
Fixpoint testFrom (here : option ascii -> string -> bool)
  (prev : option ascii) (s : string) : bool :=
  here prev s
  || match s with
     | EmptyString => false
     | String c s' => testFrom here (Some c) s'
     end.

Definition test (here : option ascii -> string -> bool) (text : string)
  : bool :=
  testFrom here None text.

Definition isEmpty (s : string) : bool :=
  match s with EmptyString => true | _ => false end.

(** ** [extractQuestionIntent] *)

Definition extractQuestionIntent (question : string) : string :=
  if isEmpty question then "unknown"
  else
    let text := toLowerCase question in
    let has := includes text in
    if (has "year" || has "date" || has "when")
       && test (wordsHere ["occur"; "happened"; "established"; "founded";
                           "created"; "built"; "launched"; "released";
                           "started"]) text
    then "temporal"
    else if (has "where" || has "location" || has "place")
            || (has "which"
                && (has "country" || has "city" || has "continent"
                    || has "region" || has "located"))
    then "spatial"
    else if has "who"
            || (has "which"
                && (has "person" || has "individual" || has "actor"
                    || has "actress" || has "scientist" || has "artist"))
    then "person"
    else if (has "how many" || has "how much")
            || (has "number of" || has "amount of" || has "percentage"
                || has "proportion")
    then "quantitative"
    else if test (phraseHere ["known"; "famous"; "recognized"; "remembered";
                              "celebrated"] ["for"; "as"]) text
    then "attribute"
    else if test (wordsHere ["paint"; "wrote"; "directed"; "composed";
                             "created"; "designed"; "built"; "constructed"])
                 text
    then "creation"
    else if has "what" then "definition"
    else if has "which" then "selection"
    else if has "why" then "causation"
    else if has "how" then "process"
    else "unknown".

(** The values of the intent. *)
Definition intents : list string :=
  [ "unknown"; "temporal"; "spatial"; "person"; "quantitative"; "attribute";
    "creation"; "definition"; "selection"; "causation"; "process" ].

(** ** [extractNamedEntities] *)

(** [text.split(/\s+/)]; [cur] is the piece being read, in reverse, and
    [inRun] tells that the separator in progress has ended a piece. *)
Fixpoint splitSpacesFrom (cur : string) (inRun : bool) (s : string)
  : list string :=
  match s with
  | EmptyString => [String.rev cur]
  | String c s' =>
      if isSpace c then
        if inRun then splitSpacesFrom EmptyString true s'
        else String.rev cur :: splitSpacesFrom EmptyString true s'
      else splitSpacesFrom (String c cur) false s'
  end.

Definition splitSpaces (s : string) : list string :=
  splitSpacesFrom EmptyString false s.

Definition isUpperLetter (c : ascii) : bool := inRange 65 90 c.
Definition isLowerLetter (c : ascii) : bool := inRange 97 122 c.

(** [word.match(/^[A-Z][a-z]+/)] *)
Definition startsCapitalized (word : string) : bool :=
  match word with
  | String c (String d _) => isUpperLetter c && isLowerLetter d
  | _ => false
  end.

(** [word.match(/[.!?]$/)] *)
Fixpoint endsSentence (word : string) : bool :=
  match word with
  | EmptyString => false
  | String c EmptyString =>
      Ascii.eqb c "." || Ascii.eqb c "!" || Ascii.eqb c "?"
  | String _ rest => endsSentence rest
  end.

Definition commonWords : list string :=
  [ "the"; "a"; "an"; "in"; "on"; "of"; "for"; "and"; "but"; "or"; "not";
    "is"; "are"; "was"; "were"; "be"; "been"; "being" ].

(** [/^(The|A|An|...)$/i.test(word)] *)
Definition isCommonWord (word : string) : bool :=
  existsb (String.eqb (toLowerCase word)) commonWords.

(** The loop over the words: [previous] is [words[i-1]], [currentEntity]
    the capitalised words collected so far; the result is the entities
    pushed, in order, with the entity left at the end. *)
Fixpoint entityLoop (previous : option string) (currentEntity : list string)
  (words : list string) : list string :=
  match words with
  | [] =>
      match currentEntity with
      | [] => []
      | _ => [toLowerCase (join " " currentEntity)]
      end
  | word :: rest =>
      let isFirstWord :=
        match previous with
        | None => true
        | Some p => endsSentence p
        end in
      if startsCapitalized word && negb isFirstWord && negb (isCommonWord word)
      then entityLoop (Some word) (currentEntity ++ [word]) rest
      else
        match currentEntity with
        | [] => entityLoop (Some word) [] rest
        | _ =>
            toLowerCase (join " " currentEntity)
            :: entityLoop (Some word) [] rest
        end
  end.

Definition isQuote (c : ascii) : bool := Ascii.eqb c "'" || (code c =? 34)%N.

(** The code units of [s] before the first [q], when there is one. *)
Fixpoint upTo (q : ascii) (s : string) : option string :=
  match s with
  | EmptyString => None
  | String c s' =>
      if Ascii.eqb c q then Some EmptyString
      else match upTo q s' with
           | Some content => Some (String c content)
           | None => None
           end
  end.

(** The matches of the quote expression, scanned from left to right: a
    quote, one code unit or more that are not that quote, the same quote.
    [skip] counts the code units that the last match still covers. *)
Fixpoint quotedFrom (skip : nat) (s : string) : list string :=
  match s with
  | EmptyString => []
  | String c s' =>
      match skip with
      | S skip' => quotedFrom skip' s'
      | O =>
          if isQuote c then
            match upTo c s' with
            | Some (String d content) =>
                String d content
                :: quotedFrom (S (String.length (String d content))) s'
            | _ => quotedFrom O s'
            end
          else quotedFrom O s'
      end
  end.

Definition quotedEntities (text : string) : list string :=
  List.map toLowerCase
    (List.filter (fun entity => (2 <? String.length entity)%nat)
                 (quotedFrom O text)).

Definition extractNamedEntities (text : string) : list string :=
  if isEmpty text then []
  else
    QuestionStore.distinct
      (entityLoop None [] (splitSpaces text) ++ quotedEntities text)%list.

(** ** [generateEnhancedFingerprint] *)

Definition generateEnhancedFingerprint (question : string) (tags : list string)
  : string :=
  let intent := extractQuestionIntent question in
  let entities := extractNamedEntities question in
  let normalizedQuestion := normalizeText question in
  let normalizedTags := toLowerCase (join "|" (sort tags)) in
  intent ++ "|" ++ join "|" entities ++ "|" ++ normalizedQuestion
         ++ "|" ++ normalizedTags.

(** ** [calculateLevenshteinSimilarity] *)

(** The cells [matrix[i][1..]] of a row, from left to right: [diag] is
    [matrix[i-1][j-1]], [left] is [matrix[i][j-1]] and the head of [above]
    is [matrix[i-1][j]]. *)
Fixpoint fillRow (bc : ascii) (a : string) (diag left : nat)
  (above : list nat) : list nat :=
  match a, above with
  | String ac a', up :: above' =>
      let cell :=
        if Ascii.eqb bc ac then diag
        else Nat.min (Nat.min (diag + 1) (left + 1)) (up + 1) in
      cell :: fillRow bc a' up cell above'
  | _, _ => []
  end.

(** The row [matrix[i]] from the row [matrix[i-1]]. *)
Definition nextRow (bc : ascii) (a : string) (i : nat) (previous : list nat)
  : list nat :=
  match previous with
  | diag :: above => i :: fillRow bc a diag i above
  | [] => [i]
  end.

(** The last row of the matrix, from the row [matrix[i]] and the code units
    of [b] from index [i] on. *)
Fixpoint lastRow (a : string) (i : nat) (row : list nat) (b : string)
  : list nat :=
  match b with
  | EmptyString => row
  | String bc b' => lastRow a (S i) (nextRow bc a (S i) row) b'
  end.

(** [matrix[b.length][a.length]] *)
Definition levenshteinDistance (a b : string) : nat :=
  List.last (lastRow a 0 (seq 0 (S (String.length a))) b) 0%nat.

(** Every cell of the row [i], from column [j] on, is at most
    [max i j]. *)
Fixpoint cellsBounded (i j : nat) (row : list nat) : Prop :=
  match row with
  | [] => True
  | v :: row' => (v <= Nat.max i j)%nat /\ cellsBounded i (S j) row'
  end.

(** A cell [v] of [matrix[i][j]], where [pb] holds the first [i] code
    units of [b] and [pa] the first [j] of [a], both last unit first: it is
    at least the difference of [i] and [j], and 0 only for equal
    prefixes. *)
Definition cellSound (pb : string) (i : nat) (pa : string) (j v : nat)
  : Prop :=
  (i <= v + j)%nat /\ (j <= v + i)%nat /\ (v = 0%nat -> pa = pb).

(** The cells of the row [i] after column [j], one for each code unit of
    [rest]. *)
Fixpoint cellsSound (pb : string) (i : nat) (pa : string) (j : nat)
  (rest : string) (row : list nat) : Prop :=
  match rest, row with
  | String c rest', v :: row' =>
      cellSound pb i (String c pa) (S j) v
      /\ cellsSound pb i (String c pa) (S j) rest' row'
  | EmptyString, [] => True
  | _, _ => False
  end.

Definition rowSound (pb : string) (i : nat) (a : string) (row : list nat)
  : Prop :=
  match row with
  | v :: row' =>
      cellSound pb i EmptyString 0 v /\ cellsSound pb i EmptyString 0 a row'
  | [] => False
  end.

Definition ratio (n d : nat) : Q := inject_Z (Z.of_nat n) / inject_Z (Z.of_nat d).

Definition calculateLevenshteinSimilarity (str1 str2 : string) : Q :=
  if isEmpty str1 || isEmpty str2 then 0
  else
    let a := trim (toLowerCase str1) in
    let b := trim (toLowerCase str2) in
    if String.eqb a b then 1
    else
      let maxLen := Nat.max (String.length a) (String.length b) in
      if (maxLen =? 0)%nat then 1
      else (1 - ratio (levenshteinDistance a b) maxLen)%Q.

(** ** [calculateFingerprintSimilarity] *)

(** A component of the destructured [fp.split('|', 4)], used as a
    condition: [None] when it is missing or empty. *)
Definition component (parts : list string) (i : nat) : option string :=
  match nth_error (firstn 4 parts) i with
  | Some EmptyString => None
  | other => other
  end.

(** The share of the pieces of [x] that are pieces of [y]. *)
Definition sharedRatio (x y : string) : Q :=
  let arr1 := split "|" x in
  let arr2 := split "|" y in
  let common := List.filter (fun e => existsb (String.eqb e) arr2) arr1 in
  ratio (List.length common) (Nat.max (List.length arr1) (List.length arr2)).

Definition calculateFingerprintSimilarity (fp1 fp2 : string) : Q :=
  if isEmpty fp1 || isEmpty fp2 then 0%Q
  else
    let parts1 := split "|" fp1 in
    let parts2 := split "|" fp2 in
    let intentSimilarity :=
      if decide (nth_error (firstn 4 parts1) 0 = nth_error (firstn 4 parts2) 0)
      then 1%Q else 0%Q in
    let entitySimilarity :=
      match component parts1 1, component parts2 1 with
      | Some entities1, Some entities2 => sharedRatio entities1 entities2
      | _, _ => 0%Q
      end in
    let textSimilarity :=
      match component parts1 2, component parts2 2 with
      | Some question1, Some question2 =>
          calculateLevenshteinSimilarity question1 question2
      | _, _ => 0%Q
      end in
    let tagSimilarity :=
      match component parts1 3, component parts2 3 with
      | Some tags1, Some tags2 => sharedRatio tags1 tags2
      | _, _ => 0%Q
      end in
    (0.5 * textSimilarity + 0.3 * entitySimilarity
     + 0.1 * intentSimilarity + 0.1 * tagSimilarity)%Q.

(** ** The semantic comparison of [checkQuestionSimilarity] *)

Definition semanticSimilarity (normalizedQuestion questionText : string) : Q :=
  calculateFingerprintSimilarity
    (generateEnhancedFingerprint normalizedQuestion [])
    (generateEnhancedFingerprint questionText []).

(** [semanticSimilarity > 0.75]; none of the calls throws. *)
Definition semanticallySimilar (normalizedQuestion questionText : string)
  : Async.Outcome bool :=
  Async.Returned
    (negb (Qle_bool (semanticSimilarity normalizedQuestion questionText) 0.75)).

End Semantic.

(* ===================================================================== *)
(** * openaiService.ts: the topics of [generateQuestions]                 *)
(* ===================================================================== *)

Module TopicHierarchy.
Import JsString NormalText.

(** The three arrays that the loop over [primaryTopics] fills. *)
Record Hierarchy : Type := {
  processedPrimaryTopics : list string;
  explicitSubtopics : list (string * string);
  explicitBranches : list (string * string)
}.

Definition noTopics : Hierarchy :=
  {| processedPrimaryTopics := [];
     explicitSubtopics := [];
     explicitBranches := [] |}.

(** [array.includes(x)] *)
Definition arrayIncludes (array : list string) (x : string) : bool :=
  existsb (String.eqb x) array.

(** The body of [primaryTopics.forEach(topic => ...)]; the two names of
    [const [mainTopic, secondaryItem] = topic.split(':')] are the first two
    pieces, which exist when the topic has a colon. *)
Definition processTopic (preferredSubtopics preferredBranches : list string)
  (h : Hierarchy) (topic : string) : Hierarchy :=
  if includes topic ":" then
    let pieces := split ":" topic in
    let mainTopic := nth 0 pieces EmptyString in
    let secondaryItem := nth 1 pieces EmptyString in
    let processed :=
      if arrayIncludes (processedPrimaryTopics h) mainTopic
      then processedPrimaryTopics h
      else (processedPrimaryTopics h ++ [mainTopic])%list in
    if arrayIncludes preferredSubtopics secondaryItem then
      {| processedPrimaryTopics := processed;
         explicitSubtopics :=
           (explicitSubtopics h ++ [(mainTopic, secondaryItem)])%list;
         explicitBranches := explicitBranches h |}
    else if arrayIncludes preferredBranches secondaryItem then
      {| processedPrimaryTopics := processed;
         explicitSubtopics := explicitSubtopics h;
         explicitBranches :=
           (explicitBranches h ++ [(mainTopic, secondaryItem)])%list |}
    else
      {| processedPrimaryTopics := processed;
         explicitSubtopics :=
           (explicitSubtopics h ++ [(mainTopic, secondaryItem)])%list;
         explicitBranches := explicitBranches h |}
  else
    {| processedPrimaryTopics := (processedPrimaryTopics h ++ [topic])%list;
       explicitSubtopics := explicitSubtopics h;
       explicitBranches := explicitBranches h |}.

Definition processTopics (preferredSubtopics preferredBranches : list string)
  (primaryTopics : list string) : Hierarchy :=
  fold_left (processTopic preferredSubtopics preferredBranches)
            primaryTopics noTopics.

(** The part of a topic before its first colon. *)
Definition mainTopicOf (topic : string) : string := firstPiece ":" topic.

(** The counts and the contents that the loop keeps, for a hierarchy [h]
    built from the topics [seen]. *)
Definition hierarchyOf (preferredSubtopics preferredBranches seen : list string)
  (h : Hierarchy) : Prop :=
  Forall (fun t => lacks ":" t = true) (processedPrimaryTopics h)
  /\ (forall topic, In topic seen ->
                    In (mainTopicOf topic) (processedPrimaryTopics h))
  /\ (forall t, In t (processedPrimaryTopics h) ->
                exists topic, In topic seen /\ t = mainTopicOf topic)
  /\ (List.length (explicitSubtopics h) + List.length (explicitBranches h)
      = List.length (List.filter (fun topic => includes topic ":") seen))%nat
  /\ (forall pair, In pair (explicitBranches h) ->
                   arrayIncludes preferredBranches (snd pair) = true
                   /\ arrayIncludes preferredSubtopics (snd pair) = false).

End TopicHierarchy.

(* ===================================================================== *)
(** * The user profile                                                    *)
(* ===================================================================== *)

Module Profile.

(** [type TopicBranch = { weight: number; lastViewed?: number }] *)
Record TopicBranch : Type := {
  branchWeight : Q;
  branchLastViewed : option Z
}.

(** [type SubTopic = { weight; branches; lastViewed? }] *)
Record SubTopic : Type := {
  subtopicWeight : Q;
  branches : gmap string TopicBranch;
  subtopicLastViewed : option Z
}.

(** [type RootTopic = { weight; subtopics; lastViewed? }] *)
Record RootTopic : Type := {
  weight : Q;
  subtopics : gmap string SubTopic;
  lastViewed : option Z
}.

(** The answer recorded for an item.  The scoring code tells [undefined]
    (never answered) from every other value, so [null] is kept apart. *)
Inductive Answer : Type :=
| AnswerUndefined
| AnswerNull
| AnswerBool (correct : bool).

Record QuestionInteraction : Type := {
  wasCorrect : Answer;
  wasSkipped : bool;
  timeSpent : Z;
  viewedAt : Z
}.

(** [type UserProfile]; the optional fields are [None] when absent. *)
Record UserProfile : Type := {
  topics : gmap string RootTopic;
  interactions : gmap string QuestionInteraction;
  lastRefreshed : Z;
  coldStartComplete : option bool;
  totalQuestionsAnswered : option Z
}.

(** A feed item, with the labels that address the weight tree and the
    verdict [isAppropriateDifficulty] of the difficulty filter. *)
Record FeedItem : Type := {
  itemId : string;
  topic : string;
  subtopic : string;
  branch : string;
  isAppropriateDifficulty : bool
}.

(** The default sentinel of a weight. *)
Definition DEFAULT_TOPIC_WEIGHT : Q := 0.5.

(** Modelled from the spec: [hasAllDefaultWeights] of
    simplifiedSyncService.ts, which the sync manager imports, is not among
    the sources.  "All topic weights are at the default sentinel": every
    topic of the profile has the default weight; a profile without topics
    has all-default weights. *)
Definition hasAllDefaultWeights (profile : UserProfile) : bool :=
  forallb (fun entry => Qeq_bool (weight (snd entry)) DEFAULT_TOPIC_WEIGHT)
          (map_to_list (topics profile)).

(** The profile has a topic whose weight is not the default. *)
Definition hasNonDefaultWeight (profile : UserProfile) : Prop :=
  exists name t,
    topics profile !! name = Some t /\ ~ (weight t == DEFAULT_TOPIC_WEIGHT)%Q.

Definition allWeightsDefault (profile : UserProfile) : Prop :=
  forall name t,
    topics profile !! name = Some t -> (weight t == DEFAULT_TOPIC_WEIGHT)%Q.

End Profile.

(* ===================================================================== *)
(** * SimplifiedSyncManager.tsx: the initial data load                    *)
(* ===================================================================== *)

Module SimplifiedSyncManager.
Import Async Profile.

(** What [loadInitialData] does to the world, in order. *)
Inductive Effect : Type :=
| DispatchLoadUserDataStart
| DispatchLoadUserDataSuccess (profile : UserProfile)
| DispatchSyncFailed
| SyncUserProfile (userId : string) (profile : UserProfile)
| SetInitialDataLoaded
| MarkInitialDataLoadComplete.

(** A block of statements: the effects it performed, and how it ended. *)
Definition Run (A : Type) : Type := list Effect * Outcome A.

Definition ret {A : Type} (a : A) : Run A := ([], Returned a).

Definition perform (e : Effect) : Run unit := ([e], Returned tt).

Definition andThen {A B : Type} (c : Run A) (k : A -> Run B) : Run B :=
  match c with
  | (effects, Returned a) =>
      let (more, result) := k a in ((effects ++ more)%list, result)
  | (effects, Thrown e) => (effects, Thrown e)
  end.

Definition tryRun {A : Type} (body : Run A) (handler : Exn -> Run A) : Run A :=
  match body with
  | (effects, Returned a) => (effects, Returned a)
  | (effects, Thrown e) =>
      let (more, result) := handler e in ((effects ++ more)%list, result)
  end.

(** [await p], for a request that performs [effect] when it is issued. *)
Definition awaitRun {A : Type} (issued : list Effect) (p : Awaited A) : Run A :=
  (issued, await p).

Notation "'do' x '<-' c ';' k" := (andThen c (fun x => k))
  (at level 10, x name, c at level 100, k at level 200).
Notation "c ';;' k" := (andThen c (fun _ => k))
  (at level 100, k at level 200, right associativity).

(** What the component reads when the effect runs: the signed-in user id,
    its [initialDataLoaded] state, the profile of the Redux store, and the
    answers of the two remote calls. *)
Record Env : Type := {
  user : option string;
  initialDataLoaded : bool;
  userProfile : UserProfile;
  loadUserData : Awaited (option UserProfile);
  syncUserProfile : Awaited unit
}.

Definition loadInitialData (env : Env) : Run unit :=
  match user env with
  | None => ret tt
  | Some userId =>
      if initialDataLoaded env then ret tt
      else
        tryRun
          (perform DispatchLoadUserDataStart ;;
           do forceResult <-
             tryRun (awaitRun [] (loadUserData env)) (fun _ => ret None) ;
           let remoteProfile := forceResult in
           match remoteProfile with
           | Some remote =>
               if (lastRefreshed remote >? lastRefreshed (userProfile env))%Z
               then perform (DispatchLoadUserDataSuccess remote)
               else
                 let localHasDefaultWeights :=
                   hasAllDefaultWeights (userProfile env) in
                 let remoteHasNonDefaultWeights :=
                   negb (hasAllDefaultWeights remote) in
                 if localHasDefaultWeights && remoteHasNonDefaultWeights
                 then perform (DispatchLoadUserDataSuccess remote)
                 else
                   awaitRun [SyncUserProfile userId (userProfile env)]
                            (syncUserProfile env) ;;
                   perform (DispatchLoadUserDataSuccess (userProfile env))
           | None =>
               awaitRun [SyncUserProfile userId (userProfile env)]
                        (syncUserProfile env) ;;
               perform (DispatchLoadUserDataSuccess (userProfile env))
           end ;;
           perform SetInitialDataLoaded ;;
           let profileToCheck :=
             match remoteProfile with
             | Some remote => remote
             | None => userProfile env
             end in
           if negb (hasAllDefaultWeights profileToCheck)
           then perform MarkInitialDataLoadComplete
           else ret tt)
          (fun _ => perform DispatchSyncFailed)
  end.

(** The effect, run for a signed-in user whose data is not loaded yet. *)
Definition initialLoad (userId : string) (local : UserProfile)
  (fetched : Awaited (option UserProfile)) (pushResult : Awaited unit)
  : list Effect :=
  fst (loadInitialData
         {| user := Some userId; initialDataLoaded := false;
            userProfile := local; loadUserData := fetched;
            syncUserProfile := pushResult |}).

(** The profiles handed to [syncUserProfile], in order. *)
Definition pushed (effects : list Effect) : list UserProfile :=
  omap (fun e => match e with
                 | SyncUserProfile _ p => Some p
                 | _ => None
                 end) effects.

(** The profiles dispatched with [loadUserDataSuccess], in order. *)
Definition loaded (effects : list Effect) : list UserProfile :=
  omap (fun e => match e with
                 | DispatchLoadUserDataSuccess p => Some p
                 | _ => None
                 end) effects.

(** Modelled from the spec: the reducer of [loadUserDataSuccess]
    (simplifiedTriviaSlice) is not among the sources.  The profile it
    receives becomes the profile of the store ("adopt wholesale"); without
    such a dispatch the store keeps the local profile. *)
Definition resultingProfile (local : UserProfile) (effects : list Effect)
  : UserProfile :=
  List.last (loaded effects) local.

(** The sync lifecycle after the initial load. *)
Inductive Mode : Type := ReadEnabled | WriteOnly.

Definition isMark (e : Effect) : bool :=
  match e with MarkInitialDataLoadComplete => true | _ => false end.

(** [markInitialDataLoadComplete()] switches the module to write-only. *)
Definition modeAfter (effects : list Effect) : Mode :=
  if existsb isMark effects then WriteOnly else ReadEnabled.

(** ** [checkDefaultWeights], which runs once [initialDataLoaded] is set *)

Inductive CheckEffect : Type :=
| CheckDispatchLoadUserDataSuccess (profile : UserProfile)
| CheckMarkInitialDataLoadComplete.

(** [fetched] is the answer of [fetchProfileWithDefaultCheck]; [writeOnly]
    the value of [isWriteOnlyMode()]. *)
Definition checkDefaultWeights (user : option string)
  (userProfile : UserProfile) (writeOnly : bool)
  (fetched : Awaited (option UserProfile)) : list CheckEffect :=
  match user with
  | None => []
  | Some _ =>
      if hasAllDefaultWeights userProfile then
        match fetched with
        | Resolved (Some remoteProfile) =>
            if negb (hasAllDefaultWeights remoteProfile) then
              CheckDispatchLoadUserDataSuccess remoteProfile
              :: (if negb writeOnly then [CheckMarkInitialDataLoadComplete]
                  else [])
            else []
        | Resolved None => []
        | Rejected => []
        end
      else if negb writeOnly then [CheckMarkInitialDataLoadComplete]
      else []
  end.

End SimplifiedSyncManager.

(* ===================================================================== *)
(** * SimplifiedSyncManager.tsx: writing when the app leaves the front    *)
(* ===================================================================== *)

Module AppStateSync.

(** [AppStateStatus] of React Native. *)
Inductive AppStateStatus : Type :=
| active | background | inactive | unknown | extension.

Definition isActive (s : AppStateStatus) : bool :=
  match s with active => true | _ => false end.

Definition isBackgroundOrInactive (s : AppStateStatus) : bool :=
  match s with background | inactive => true | _ => false end.

(** [handleAppStateChange]: the user ids dispatched with
    [forceSyncProfile], and the new value of [appStateRef.current]. *)
Definition handleAppStateChange (user : option string)
  (appStateRef : AppStateStatus) (nextAppState : AppStateStatus)
  : list string * AppStateStatus :=
  (match user with
   | Some userId =>
       if isActive appStateRef && isBackgroundOrInactive nextAppState
       then [userId] else []
   | None => []
   end,
   nextAppState).

(** The listener over a sequence of changes, from the state that
    [appStateRef] holds. *)
Fixpoint listen (user : option string) (appStateRef : AppStateStatus)
  (changes : list AppStateStatus) : list string :=
  match changes with
  | [] => []
  | nextAppState :: rest =>
      let (dispatched, ref) :=
        handleAppStateChange user appStateRef nextAppState in
      (dispatched ++ listen user ref rest)%list
  end.

(** A change from [active] to [background] or [inactive], as the pair
    of the state before and the state after. *)
Definition leavesActive (change : AppStateStatus * AppStateStatus) : bool :=
  isActive (fst change) && isBackgroundOrInactive (snd change).

(** The changes that a sequence of states makes from the state [first]:
    each state paired with the one before it. *)
Definition changesFrom (first : AppStateStatus)
  (states : list AppStateStatus)
  : list (AppStateStatus * AppStateStatus) :=
  List.combine (first :: states) states.

End AppStateSync.

(* ===================================================================== *)
(** * SimplifiedSyncManager.tsx: the check that follows the initial load  *)
(* ===================================================================== *)

Module SessionStart.
Import Async Profile SimplifiedSyncManager.

(** [isWriteOnlyMode()] *)
Definition isWriteOnlyMode (mode : Mode) : bool :=
  match mode with WriteOnly => true | ReadEnabled => false end.

Definition isSetInitialDataLoaded (e : Effect) : bool :=
  match e with SetInitialDataLoaded => true | _ => false end.

(** The state [initialDataLoaded] of the component after the effects of
    the initial load. *)
Definition initialDataLoadedAfter (effects : list Effect) : bool :=
  existsb isSetInitialDataLoaded effects.

(** The effect that calls the check: "Don't run on first mount, wait for
    initial data load". *)
Definition checkEffect (user : option string) (initialDataLoaded : bool)
  (userProfile : UserProfile) (writeOnly : bool)
  (fetched : Awaited (option UserProfile)) : list CheckEffect :=
  if initialDataLoaded then
    checkDefaultWeights user userProfile writeOnly fetched
  else [].

Definition isCheckMark (e : CheckEffect) : bool :=
  match e with CheckMarkInitialDataLoadComplete => true | _ => false end.

Definition checkLoaded (effects : list CheckEffect) : list UserProfile :=
  omap (fun e => match e with
                 | CheckDispatchLoadUserDataSuccess p => Some p
                 | _ => None
                 end) effects.

(** Modelled from the spec: the reducer of [loadUserDataSuccess], as for
    [resultingProfile]: a dispatched profile becomes the profile of the
    store. *)
Definition profileAfterCheck (profile : UserProfile)
  (effects : list CheckEffect) : UserProfile :=
  List.last (checkLoaded effects) profile.

Definition modeAfterCheck (mode : Mode) (effects : list CheckEffect) : Mode :=
  if existsb isCheckMark effects then WriteOnly else mode.

End SessionStart.

(* ===================================================================== *)
(** * Conflict resolution (simplifiedSyncService.ts, from the excerpt)    *)
(* ===================================================================== *)

Module ConflictResolver.
Import Profile.

(** Modelled from the spec: the merge of two nodes that [mergeTopics]
    needs; the weight is the greater one.  The spec gives no rule for
    [lastViewed]; the local node's is kept here. *)
Definition mergeBranch (l r : TopicBranch) : TopicBranch :=
  {| branchWeight := Qmax (branchWeight l) (branchWeight r);
     branchLastViewed := branchLastViewed l |}.

(** Modelled from the spec: as [mergeBranch], one level up. *)
Definition mergeSubTopic (l r : SubTopic) : SubTopic :=
  {| subtopicWeight := Qmax (subtopicWeight l) (subtopicWeight r);
     branches := union_with (fun a b => Some (mergeBranch a b))
                            (branches l) (branches r);
     subtopicLastViewed := subtopicLastViewed l |}.

(** Modelled from the spec: as [mergeBranch], two levels up. *)
Definition mergeRootTopic (l r : RootTopic) : RootTopic :=
  {| weight := Qmax (weight l) (weight r);
     subtopics := union_with (fun a b => Some (mergeSubTopic a b))
                             (subtopics l) (subtopics r);
     lastViewed := lastViewed l |}.

(** Modelled from the spec: [mergeTopics] of simplifiedSyncService.ts is
    called by the excerpt but is not among the sources.  "Merge
    topic/subtopic/branch weights leaf-by-leaf: mergedWeight =
    max(localWeight, remoteWeight)."  A node that only one side has is
    taken as it is. *)
Definition mergeTopics (local remote : gmap string RootTopic)
  : gmap string RootTopic :=
  union_with (fun a b => Some (mergeRootTopic a b)) local remote.

(** [{...latestData.interactions, ...userProfile.interactions}]: every key
    of either side, and on a key of both the value of the local profile,
    which is spread last. *)
Definition mergeInteractions
  (local remote : gmap string QuestionInteraction)
  : gmap string QuestionInteraction :=
  local ∪ remote.

(** The row of [user_profile_data]. *)
Record ProfileRow : Type := {
  rowTopics : gmap string RootTopic;
  rowInteractions : gmap string QuestionInteraction;
  total_questions_answered : Z;
  last_refreshed : Z;
  version : Z
}.

Definition orZero (n : option Z) : Z :=
  match n with Some n => n | None => 0%Z end.

(** The row that the retry upserts after a version conflict; [now] is
    [Date.now()]. *)
Definition resolveConflict (now : Z) (userProfile : UserProfile)
  (latestData : ProfileRow) : ProfileRow :=
  {| rowTopics := mergeTopics (topics userProfile) (rowTopics latestData);
     rowInteractions :=
       mergeInteractions (interactions userProfile) (rowInteractions latestData);
     total_questions_answered :=
       Z.max (orZero (totalQuestionsAnswered userProfile))
             (total_questions_answered latestData);
     last_refreshed := now;
     version := (version latestData + 1)%Z |}.

(** Two weight trees with the same nodes and, node by node, the same
    weight. *)
Definition sameBranchWeight (a b : TopicBranch) : Prop :=
  (branchWeight a == branchWeight b)%Q.

Definition sameSubTopicWeights (a b : SubTopic) : Prop :=
  (subtopicWeight a == subtopicWeight b)%Q
  /\ forall name,
       option_Forall2 sameBranchWeight (branches a !! name) (branches b !! name).

Definition sameRootTopicWeights (a b : RootTopic) : Prop :=
  (weight a == weight b)%Q
  /\ forall name,
       option_Forall2 sameSubTopicWeights
         (subtopics a !! name) (subtopics b !! name).

Definition sameWeights (m1 m2 : gmap string RootTopic) : Prop :=
  forall name, option_Forall2 sameRootTopicWeights (m1 !! name) (m2 !! name).

End ConflictResolver.

(* ===================================================================== *)
(** * Weight model (personalizationService.ts)                            *)
(* ===================================================================== *)

Module WeightModel.
Import Profile.

Inductive Outcome : Type := Correct | Incorrect | Skipped.

Record Deltas : Type := {
  topicDelta : Q;
  subtopicDelta : Q;
  branchDelta : Q
}.

(** The size of the step of each level; a skip steps down. *)
Definition deltaTable (outcome : Outcome) : Deltas :=
  match outcome with
  | Correct => {| topicDelta := 0.10; subtopicDelta := 0.15; branchDelta := 0.20 |}
  | Incorrect => {| topicDelta := 0.05; subtopicDelta := 0.07; branchDelta := 0.10 |}
  | Skipped => {| topicDelta := 0.05; subtopicDelta := 0.07; branchDelta := 0.10 |}
  end.

(** The steps of an answer to an item that was skipped before. *)
Definition compensation (outcome : Outcome) : Deltas :=
  match outcome with
  | Correct => {| topicDelta := 0.05; subtopicDelta := 0.07; branchDelta := 0.10 |}
  | Incorrect => {| topicDelta := 0.03; subtopicDelta := 0.04; branchDelta := 0.05 |}
  | Skipped => deltaTable Skipped
  end.

(** [Math.min(1.0, node.weight + delta)], the excerpt of a correct answer. *)
Definition raise (w delta : Q) : Q := Qmin 1.0 (w + delta).

(** [Math.max(0.1, node.weight - delta)], the excerpt of a skip. *)
Definition lower (w delta : Q) : Q := Qmax 0.1 (w - delta).

Definition adjust (outcome : Outcome) (w delta : Q) : Q :=
  match outcome with
  | Skipped => lower w delta
  | Correct | Incorrect => raise w delta
  end.

Definition newRootTopic : RootTopic :=
  {| weight := DEFAULT_TOPIC_WEIGHT; subtopics := ∅; lastViewed := None |}.

Definition newSubTopic : SubTopic :=
  {| subtopicWeight := DEFAULT_TOPIC_WEIGHT; branches := ∅;
     subtopicLastViewed := None |}.

Definition newBranch : TopicBranch :=
  {| branchWeight := DEFAULT_TOPIC_WEIGHT; branchLastViewed := None |}.

Definition isSkip (outcome : Outcome) : bool :=
  match outcome with Skipped => true | _ => false end.

(** Modelled from the spec: the function of personalizationService.ts that
    applies an outcome is not among the sources; only its two clamping
    excerpts are ([raise], [lower]).  After section 4.1 of the spec: the
    nodes addressed by the labels of the item are looked up or created at
    the default weight; the delta of the outcome is applied, clamped, or
    the compensation delta when the interaction of the item records a skip
    and the outcome is an answer; [lastViewed] of the three nodes is set;
    the interaction is upserted; [totalAnswered] grows for an answer. *)
Definition applyOutcome (now : Z) (profile : UserProfile) (item : FeedItem)
  (outcome : Outcome) (timeSpentMs : Z) : UserProfile :=
  let previous := interactions profile !! itemId item in
  let skippedBefore :=
    match previous with Some i => wasSkipped i | None => false end in
  let deltas :=
    if skippedBefore && negb (isSkip outcome) then compensation outcome
    else deltaTable outcome in
  let topicNode := default newRootTopic (topics profile !! topic item) in
  let subtopicNode :=
    default newSubTopic (subtopics topicNode !! subtopic item) in
  let branchNode := default newBranch (branches subtopicNode !! branch item) in
  let branchNode' :=
    {| branchWeight := adjust outcome (branchWeight branchNode) (branchDelta deltas);
       branchLastViewed := Some now |} in
  let subtopicNode' :=
    {| subtopicWeight :=
         adjust outcome (subtopicWeight subtopicNode) (subtopicDelta deltas);
       branches := <[branch item := branchNode']> (branches subtopicNode);
       subtopicLastViewed := Some now |} in
  let topicNode' :=
    {| weight := adjust outcome (weight topicNode) (topicDelta deltas);
       subtopics := <[subtopic item := subtopicNode']> (subtopics topicNode);
       lastViewed := Some now |} in
  let interaction :=
    {| wasCorrect :=
         match outcome with
         | Correct => AnswerBool true
         | Incorrect => AnswerBool false
         | Skipped =>
             match previous with Some i => wasCorrect i | None => AnswerNull end
         end;
       wasSkipped := isSkip outcome;
       timeSpent := timeSpentMs;
       viewedAt := now |} in
  {| topics := <[topic item := topicNode']> (topics profile);
     interactions := <[itemId item := interaction]> (interactions profile);
     lastRefreshed := lastRefreshed profile;
     coldStartComplete := coldStartComplete profile;
     totalQuestionsAnswered :=
       if isSkip outcome then totalQuestionsAnswered profile
       else Some (ConflictResolver.orZero (totalQuestionsAnswered profile) + 1)%Z |}.

(** The weight range. *)
Definition inWeightRange (w : Q) : Prop := (0.1 <= w /\ w <= 1.0)%Q.

Definition branchInRange (b : TopicBranch) : Prop :=
  inWeightRange (branchWeight b).

Definition subtopicInRange (s : SubTopic) : Prop :=
  inWeightRange (subtopicWeight s)
  /\ map_Forall (fun _ b => branchInRange b) (branches s).

Definition topicInRange (t : RootTopic) : Prop :=
  inWeightRange (weight t)
  /\ map_Forall (fun _ s => subtopicInRange s) (subtopics t).

(** Every topic, subtopic and branch weight of the profile lies in
    [0.1, 1.0]. *)
Definition weightsInRange (profile : UserProfile) : Prop :=
  map_Forall (fun _ t => topicInRange t) (topics profile).

End WeightModel.

(* ===================================================================== *)
(** * Scoring (calculateQuestionScore, from the excerpt)                  *)
(* ===================================================================== *)

Module Scoring.
Import Profile.
Local Open Scope Q_scope.

(** [w || 0.5] for an optional weight: [undefined] and [0] give the
    default. *)
Definition orDefaultWeight (w : option Q) : Q :=
  match w with
  | Some w => if Qeq_bool w 0 then 0.5 else w
  | None => 0.5
  end.

Definition topicNodeOf (userProfile : UserProfile) (question : FeedItem)
  : option RootTopic :=
  topics userProfile !! topic question.

Definition subtopicNodeOf (userProfile : UserProfile) (question : FeedItem)
  : option SubTopic :=
  match topicNodeOf userProfile question with
  | Some t => subtopics t !! subtopic question
  | None => None
  end.

Definition branchNodeOf (userProfile : UserProfile) (question : FeedItem)
  : option TopicBranch :=
  match subtopicNodeOf userProfile question with
  | Some s => branches s !! branch question
  | None => None
  end.

Definition millisecondsPerDay : Z := (1000 * 60 * 60 * 24)%Z.

(** [now] is the value of [Date.now()] at the call. *)
Definition calculateQuestionScore (now : Z) (question : FeedItem)
  (userProfile : UserProfile) : Q :=
  let score := 0 in
  let topicWeight :=
    orDefaultWeight (weight <$> topicNodeOf userProfile question) in
  let subtopicWeight' :=
    orDefaultWeight (subtopicWeight <$> subtopicNodeOf userProfile question) in
  let branchWeight' :=
    orDefaultWeight (branchWeight <$> branchNodeOf userProfile question) in
  let topicAffinity := (topicWeight + subtopicWeight' + branchWeight') / 3 in
  let score := score + topicAffinity * 0.3 in
  match interactions userProfile !! itemId question with
  | Some interaction =>
      let score :=
        match wasCorrect interaction with
        | AnswerUndefined => score
        | AnswerBool true => score + 0.25
        | AnswerBool false | AnswerNull => score + -0.25
        end in
      let score :=
        if (timeSpent interaction <? 3000)%Z then score + 0.15
        else if (timeSpent interaction >? 15000)%Z then score - 0.15
        else score in
      let score := if wasSkipped interaction then score - 0.2 else score in
      let daysSinceLastView :=
        inject_Z (now - viewedAt interaction) / inject_Z millisecondsPerDay in
      let cooldownBonus := Qmin (daysSinceLastView * 0.1) 0.5 in
      score + cooldownBonus
  | None => score + 0.15
  end.

(** ** The formula in the words of the spec *)

(** A weight "defaulting to 0.5 if unseen". *)
Definition unseenDefault (w : option Q) : Q :=
  match w with Some w => w | None => 0.5 end.

Definition topicAffinity (question : FeedItem) (userProfile : UserProfile) : Q :=
  (unseenDefault (weight <$> topicNodeOf userProfile question)
   + unseenDefault (subtopicWeight <$> subtopicNodeOf userProfile question)
   + unseenDefault (branchWeight <$> branchNodeOf userProfile question)) / 3.





Definition daysSinceViewed (now : Z) (i : QuestionInteraction) : Q :=
  inject_Z (now - viewedAt i) / inject_Z millisecondsPerDay.

Definition cooldownBonus (now : Z) (i : QuestionInteraction) : Q :=
  Qmin (0.10 * daysSinceViewed now i) 0.5.



End Scoring.

(* ===================================================================== *)
(** * Cold start: the eligibility filter of the feed (from the excerpt)   *)
(* ===================================================================== *)

Module ColdStart.
Import Profile.
Local Open Scope Q_scope.

(** [userProfile.topics[item.topic]?.weight < threshold]; a comparison
    with [undefined] is false. *)
Definition isLowWeight (userProfile : UserProfile) (item : FeedItem)
  (threshold : Q) : bool :=
  match topics userProfile !! topic item with
  | Some t => negb (Qle_bool threshold (weight t))
  | None => false
  end.

(** [!userProfile.coldStartComplete] *)
Definition isColdStart (userProfile : UserProfile) : bool :=
  match coldStartComplete userProfile with
  | Some true => false
  | Some false | None => true
  end.

(** [userProfile.totalQuestionsAnswered || 0] *)
Definition totalAnswered (userProfile : UserProfile) : Z :=
  ConflictResolver.orZero (totalQuestionsAnswered userProfile).

(** The callback of the filter; [None] is the [undefined] of a callback
    that ends without [return], which the filter takes as false. *)
Definition eligible (userProfile : UserProfile) (existingIds : gset string)
  (item : FeedItem) : option bool :=
  let totalQuestionsAnswered := totalAnswered userProfile in
  let notExisting := negb (bool_decide (itemId item ∈ existingIds)) in
  if isColdStart userProfile then
    if (totalQuestionsAnswered <? 5)%Z then
      Some (notExisting && isAppropriateDifficulty item)
    else if (totalQuestionsAnswered <? 12)%Z then
      let isLow := isLowWeight userProfile item 0.2 in
      Some (notExisting && negb isLow && isAppropriateDifficulty item)
    else if (totalQuestionsAnswered <? 20)%Z then
      let isLow := isLowWeight userProfile item 0.3 in
      Some (notExisting && negb isLow)
    else None
  else
    let isLow := isLowWeight userProfile item 0.2 in
    Some (notExisting && negb isLow).

Inductive Phase : Type := Exploration | Branching | Adaptive | SteadyState.

Definition phaseNumber (p : Phase) : nat :=
  match p with
  | Exploration => 1
  | Branching => 2
  | Adaptive => 3
  | SteadyState => 4
  end.

(** The filter of each phase. *)
Definition phaseFilter (p : Phase) (userProfile : UserProfile)
  (existingIds : gset string) (item : FeedItem) : bool :=
  let notExisting := negb (bool_decide (itemId item ∈ existingIds)) in
  match p with
  | Exploration => notExisting && isAppropriateDifficulty item
  | Branching =>
      notExisting && negb (isLowWeight userProfile item 0.2)
      && isAppropriateDifficulty item
  | Adaptive => notExisting && negb (isLowWeight userProfile item 0.3)
  | SteadyState => notExisting && negb (isLowWeight userProfile item 0.2)
  end.

(** The branch of the filter that a profile takes. *)
Definition phaseOf (userProfile : UserProfile) : option Phase :=
  if isColdStart userProfile then
    if (totalAnswered userProfile <? 5)%Z then Some Exploration
    else if (totalAnswered userProfile <? 12)%Z then Some Branching
    else if (totalAnswered userProfile <? 20)%Z then Some Adaptive
    else None
  else Some SteadyState.

(** The phase in the words of the spec: a function of [totalAnswered]. *)
Definition claimedPhase (totalAnswered : Z) : Phase :=
  if (totalAnswered <? 5)%Z then Exploration
  else if (totalAnswered <? 12)%Z then Branching
  else if (totalAnswered <? 20)%Z then Adaptive
  else SteadyState.

(** From one profile to a later one: [totalAnswered] has not decreased
    and [coldStartComplete] has not gone back to false. *)
Definition laterThan (p q : UserProfile) : Prop :=
  (totalAnswered p <= totalAnswered q)%Z
  /\ (isColdStart p = false -> isColdStart q = false).

End ColdStart.

(* ===================================================================== *)
(** * The filter of the checkpoints (from the excerpt)                    *)
(* ===================================================================== *)

Module Checkpoint.
Import Profile ColdStart.
Local Open Scope Q_scope.

(** The callback of [feedData.filter] at a checkpoint.  Its cold-start
    branch ends in a plain [else]; outside cold start the callback ends
    without [return]. *)
Definition available (userProfile : UserProfile) (existingIds : gset string)
  (item : FeedItem) : option bool :=
  let totalQuestionsAnswered := totalAnswered userProfile in
  let notExisting := negb (bool_decide (itemId item ∈ existingIds)) in
  if isColdStart userProfile then
    if (totalQuestionsAnswered <? 5)%Z then
      Some (notExisting && isAppropriateDifficulty item)
    else if (totalQuestionsAnswered <? 12)%Z then
      let isLow := isLowWeight userProfile item 0.2 in
      Some (notExisting && negb isLow && isAppropriateDifficulty item)
    else
      let isLow := isLowWeight userProfile item 0.3 in
      Some (notExisting && negb isLow)
  else None.

(** What [Array.prototype.filter] makes of the value of its callback:
    [undefined] drops the item. *)
Definition kept (verdict : option bool) : bool :=
  match verdict with Some b => b | None => false end.

(** [feedData.filter(...)] with the callback of the checkpoints. *)
Definition availableQuestions (userProfile : UserProfile)
  (existingIds : gset string) (feedData : list FeedItem) : list FeedItem :=
  List.filter (fun item => kept (available userProfile existingIds item))
              feedData.

(** The same filter with the callback of the feed generation. *)
Definition eligibleQuestions (userProfile : UserProfile)
  (existingIds : gset string) (feedData : list FeedItem) : list FeedItem :=
  List.filter (fun item => kept (eligible userProfile existingIds item))
              feedData.

End Checkpoint.

(* ===================================================================== *)
(** * The profile row: written by the sync, read by the load              *)
(* ===================================================================== *)

Module SyncRow.
Import Profile.

(** A row of [user_profile_data] as the two excerpts use it; a column
    that the load guards with [||] may be null. *)
Record ProfileData : Type := {
  row_id : string;
  row_topics : gmap string RootTopic;
  row_interactions : option (gmap string QuestionInteraction);
  cold_start_complete : option bool;
  total_questions_answered : option Z;
  last_refreshed : Z
}.

(** The table, by [id]. *)
Definition Table : Type := gmap string ProfileData.

(** [profileData] of [_syncUserProfile]. *)
Definition profileData (userId : string) (userProfile : UserProfile)
  : ProfileData :=
  {| row_id := userId;
     row_topics := topics userProfile;
     row_interactions := Some (interactions userProfile);
     cold_start_complete := Some (default false (coldStartComplete userProfile));
     total_questions_answered :=
       Some (ConflictResolver.orZero (totalQuestionsAnswered userProfile));
     last_refreshed := lastRefreshed userProfile |}.

(** [_syncUserProfile]: the upsert on conflict of [id], on a table that
    accepts it. *)
Definition _syncUserProfile (table : Table) (userId : string)
  (userProfile : UserProfile) : Table :=
  <[userId := profileData userId userProfile]> table.

(** The profile made of a row that is newer than the local profile. *)
Definition profileOfRow (data : ProfileData) : UserProfile :=
  {| topics := row_topics data;
     interactions := default ∅ (row_interactions data);
     lastRefreshed := last_refreshed data;
     coldStartComplete := Some (default false (cold_start_complete data));
     totalQuestionsAnswered :=
       Some (ConflictResolver.orZero (total_questions_answered data)) |}.

(** The profile sync of the start-up: the row of the user is selected,
    and returned as a profile when it is newer than the local profile;
    [None] when the excerpt returns nothing. *)
Definition loadNewer (table : Table) (userId : string)
  (localProfile : UserProfile) : option UserProfile :=
  match table !! userId with
  | Some data =>
      if (last_refreshed data >? lastRefreshed localProfile)%Z
      then Some (profileOfRow data)
      else None
  | None => None
  end.

End SyncRow.

(* ===================================================================== *)
(** * Example data                                                        *)
(* ===================================================================== *)

Module Examples.
Import Profile.

(** A profile whose only topic is [Science]. *)
Definition scienceProfile (w : Q) (refreshed : Z) : UserProfile :=
  {| topics := {[ "Science" := {| weight := w; subtopics := ∅;
                                  lastViewed := None |} ]};
     interactions := ∅;
     lastRefreshed := refreshed;
     coldStartComplete := None;
     totalQuestionsAnswered := None |}.

(** A weight tree whose only topic is [History]. *)
Definition historyTopics (w : Q) : gmap string RootTopic :=
  {[ "History" := {| weight := w; subtopics := ∅; lastViewed := None |} ]}.

(** A profile without topics that has seen the item [q1] at time [seen]. *)
Definition viewedProfile (answer : Answer) (seen : Z) : UserProfile :=
  {| topics := ∅;
     interactions := {[ "q1" := {| wasCorrect := answer; wasSkipped := false;
                                   timeSpent := 5000; viewedAt := seen |} ]};
     lastRefreshed := seen;
     coldStartComplete := None;
     totalQuestionsAnswered := Some 1%Z |}.

(** A profile with [Science] at [w] that has answered the item [q1]
    correctly at time [seen]. *)
Definition answeredProfile (w : Q) (seen : Z) : UserProfile :=
  {| topics := topics (scienceProfile w seen);
     interactions := interactions (viewedProfile (AnswerBool true) seen);
     lastRefreshed := seen;
     coldStartComplete := None;
     totalQuestionsAnswered := Some 1%Z |}.

Definition mechanicsItem : FeedItem :=
  {| itemId := "q1"; topic := "Science"; subtopic := "Physics";
     branch := "Mechanics"; isAppropriateDifficulty := true |}.

(** A profile with [Science] at [w], the cold-start flag [complete],
    [answered] answered questions, refreshed at [refreshed]. *)
Definition countedProfile (w : Q) (complete : option bool)
  (answered refreshed : Z) : UserProfile :=
  {| topics := {[ "Science" := {| weight := w; subtopics := ∅;
                                  lastViewed := None |} ]};
     interactions := ∅;
     lastRefreshed := refreshed;
     coldStartComplete := complete;
     totalQuestionsAnswered := Some answered |}.

(** A store that refuses the fingerprint query with a permission error and
    fails on the two other queries. *)
Definition refusingStore : QuestionStore.Store :=
  {| QuestionStore.selectByFingerprint := fun _ =>
       Async.Resolved {| QuestionStore.data := None;
                         QuestionStore.error := Some (Some "permission denied") |};
     QuestionStore.selectAll := Async.Rejected;
     QuestionStore.selectTen := Async.Rejected |}.

(** A store without the fingerprint column that holds one question. *)
Definition legacyStore : QuestionStore.Store :=
  {| QuestionStore.selectByFingerprint := fun _ =>
       Async.Resolved
         {| QuestionStore.data := None;
            QuestionStore.error :=
              Some (Some QuestionStore.missingColumnMessage) |};
     QuestionStore.selectAll := Async.Rejected;
     QuestionStore.selectTen :=
       Async.Resolved
         {| QuestionStore.data :=
              Some [ {| QuestionStore.id := "1";
                        QuestionStore.question_text := Some "Who painted it?";
                        QuestionStore.fingerprint := None |} ];
            QuestionStore.error := None |} |}.

(** A store with the fingerprint column, no exact match, and one stored
    question. *)
Definition currentStore : QuestionStore.Store :=
  {| QuestionStore.selectByFingerprint := fun _ =>
       Async.Resolved {| QuestionStore.data := Some [];
                         QuestionStore.error := None |};
     QuestionStore.selectAll :=
       Async.Resolved
         {| QuestionStore.data :=
              Some [ {| QuestionStore.id := "1";
                        QuestionStore.question_text :=
                          Some "Who painted the Mona Lisa?";
                        QuestionStore.fingerprint :=
                          Some "who painted the mona lisa|art" |} ];
            QuestionStore.error := None |};
     QuestionStore.selectTen := Async.Rejected |}.

End Examples.

(* ===================================================================== *)
(** * Properties                                                          *)
(* ===================================================================== *)

(* --------------------------------------------------------------------- *)
(** ** Sorting strings                                                    *)
(* --------------------------------------------------------------------- *)

Section StringOrder.






Import JsString.



End StringOrder.

(* --------------------------------------------------------------------- *)
(** ** The fingerprint depends on the normalised text and the tag set     *)
(* --------------------------------------------------------------------- *)

Section FingerprintInvariance.
Import JsString Fingerprint.

Ltac each_code_unit c :=
  destruct c as [[] [] [] [] [] [] [] []]; try reflexivity; try discriminate.


Lemma isSpace_toLowerChar (c : ascii) :
  isSpace (toLowerChar c) = isSpace c.
Proof. each_code_unit c. Qed.








End FingerprintInvariance.

(* --------------------------------------------------------------------- *)
(** ** Normalised texts                                                   *)
(* --------------------------------------------------------------------- *)

Section NormalTexts.
Import JsString Fingerprint NormalText.

Ltac each_unit c :=
  destruct c as [[] [] [] [] [] [] [] []]; try reflexivity; try discriminate.

Lemma kept_lowered (c : ascii) :
  isWordChar (toLowerChar c) || isSpace (toLowerChar c) = true ->
  isKeptLower (toLowerChar c) = true.
Proof. each_unit c. Qed.

Lemma stripped_lowered (s : string) :
  allUnits isKeptLower (removeNonWordNonSpace (toLowerCase s)) = true.
Proof.
  induction s as [|c s IH]; simpl; [reflexivity|].
  destruct (isWordChar (toLowerChar c) || isSpace (toLowerChar c)) eqn:E;
    [|exact IH].
  simpl. now rewrite (kept_lowered c E).
Qed.

Lemma lowerWord_not_space (c : ascii) :
  isLowerWordChar c = true -> isSpace c = false.
Proof. each_unit c. Qed.

Lemma space_not_lowerWord (c : ascii) :
  isSpace c = true -> isLowerWordChar c = false.
Proof. each_unit c. Qed.

Lemma space32 (c : ascii) : (code c =? 32)%N = true -> isSpace c = true.
Proof. each_unit c. Qed.

Lemma space32_eq (c : ascii) : (code c =? 32)%N = true -> c = " "%char.
Proof. each_unit c. Qed.

Lemma collapse_spaced (s : string) (b : bool) :
  allUnits isKeptLower s = true ->
  spacedFrom b (collapseFrom b s) = true.
Proof.
  revert b. induction s as [|c s IH]; intros b; simpl; [reflexivity|].
  intros [Hc Hs]%andb_true_iff. unfold isKeptLower in Hc.
  destruct (isSpace c) eqn:Esp.
  - destruct b; simpl; auto.
  - rewrite orb_false_r in Hc. simpl. rewrite Hc. auto.
Qed.

Lemma spaced_weaken (s : string) :
  spacedFrom true s = true -> spacedFrom false s = true.
Proof.
  destruct s as [|c s]; simpl; [reflexivity|].
  destruct (isLowerWordChar c); [auto|].
  now rewrite andb_false_r.
Qed.

Lemma trimStart_spaced (s : string) :
  spacedFrom false s = true -> spacedFrom true (trimStart s) = true.
Proof.
  destruct s as [|c s]; simpl; [reflexivity|].
  destruct (isLowerWordChar c) eqn:Ew.
  - rewrite (lowerWord_not_space c Ew). simpl. now rewrite Ew.
  - intros [[H32 _]%andb_true_iff Hs]%andb_true_iff.
    rewrite (space32 c H32).
    destruct s as [|d s]; simpl in *; [reflexivity|].
    destruct (isLowerWordChar d) eqn:Ed.
    + rewrite (lowerWord_not_space d Ed). simpl. now rewrite Ed.
    + now rewrite andb_false_r in Hs.
Qed.

Lemma normalFrom_nonempty (s : string) :
  s <> EmptyString -> normalFrom AtStart s = true ->
  normalFrom AfterSpace s = true.
Proof. destruct s; [congruence|]. intros _. simpl. auto. Qed.

Lemma trimEnd_cons_word (c : ascii) (s : string) :
  isSpace c = false -> trimEnd (String c s) = String c (trimEnd s).
Proof. intros H. simpl. rewrite H. now destruct (trimEnd s). Qed.

Lemma normalFrom_space (c : ascii) (s : string) :
  isLowerWordChar c = false -> (code c =? 32)%N = true ->
  normalFrom AfterWord (String c s) = normalFrom AfterSpace s.
Proof. intros Ew H32. simpl. now rewrite Ew, H32. Qed.

Lemma trimEnd_normal (s : string) (p : Position) :
  p <> AfterSpace ->
  spacedFrom (match p with AtStart => true | _ => false end) s = true ->
  normalFrom p (trimEnd s) = true.
Proof.
  revert p. induction s as [|c s IH]; intros p Hp; simpl.
  - now destruct p.
  - destruct (isLowerWordChar c) eqn:Ew.
    + intros Hs. pose proof (lowerWord_not_space c Ew) as Hsp.
      pose proof (trimEnd_cons_word c s Hsp) as Hcons. simpl in Hcons.
      rewrite Hcons. simpl. rewrite Ew. now apply (IH AfterWord).
    + intros [[H32 Hb]%andb_true_iff Hs]%andb_true_iff.
      destruct p; try discriminate; [|congruence].
      pose proof (IH AtStart ltac:(discriminate) Hs) as Hrest.
      rewrite (space32 c H32).
      destruct (trimEnd s) as [|d t] eqn:Et; [reflexivity|].
      rewrite (normalFrom_space c _ Ew H32).
      apply normalFrom_nonempty; [discriminate|exact Hrest].
Qed.

Lemma normalizeText_normal (question : string) :
  isNormalText (normalizeText question) = true.
Proof.
  unfold isNormalText, normalizeText, trim, collapseSpaces.
  apply (trimEnd_normal _ AtStart); [discriminate|].
  apply trimStart_spaced, collapse_spaced, stripped_lowered.
Qed.

Lemma lower_fixes_lowerWord (c : ascii) :
  isLowerWordChar c = true -> toLowerChar c = c /\ isWordChar c = true.
Proof. each_unit c; split; reflexivity. Qed.

Lemma normal_fixed_lower_strip (s : string) (p : Position) :
  normalFrom p s = true ->
  removeNonWordNonSpace (toLowerCase s) = s.
Proof.
  revert p. induction s as [|c s IH]; intros p; simpl; [reflexivity|].
  destruct (isLowerWordChar c) eqn:Ew.
  - destruct (lower_fixes_lowerWord c Ew) as [-> ->]. simpl.
    intros H. now rewrite (IH _ H).
  - destruct (code c =? 32)%N eqn:E32; [|discriminate].
    rewrite (space32_eq c E32). simpl.
    destruct p; try discriminate. intros H. now rewrite (IH _ H).
Qed.

Lemma normal_fixed_collapse (s : string) (p : Position) :
  normalFrom p s = true ->
  collapseFrom (match p with AfterWord => false | _ => true end) s = s.
Proof.
  revert p. induction s as [|c s IH]; intros p; simpl; [reflexivity|].
  destruct (isLowerWordChar c) eqn:Ew.
  - rewrite (lowerWord_not_space c Ew). intros H.
    now rewrite (IH AfterWord H).
  - destruct (code c =? 32)%N eqn:E32; [|discriminate].
    rewrite (space32_eq c E32). simpl.
    destruct p; try discriminate. intros H. now rewrite (IH AfterSpace H).
Qed.

Lemma collapse_from_start (s : string) :
  normalFrom AtStart s = true -> collapseFrom false s = s.
Proof.
  destruct s as [|c s]; [reflexivity|]. simpl.
  destruct (isLowerWordChar c) eqn:Ew.
  - rewrite (lowerWord_not_space c Ew). intros H.
    now rewrite (normal_fixed_collapse s AfterWord H).
  - now destruct (code c =? 32)%N.
Qed.

Lemma normal_fixed_trimEnd (s : string) (p : Position) :
  normalFrom p s = true -> trimEnd s = s.
Proof.
  revert p. induction s as [|c s IH]; intros p; [reflexivity|].
  simpl normalFrom.
  destruct (isLowerWordChar c) eqn:Ew.
  - intros H. rewrite (trimEnd_cons_word c s (lowerWord_not_space c Ew)).
    now rewrite (IH _ H).
  - destruct (code c =? 32)%N eqn:E32; [|discriminate].
    destruct p; try discriminate. intros H.
    simpl. rewrite (IH _ H).
    destruct s as [|d s]; [discriminate H|reflexivity].
Qed.

Lemma normal_fixed_trimStart (s : string) :
  normalFrom AtStart s = true -> trimStart s = s.
Proof.
  destruct s as [|c s]; [reflexivity|]. simpl.
  destruct (isLowerWordChar c) eqn:Ew.
  - now rewrite (lowerWord_not_space c Ew).
  - now destruct (code c =? 32)%N.
Qed.

Lemma normalizeText_fixed (t : string) :
  isNormalText t = true -> normalizeText t = t.
Proof.
  intros Ht. unfold isNormalText in Ht.
  unfold normalizeText, trim, collapseSpaces.
  rewrite (normal_fixed_lower_strip t AtStart Ht).
  rewrite (collapse_from_start t Ht).
  rewrite (normal_fixed_trimStart t Ht).
  apply (normal_fixed_trimEnd t AtStart Ht).
Qed.

(** The normalised text of any question is a sequence of words of
    [a-z0-9_] separated by single SPACEs; these texts are exactly the fixed
    points of the normalisation, so normalising twice is normalising
    once. *)
Theorem normalizeText_normal_form (s : string) :
  isNormalText (normalizeText s) = true
  /\ (normalizeText s = s <-> isNormalText s = true)
  /\ normalizeText (normalizeText s) = normalizeText s.
Proof.
  split; [apply normalizeText_normal|]. split.
  - split; [|apply normalizeText_fixed].
    intros <-. apply normalizeText_normal.
  - apply normalizeText_fixed, normalizeText_normal.
Qed.

End NormalTexts.

(* --------------------------------------------------------------------- *)
(** ** Splitting a fingerprint                                            *)
(* --------------------------------------------------------------------- *)

Section Splitting.
Import JsString Fingerprint NormalText.

Lemma rev_app_rev_app (a b c : string) :
  String.rev_app (String.rev_app a b) c = String.rev_app b (a ++ c).
Proof.
  revert b c. induction a as [|x a IH]; intros b c; simpl; [reflexivity|].
  now rewrite IH.
Qed.

Lemma append_empty_r (s : string) : s ++ EmptyString = s.
Proof.
  induction s as [|c s IH]; [reflexivity|].
  change (String c (s ++ EmptyString) = String c s). now f_equal.
Qed.

Lemma app_rev_app (u v w : string) :
  String.rev_app u v ++ w = String.rev_app u (v ++ w).
Proof.
  revert v w. induction u as [|y u IH]; intros v w; simpl; [reflexivity|].
  now rewrite IH.
Qed.

Lemma rev_cons_app (c : ascii) (cur a : string) :
  String.rev (String c cur) ++ a = String.rev cur ++ String c a.
Proof. unfold String.rev. simpl. now rewrite !app_rev_app. Qed.

(** A piece that has no separator is read up to the next separator. *)
Lemma splitFrom_piece (sep : ascii) (cur a b : string) :
  lacks sep a = true ->
  splitFrom sep cur (a ++ String sep b)
  = (String.rev cur ++ a) :: splitFrom sep EmptyString b.
Proof.
  revert cur. induction a as [|c a IH]; intros cur; simpl.
  - intros _. now rewrite Ascii.eqb_refl, append_empty_r.
  - intros [Hc Ha]%andb_true_iff. apply negb_true_iff in Hc. rewrite Hc.
    now rewrite (IH _ Ha), rev_cons_app.
Qed.

Lemma splitFrom_last (sep : ascii) (cur a : string) :
  lacks sep a = true ->
  splitFrom sep cur a = [String.rev cur ++ a].
Proof.
  revert cur. induction a as [|c a IH]; intros cur; simpl.
  - intros _. now rewrite append_empty_r.
  - intros [Hc Ha]%andb_true_iff. apply negb_true_iff in Hc. rewrite Hc.
    now rewrite (IH _ Ha), rev_cons_app.
Qed.

Lemma normal_lacks_bar (s : string) (p : Position) :
  normalFrom p s = true -> lacks "|" s = true.
Proof.
  revert p. induction s as [|c s IH]; intros p; simpl; [reflexivity|].
  destruct (isLowerWordChar c) eqn:Ew.
  - intros H. rewrite (IH _ H), andb_true_r.
    destruct c as [[] [] [] [] [] [] [] []]; try reflexivity; discriminate.
  - destruct (code c =? 32)%N eqn:E32; [|discriminate].
    destruct p; try discriminate. intros H. rewrite (IH _ H), andb_true_r.
    destruct c as [[] [] [] [] [] [] [] []]; try reflexivity; discriminate.
Qed.

Lemma firstPiece_fingerprint (question : string) (tags : list string) :
  firstPiece "|" (generateQuestionFingerprint question tags)
  = normalizeText question.
Proof.
  unfold firstPiece, split, generateQuestionFingerprint.
  change ("|" ++ toLowerCase (join "|" (sort tags)))
    with (String "|" (toLowerCase (join "|" (sort tags)))).
  rewrite splitFrom_piece; [reflexivity|].
  apply (normal_lacks_bar _ AtStart), normalizeText_normal.
Qed.

(** The checks read the normalised question back from the fingerprint:
    the piece before the first bar of a generated fingerprint is the
    normalised text of the question, whatever the tags are, and it is a
    normalised text. *)
Theorem fingerprint_first_piece (question : string) (tags : list string) :
  firstPiece "|" (generateQuestionFingerprint question tags)
  = normalizeText question
  /\ isNormalText (firstPiece "|" (generateQuestionFingerprint question tags))
     = true.
Proof.
  rewrite firstPiece_fingerprint. split; [reflexivity|].
  apply normalizeText_normal.
Qed.

End Splitting.

(* --------------------------------------------------------------------- *)
(** ** The fingerprint beyond the Latin-1 range                           *)
(* --------------------------------------------------------------------- *)

Section WideStrings.
Import JsString Fingerprint.

Ltac each_unit c :=
  destruct c as [[] [] [] [] [] [] [] []]; reflexivity.

Lemma wide_isSpace (c : ascii) : Utf16.isSpace (code c) = isSpace c.
Proof. each_unit c. Qed.

Lemma wide_isWordChar (c : ascii) : Utf16.isWordChar (code c) = isWordChar c.
Proof. each_unit c. Qed.

Lemma wide_toLowerUnit (c : ascii) :
  Utf16.toLowerUnit (code c) = Some [code (toLowerChar c)].
Proof. each_unit c. Qed.

Lemma units_app (s t : string) :
  Utf16.units (s ++ t) = (Utf16.units s ++ Utf16.units t)%list.
Proof. induction s as [|c s IH]; simpl; [reflexivity|]. now rewrite IH. Qed.

Lemma wide_toLowerCase (s : string) :
  Utf16.toLowerCase (Utf16.units s) = Some (Utf16.units (toLowerCase s)).
Proof.
  induction s as [|c s IH]; simpl; [reflexivity|].
  now rewrite wide_toLowerUnit, IH.
Qed.

Lemma wide_removeNonWordNonSpace (s : string) :
  Utf16.removeNonWordNonSpace (Utf16.units s)
  = Utf16.units (removeNonWordNonSpace s).
Proof.
  unfold Utf16.removeNonWordNonSpace.
  induction s as [|c s IH]; simpl; [reflexivity|].
  rewrite wide_isSpace, wide_isWordChar, IH.
  now destruct (isWordChar c || isSpace c).
Qed.

Lemma wide_collapseFrom (inRun : bool) (s : string) :
  Utf16.collapseFrom inRun (Utf16.units s) = Utf16.units (collapseFrom inRun s).
Proof.
  revert inRun. induction s as [|c s IH]; intros inRun; simpl; [reflexivity|].
  rewrite wide_isSpace.
  destruct (isSpace c); [destruct inRun|]; simpl; now rewrite IH.
Qed.

Lemma wide_trimStart (s : string) :
  Utf16.trimStart (Utf16.units s) = Utf16.units (trimStart s).
Proof.
  induction s as [|c s IH]; simpl; [reflexivity|].
  rewrite wide_isSpace. now destruct (isSpace c).
Qed.

Lemma wide_trimEnd (s : string) :
  Utf16.trimEnd (Utf16.units s) = Utf16.units (trimEnd s).
Proof.
  induction s as [|c s IH]; simpl; [reflexivity|].
  rewrite IH, wide_isSpace.
  destruct (trimEnd s); simpl; [now destruct (isSpace c)|reflexivity].
Qed.

Lemma wide_compare (x y : string) :
  Utf16.compare (Utf16.units x) (Utf16.units y) = String.compare x y.
Proof.
  revert y. induction x as [|a x IH]; intros [|b y]; simpl; try reflexivity.
  unfold Ascii.compare, code. rewrite IH. reflexivity.
Qed.

Lemma wide_insertSorted (x : string) (l : list string) :
  Utf16.insertSorted (Utf16.units x) (List.map Utf16.units l)
  = List.map Utf16.units (insertSorted x l).
Proof.
  induction l as [|y l IH]; simpl; [reflexivity|].
  unfold Utf16.leb, String.leb. rewrite wide_compare.
  destruct (String.compare x y); simpl; now rewrite ?IH.
Qed.

Lemma wide_sort (l : list string) :
  Utf16.sort (List.map Utf16.units l) = List.map Utf16.units (sort l).
Proof.
  induction l as [|x l IH]; simpl; [reflexivity|].
  now rewrite IH, wide_insertSorted.
Qed.

Lemma wide_join (sep : string) (parts : list string) :
  Utf16.join (Utf16.units sep) (List.map Utf16.units parts)
  = Utf16.units (join sep parts).
Proof.
  induction parts as [|p parts IH]; simpl; [reflexivity|].
  destruct parts as [|q parts]; [reflexivity|].
  rewrite !units_app, <- IH. reflexivity.
Qed.

(** On texts and tags of the Latin-1 range the fingerprint on code units
    is the fingerprint of [Fingerprint]. *)
Lemma wide_generateQuestionFingerprint (question : string)
  (tags : list string) :
  Utf16.generateQuestionFingerprint (Utf16.units question)
    (List.map Utf16.units tags)
  = Some (Utf16.units (generateQuestionFingerprint question tags)).
Proof.
  unfold Utf16.generateQuestionFingerprint, generateQuestionFingerprint.
  rewrite wide_toLowerCase, wide_sort.
  change [Utf16.bar] with (Utf16.units "|").
  rewrite wide_join, wide_toLowerCase. cbv zeta.
  unfold normalizeText, trim, collapseSpaces, Utf16.trim, Utf16.collapseSpaces.
  rewrite wide_removeNonWordNonSpace, wide_collapseFrom, wide_trimStart,
    wide_trimEnd.
  now rewrite !units_app.
Qed.


End WideStrings.

(* --------------------------------------------------------------------- *)
(** ** The two [getTopicColor] agree                                      *)
(* --------------------------------------------------------------------- *)

Section TopicColorAgreement.
Import JsString JsObject.

Lemma ownProperty_value (o : StringRecord) (key v : string) :
  ownProperty o key = Some v -> In v (List.map snd o).
Proof.
  unfold ownProperty.
  destruct (List.find _ o) as [kv|] eqn:E; [|discriminate].
  intros [= <-]. apply find_some in E as [E _]. now apply in_map.
Qed.

(** With only non-empty strings in the object, [o[key]] is truthy exactly
    when [key in o]. *)
Lemma truthy_getProperty (o : StringRecord) (key : string) :
  Forall (fun v => v <> EmptyString) (List.map snd o) ->
  truthy (getProperty o key) = hasProperty o key.
Proof.
  intros Hne. unfold getProperty, hasProperty.
  destruct (ownProperty o key) as [v|] eqn:E; simpl.
  - apply ownProperty_value in E. rewrite List.Forall_forall in Hne.
    specialize (Hne v E). now destruct (String.eqb_spec v EmptyString).
  - now destruct (inherited key).
Qed.

Lemma topicColors_nonempty :
  Forall (fun v => v <> EmptyString) (List.map snd DesignIndex.topicColors).
Proof. simpl. repeat constructor; discriminate. Qed.

(** C10. The [getTopicColor] of the design module and the one of the
    design-system hook module return the same colour for every category:
    the direct match, then the same partial match over the keys of
    [topicColors], then the same default. *)
Theorem getTopicColor_implementations_agree (category : string) :
  DesignIndex.getTopicColor category = UseDesignSystem.getTopicColor category.
Proof.
  unfold UseDesignSystem.getTopicColor, UseDesignSystem.importedTopicColors,
    UseDesignSystem.getTopicColorWith, DesignIndex.getTopicColor.
  rewrite (truthy_getProperty _ _ topicColors_nonempty).
  destruct (hasProperty DesignIndex.topicColors category); [reflexivity|].
  destruct (List.find _ (objectKeys DesignIndex.topicColors));
    reflexivity.
Qed.

End TopicColorAgreement.

(* --------------------------------------------------------------------- *)
(** ** What [getTopicColor] returns                                       *)
(* --------------------------------------------------------------------- *)

Section TopicColorResult.
Import JsString JsObject.

Lemma ownProperty_binding (o : StringRecord) (key v : string) :
  ownProperty o key = Some v -> In (key, v) o.
Proof.
  unfold ownProperty.
  destruct (List.find _ o) as [[k w]|] eqn:E; [|discriminate].
  intros [= <-]. apply find_some in E as [E Hk]. simpl in Hk.
  apply String.eqb_eq in Hk. now subst k.
Qed.

Lemma ownProperty_of_key (o : StringRecord) (key : string) :
  In key (objectKeys o) -> exists v, ownProperty o key = Some v.
Proof.
  unfold objectKeys, ownProperty. intros Hin.
  apply in_map_iff in Hin as [[k v] [Hk Hin]]. simpl in Hk. subst k.
  destruct (List.find _ o) as [kv|] eqn:E; [eauto|].
  apply (find_none _ _ E) in Hin. simpl in Hin.
  now rewrite String.eqb_refl in Hin.
Qed.

Lemma inherited_not_own (category : string) :
  inherited category = true ->
  ownProperty DesignIndex.topicColors category = None.
Proof.
  unfold inherited. intros H.
  apply existsb_exists in H as [name [Hin Heq]].
  apply String.eqb_eq in Heq. subst name.
  simpl in Hin.
  repeat (destruct Hin as [<-|Hin]; [reflexivity|]). destruct Hin.
Qed.

(** [getTopicColor] never returns [undefined].  For a category that is
    not the name of a member of [Object.prototype] it returns a colour
    string of the table; for such a name ([constructor], [toString], ...)
    it returns the inherited member, which is not a string. *)
Theorem getTopicColor_total (category : string) :
  DesignIndex.getTopicColor category <> JsUndefined
  /\ (inherited category = false ->
      exists key color,
        In (key, color) DesignIndex.topicColors
        /\ DesignIndex.getTopicColor category = JsStr color)
  /\ (inherited category = true ->
      DesignIndex.getTopicColor category = JsInherited category).
Proof.
  assert (forall key, In key (objectKeys DesignIndex.topicColors) ->
            exists color, In (key, color) DesignIndex.topicColors
              /\ getProperty DesignIndex.topicColors key = JsStr color)
    as Hkey.
  { intros key Hin. apply ownProperty_of_key in Hin as [v Hv].
    exists v. split; [now apply ownProperty_binding|].
    unfold getProperty. now rewrite Hv. }
  assert (inherited category = false ->
          exists key color,
            In (key, color) DesignIndex.topicColors
            /\ DesignIndex.getTopicColor category = JsStr color) as Hstr.
  { intros Hinh. unfold DesignIndex.getTopicColor. cbv zeta.
    rewrite (truthy_getProperty _ _ topicColors_nonempty).
    unfold hasProperty, getProperty.
    destruct (ownProperty DesignIndex.topicColors category) as [v|] eqn:E.
    - exists category, v. split; [now apply ownProperty_binding|reflexivity].
    - rewrite Hinh.
      destruct (List.find _ (objectKeys DesignIndex.topicColors))
        as [key|] eqn:F.
      + apply find_some in F as [F _].
        destruct (Hkey key F) as [color [Hin Hc]].
        exists key, color. split; [assumption|].
        unfold getProperty in Hc. exact Hc.
      + exists "default", "#455A64". split; [|reflexivity].
        simpl. repeat (first [now left|right]). }
  assert (inherited category = true ->
          DesignIndex.getTopicColor category = JsInherited category) as Hinh.
  { intros H. unfold DesignIndex.getTopicColor, getProperty. cbv zeta.
    rewrite (inherited_not_own _ H), H. reflexivity. }
  split; [|split; assumption].
  destruct (inherited category) eqn:E.
  - rewrite (Hinh eq_refl). discriminate.
  - destruct (Hstr eq_refl) as [key [color [_ ->]]]. discriminate.
Qed.

Lemma getTopicColor_total_witness :
  exists key color,
    In (key, color) DesignIndex.topicColors
    /\ DesignIndex.getTopicColor "Quantum physics" = JsStr color.
Proof.
  apply (getTopicColor_total "Quantum physics"). reflexivity.
Defined.

(** A category that is spelled as a key of the table up to the case of
    its letters, without being a key itself, gets the colour of that key,
    with three exceptions, each taken by a key that comes first in the
    table and contains or is contained in it: [Culture] in another case
    gets the colour of [Pop Culture], [Ancient History] and
    [Modern History] get the colour of [History]. *)
Theorem getTopicColor_ignores_case (category key color : string) :
  In (key, color) DesignIndex.topicColors ->
  toLowerCase category = toLowerCase key ->
  hasProperty DesignIndex.topicColors category = false ->
  DesignIndex.getTopicColor category
  = JsStr (if String.eqb key "Culture" then "#FFD600"
           else if String.eqb key "Ancient History"
                   || String.eqb key "Modern History" then "#D500F9"
           else color).
Proof.
  intros Hin Hlower Hhas.
  unfold DesignIndex.getTopicColor. cbv zeta.
  rewrite (truthy_getProperty _ _ topicColors_nonempty), Hhas, Hlower.
  clear Hhas Hlower. simpl in Hin.
  repeat (destruct Hin as [[= <- <-]|Hin]; [vm_compute; reflexivity|]).
  destruct Hin.
Qed.

Lemma getTopicColor_ignores_case_witness :
  DesignIndex.getTopicColor "SCIENCE" = JsStr "#00B8D4"
  /\ DesignIndex.getTopicColor "culture" = JsStr "#FFD600".
Proof.
  split.
  - apply (getTopicColor_ignores_case "SCIENCE" "Science" "#00B8D4");
      [simpl; tauto|reflexivity|reflexivity].
  - apply (getTopicColor_ignores_case "culture" "Culture" "#9C27B0");
      [simpl; tauto|reflexivity|reflexivity].
Defined.

End TopicColorResult.

(* --------------------------------------------------------------------- *)
(** ** [checkQuestionExists] contains every failure of the store          *)
(* --------------------------------------------------------------------- *)

Section DuplicateCheck.
Import JsString Fingerprint Async QuestionStore.

Variable semanticallySimilar : string -> string -> Outcome bool.

Lemma tryCatch_false_returns {A : Type} (body : Outcome bool) :
  exists b, tryCatch body (fun _ => Returned false) = Returned b.
Proof. destruct body; simpl; eauto. Qed.

Lemma tryCatch_false_true (body : Outcome bool) :
  tryCatch body (fun _ => Returned false) = Returned true ->
  body = Returned true.
Proof. destruct body; simpl; congruence. Qed.

Lemma similarityLoop_true (normalizedQuestion : string)
  (questions : list QuestionRow) :
  similarityLoop semanticallySimilar normalizedQuestion questions
  = Returned true ->
  exists question text,
    In question questions
    /\ nonEmptyText (question_text question) = Some text
    /\ ((wordDifferences normalizedQuestion
           (storedNormalizedOf text (fingerprint question)) <= 3)%nat
        \/ semanticallySimilar normalizedQuestion text = Returned true).
Proof.
  induction questions as [|question rest IH]; simpl; [discriminate|].
  destruct (nonEmptyText (question_text question)) as [text|] eqn:Htext.
  - destruct (Nat.leb_spec
                (wordDifferences normalizedQuestion
                   (storedNormalizedOf text (fingerprint question))) 3)
      as [Hle|Hgt].
    + intros _. exists question, text. auto.
    + destruct (semanticallySimilar normalizedQuestion text) as [[|]|e] eqn:Hsem;
        simpl; intros H.
      * exists question, text. auto.
      * destruct (IH H) as (q & t & Hin & Hq); eauto.
      * destruct (IH H) as (q & t & Hin & Hq); eauto.
  - intros H. destruct (IH H) as (q & t & Hin & Hq); eauto.
Qed.

Lemma fallbackLoop_true (normalizedQuestion : string)
  (questions : list QuestionRow) :
  fallbackLoop normalizedQuestion questions = true ->
  exists question text,
    In question questions
    /\ nonEmptyText (question_text question) = Some text
    /\ textsMatch (normalizeText text) normalizedQuestion = true.
Proof.
  induction questions as [|question rest IH]; simpl; [discriminate|].
  destruct (nonEmptyText (question_text question)) as [text|] eqn:Htext.
  - destruct (textsMatch (normalizeText text) normalizedQuestion) eqn:Hm.
    + intros _. exists question, text. auto.
    + intros H. destruct (IH H) as (q & t & Hin & Hq); eauto.
  - intros H. destruct (IH H) as (q & t & Hin & Hq); eauto.
Qed.

Lemma checkQuestionSimilarity_true (store : Store) (fp : string) :
  checkQuestionSimilarity semanticallySimilar store fp = Returned true ->
  similarStoredQuestion semanticallySimilar store fp.
Proof.
  unfold checkQuestionSimilarity. intros H%tryCatch_false_true.
  destruct (selectAll store) as [r|] eqn:Hsel; simpl in H; [|discriminate].
  destruct (error r) eqn:Herr; [discriminate|].
  destruct (data r) as [[|q qs]|] eqn:Hdata; try discriminate.
  apply (similarityLoop_true _ (q :: qs)) in H
    as (question & text & Hin & Htext & Hsim).
  exists r, (q :: qs), question, text. auto 10.
Qed.

Lemma fallbackQuestionCheck_true (store : Store) (fp : string) :
  fallbackQuestionCheck store fp = Returned true ->
  exists r10 rows question text,
    selectTen store = Resolved r10 /\ error r10 = None /\ data r10 = Some rows
    /\ In question rows
    /\ nonEmptyText (question_text question) = Some text
    /\ textsMatch (normalizeText text) (firstPiece "|" fp) = true.
Proof.
  unfold fallbackQuestionCheck. intros H%tryCatch_false_true.
  destruct (selectTen store) as [r|] eqn:Hsel; simpl in H; [|discriminate].
  destruct (error r) eqn:Herr; [discriminate|].
  destruct (data r) as [[|q qs]|] eqn:Hdata; try discriminate.
  injection H as H.
  apply (fallbackLoop_true _ (q :: qs)) in H
    as (question & text & Hin & Htext & Hm).
  exists r, (q :: qs), question, text. auto 10.
Qed.

Lemma checkQuestionSimilarity_returns (store : Store) (fp : string) :
  exists b, checkQuestionSimilarity semanticallySimilar store fp = Returned b.
Proof. unfold checkQuestionSimilarity. apply (@tryCatch_false_returns bool). Qed.

Lemma fallbackQuestionCheck_returns (store : Store) (fp : string) :
  exists b, fallbackQuestionCheck store fp = Returned b.
Proof. unfold fallbackQuestionCheck. apply (@tryCatch_false_returns bool). Qed.

(** The paths of [checkQuestionExists]. *)
Lemma checkQuestionExists_paths (store : Store) (fp : string) :
  checkQuestionExists semanticallySimilar store fp
  = match selectByFingerprint store fp with
    | Rejected => Returned false
    | Resolved r =>
        match error r with
        | Some None => Returned false
        | Some (Some m) =>
            if includes m missingColumnMessage
            then fallbackQuestionCheck store fp
            else Returned false
        | None =>
            match data r with
            | Some (_ :: _) => Returned true
            | _ => checkQuestionSimilarity semanticallySimilar store fp
            end
        end
    end.
Proof.
  unfold checkQuestionExists.
  destruct (selectByFingerprint store fp) as [r|]; simpl; [|reflexivity].
  destruct (error r) as [[m|]|]; simpl; try reflexivity.
  - now destruct (includes m missingColumnMessage).
  - now destruct (data r) as [[|row rows]|].
Qed.

(** C9. [checkQuestionExists] is total and never passes a failure of the
    remote store on to its caller: it always resolves to a boolean; when
    the fingerprint query fails with anything but the missing-column error
    it resolves to [false]; and it resolves to [true] only on an exact
    fingerprint match or when a sufficiently similar stored question is
    found (by the similarity check, or by the text comparison the
    missing-column error falls back to). *)
Theorem checkQuestionExists_contains_store_failures
  (store : Store) (fp : string) :
  (exists b, checkQuestionExists semanticallySimilar store fp = Returned b)
  /\ (fingerprintQueryFailed store fp ->
      checkQuestionExists semanticallySimilar store fp = Returned false)
  /\ (checkQuestionExists semanticallySimilar store fp = Returned true ->
      exactFingerprintMatch store fp
      \/ similarStoredQuestion semanticallySimilar store fp
      \/ fallbackTextMatch store fp).
Proof.
  rewrite checkQuestionExists_paths. split; [|split].
  - destruct (selectByFingerprint store fp) as [r|]; [|eauto].
    destruct (error r) as [[m|]|]; [| eauto |].
    + destruct (includes m missingColumnMessage); [|eauto].
      apply fallbackQuestionCheck_returns.
    + destruct (data r) as [[|row rows]|];
        eauto using checkQuestionSimilarity_returns.
  - intros [Hrej|(r & message & Hsel & Herr & Hmsg)].
    + now rewrite Hrej.
    + rewrite Hsel, Herr.
      destruct message as [m|]; simpl in *; [|reflexivity].
      destruct (includes m missingColumnMessage); [congruence|reflexivity].
  - destruct (selectByFingerprint store fp) as [r|] eqn:Hsel; [|discriminate].
    destruct (error r) as [[m|]|] eqn:Herr; [| discriminate |].
    + destruct (includes m missingColumnMessage) eqn:Hm; [|discriminate].
      intros H. apply fallbackQuestionCheck_true
        in H as (r10 & rows & question & text & H).
      right; right. exists r, m, r10, rows, question, text. tauto.
    + destruct (data r) as [[|row rows]|] eqn:Hdata; intros H.
      * right; left. now apply checkQuestionSimilarity_true.
      * left. exists r, row, rows. auto.
      * right; left. now apply checkQuestionSimilarity_true.
Qed.

End DuplicateCheck.

Lemma checkQuestionExists_contains_store_failures_witness :
  QuestionStore.checkQuestionExists (fun _ _ => Async.Thrown Async.TypeError)
    Examples.refusingStore "who painted it|art"
  = Async.Returned false.
Proof.
  apply (checkQuestionExists_contains_store_failures
           (fun _ _ => Async.Thrown Async.TypeError) Examples.refusingStore).
  right. exists {| QuestionStore.data := None;
                   QuestionStore.error := Some (Some "permission denied") |},
    (Some "permission denied").
  repeat split. vm_compute. discriminate.
Defined.

(* --------------------------------------------------------------------- *)
(** ** Enhanced fingerprints and their similarity                         *)
(* --------------------------------------------------------------------- *)

Section SemanticSimilarity.
Import JsString Fingerprint NormalText Semantic.
Local Open Scope Q_scope.

(** *** The edit distance is at most the longer length *)

Lemma fillRow_bounded (bc : ascii) (a : string) (above : list nat)
  (i j diag left : nat) :
  (diag <= Nat.max i j)%nat -> (left <= Nat.max (S i) j)%nat ->
  cellsBounded i (S j) above ->
  cellsBounded (S i) (S j) (fillRow bc a diag left above).
Proof.
  revert above j diag left.
  induction a as [|ac a IH]; intros [|up above] j diag left Hd Hl Ha;
    simpl; try exact I.
  destruct Ha as [Hup Ha]. split.
  - destruct (Ascii.eqb bc ac); lia.
  - apply IH; [lia| |exact Ha].
    destruct (Ascii.eqb bc ac); lia.
Qed.

Lemma nextRow_bounded (bc : ascii) (a : string) (i : nat) (row : list nat) :
  cellsBounded i 0 row -> cellsBounded (S i) 0 (nextRow bc a (S i) row).
Proof.
  destruct row as [|diag above]; simpl.
  - intros _. split; [lia|exact I].
  - intros [Hd Ha]. split; [lia|].
    apply fillRow_bounded; [lia|lia|exact Ha].
Qed.

Lemma lastRow_bounded (a b : string) (i : nat) (row : list nat) :
  cellsBounded i 0 row ->
  cellsBounded (i + String.length b) 0 (lastRow a i row b).
Proof.
  revert i row. induction b as [|bc b IH]; intros i row H; simpl.
  - now rewrite Nat.add_0_r.
  - rewrite <- Nat.add_succ_comm. apply IH. now apply nextRow_bounded.
Qed.

Lemma seq_bounded (j n : nat) : cellsBounded 0 j (seq j n).
Proof.
  revert j. induction n as [|n IH]; intros j; simpl; [exact I|].
  split; [lia|apply IH].
Qed.

Lemma last_bounded (i j : nat) (row : list nat) :
  cellsBounded i j row ->
  (List.last row 0 <= Nat.max i (j + (List.length row - 1)))%nat.
Proof.
  revert j. induction row as [|v row IH]; intros j; simpl; [lia|].
  intros [Hv Hrow]. destruct row as [|w row]; [simpl; lia|].
  specialize (IH (S j) Hrow). simpl in *. lia.
Qed.

Lemma fillRow_length (bc : ascii) (a : string) (diag left : nat)
  (above : list nat) :
  (List.length (fillRow bc a diag left above) <= String.length a)%nat.
Proof.
  revert diag left above.
  induction a as [|ac a IH]; intros diag left [|up above]; simpl; try lia.
  specialize (IH up (if Ascii.eqb bc ac then diag
                     else Nat.min (Nat.min (diag + 1) (left + 1)) (up + 1))
                above). lia.
Qed.

Lemma lastRow_length (a b : string) (i : nat) (row : list nat) :
  (List.length row <= S (String.length a))%nat ->
  (List.length (lastRow a i row b) <= S (String.length a))%nat.
Proof.
  revert i row. induction b as [|bc b IH]; intros i row H; simpl; [exact H|].
  apply IH. destruct row as [|diag above]; simpl; [lia|].
  pose proof (fillRow_length bc a diag (S i) above). lia.
Qed.

Lemma levenshteinDistance_bounded (a b : string) :
  (levenshteinDistance a b
   <= Nat.max (String.length a) (String.length b))%nat.
Proof.
  unfold levenshteinDistance.
  pose proof (lastRow_bounded a b 0 (seq 0 (S (String.length a)))
                (seq_bounded 0 _)) as Hb.
  apply last_bounded in Hb.
  pose proof (lastRow_length a b 0 (seq 0 (S (String.length a)))) as Hl.
  rewrite length_seq in Hl. specialize (Hl (le_n _)).
  rewrite !Nat.add_0_l in Hb. lia.
Qed.

(** *** Ratios *)

Lemma ratio_unit (n d : nat) :
  (n <= d)%nat -> 0 <= ratio n d /\ ratio n d <= 1.
Proof.
  intros H. unfold ratio. destruct d as [|d].
  - assert (n = 0%nat) as -> by lia. split; discriminate.
  - assert (0 < inject_Z (Z.of_nat (S d))) as Hpos.
    { change 0 with (inject_Z 0). rewrite <- Zlt_Qlt. lia. }
    split.
    + apply Qle_shift_div_l; [exact Hpos|].
      rewrite Qmult_0_l. change 0 with (inject_Z 0). rewrite <- Zle_Qle. lia.
    + apply Qle_shift_div_r; [exact Hpos|].
      rewrite Qmult_1_l. rewrite <- Zle_Qle. lia.
Qed.

Lemma sharedRatio_unit (x y : string) :
  0 <= sharedRatio x y /\ sharedRatio x y <= 1.
Proof.
  unfold sharedRatio. apply ratio_unit.
  etransitivity; [apply List.filter_length_le|]. apply Nat.le_max_l.
Qed.

Lemma levenshteinSimilarity_bounds (str1 str2 : string) :
  0 <= calculateLevenshteinSimilarity str1 str2
  /\ calculateLevenshteinSimilarity str1 str2 <= 1.
Proof.
  unfold calculateLevenshteinSimilarity.
  destruct (isEmpty str1 || isEmpty str2); [split; discriminate|].
  destruct (String.eqb _ _); [split; discriminate|].
  destruct (Nat.max _ _ =? 0)%nat; [split; discriminate|].
  destruct (ratio_unit _ _ (levenshteinDistance_bounded
                              (trim (toLowerCase str1))
                              (trim (toLowerCase str2)))) as [H0 H1].
  split; lra.
Qed.

(** The text similarity lies between 0 and 1; it is 0 when one of the
    strings is empty, and 1 when the two strings are equal once lower-cased
    and trimmed. *)
Theorem calculateLevenshteinSimilarity_unit (str1 str2 : string) :
  (0 <= calculateLevenshteinSimilarity str1 str2
   /\ calculateLevenshteinSimilarity str1 str2 <= 1)
  /\ (str1 = EmptyString \/ str2 = EmptyString ->
      calculateLevenshteinSimilarity str1 str2 == 0)
  /\ (str1 <> EmptyString -> str2 <> EmptyString ->
      trim (toLowerCase str1) = trim (toLowerCase str2) ->
      calculateLevenshteinSimilarity str1 str2 == 1).
Proof.
  split; [apply levenshteinSimilarity_bounds|].
  unfold calculateLevenshteinSimilarity. split.
  - intros [-> | ->]; simpl; [reflexivity|].
    now rewrite orb_true_r.
  - intros H1 H2 Heq.
    destruct str1; [congruence|]. destruct str2; [congruence|]. simpl isEmpty.
    simpl orb. cbv iota. rewrite Heq, String.eqb_refl. reflexivity.
Qed.

(** A witness: two spellings of the same text. *)
Lemma calculateLevenshteinSimilarity_unit_witness :
  calculateLevenshteinSimilarity " Mona Lisa" "mona lisa " == 1.
Proof.
  apply (calculateLevenshteinSimilarity_unit " Mona Lisa" "mona lisa ");
    [discriminate|discriminate|reflexivity].
Defined.

(** The similarity of two fingerprints lies between 0 and 1. *)
Theorem calculateFingerprintSimilarity_unit (fp1 fp2 : string) :
  0 <= calculateFingerprintSimilarity fp1 fp2
  /\ calculateFingerprintSimilarity fp1 fp2 <= 1.
Proof.
  unfold calculateFingerprintSimilarity.
  destruct (isEmpty fp1 || isEmpty fp2); [split; discriminate|].
  set (intent := if decide _ then 1 else 0).
  assert (0 <= intent /\ intent <= 1) as [Hi0 Hi1].
  { subst intent. destruct (decide _); split; discriminate. }
  set (entity := match component (split "|" fp1) 1 with
                 | Some e1 => _ | None => 0 end).
  assert (0 <= entity /\ entity <= 1) as [He0 He1].
  { subst entity. destruct (component (split "|" fp1) 1);
      [destruct (component (split "|" fp2) 1)|];
      try (split; discriminate). apply sharedRatio_unit. }
  set (text := match component (split "|" fp1) 2 with
               | Some q1 => _ | None => 0 end).
  assert (0 <= text /\ text <= 1) as [Ht0 Ht1].
  { subst text. destruct (component (split "|" fp1) 2);
      [destruct (component (split "|" fp2) 2)|];
      try (split; discriminate). apply levenshteinSimilarity_bounds. }
  set (tag := match component (split "|" fp1) 3 with
              | Some t1 => _ | None => 0 end).
  assert (0 <= tag /\ tag <= 1) as [Hg0 Hg1].
  { subst tag. destruct (component (split "|" fp1) 3);
      [destruct (component (split "|" fp2) 3)|];
      try (split; discriminate). apply sharedRatio_unit. }
  split; lra.
Qed.

End SemanticSimilarity.

(* --------------------------------------------------------------------- *)
(** ** The edit distance of different strings                             *)
(* --------------------------------------------------------------------- *)

Section EditDistance.
Import JsString Semantic.
Local Open Scope Q_scope.

Lemma fillRow_sound (bc : ascii) (pb : string) (i : nat) (rest : string) :
  forall (pa : string) (j diag left : nat) (above : list nat),
    cellSound pb i pa j diag ->
    cellSound (String bc pb) (S i) pa j left ->
    cellsSound pb i pa j rest above ->
    cellsSound (String bc pb) (S i) pa j rest (fillRow bc rest diag left above).
Proof.
  induction rest as [|ac rest IH]; intros pa j diag left [|up above];
    simpl; try tauto.
  intros (Hd1 & Hd2 & Hd0) (Hl1 & Hl2 & Hl0) [(Hu1 & Hu2 & Hu0) Habove].
  assert (cellSound (String bc pb) (S i) (String ac pa) (S j)
            (if Ascii.eqb bc ac then diag
             else Nat.min (Nat.min (diag + 1) (left + 1)) (up + 1))) as Hcell.
  { destruct (Ascii.eqb_spec bc ac) as [->|Hne].
    - repeat split; try lia. intros H0. now rewrite (Hd0 H0).
    - repeat split; try lia. }
  split; [exact Hcell|].
  apply IH; [repeat split; assumption|exact Hcell|exact Habove].
Qed.

Lemma nextRow_sound (bc : ascii) (pb a : string) (i : nat) (row : list nat) :
  rowSound pb i a row ->
  rowSound (String bc pb) (S i) a (nextRow bc a (S i) row).
Proof.
  destruct row as [|diag above]; simpl; [tauto|].
  intros [Hd Habove].
  assert (cellSound (String bc pb) (S i) EmptyString 0 (S i)) as Hleft
    by (repeat split; lia).
  split; [exact Hleft|]. now apply fillRow_sound.
Qed.

Lemma lastRow_sound (a b : string) :
  forall (pb : string) (i : nat) (row : list nat),
    rowSound pb i a row ->
    rowSound (String.rev_app b pb) (i + String.length b) a (lastRow a i row b).
Proof.
  induction b as [|bc b IH]; intros pb i row H; simpl.
  - now rewrite Nat.add_0_r.
  - rewrite <- Nat.add_succ_comm. apply IH. now apply nextRow_sound.
Qed.

Lemma firstRow_sound (rest : string) :
  forall (pa : string) (j : nat),
    cellsSound EmptyString 0 pa j rest (seq (S j) (String.length rest)).
Proof.
  induction rest as [|c rest IH]; intros pa j; simpl; [exact I|].
  split; [|apply IH]. repeat split; lia.
Qed.

Lemma last_sound (pb : string) (i : nat) (rest : string) :
  forall (pa : string) (j v : nat) (row : list nat),
    cellSound pb i pa j v ->
    cellsSound pb i pa j rest row ->
    cellSound pb i (String.rev_app rest pa) (j + String.length rest)
      (List.last (v :: row) 0%nat).
Proof.
  induction rest as [|c rest IH]; intros pa j v [|w row] Hv Hrow;
    simpl in Hrow; try tauto.
  - simpl. now rewrite Nat.add_0_r.
  - destruct Hrow as [Hw Hrow].
    change (List.last (v :: w :: row) 0%nat) with (List.last (w :: row) 0%nat).
    simpl String.rev_app. simpl String.length.
    rewrite <- Nat.add_succ_comm. now apply IH.
Qed.

Lemma rev_app_injective (a b : string) :
  String.rev_app a EmptyString = String.rev_app b EmptyString -> a = b.
Proof.
  intros H.
  assert (forall s acc, String.rev_app (String.rev_app s acc) EmptyString
                        = String.rev_app acc s) as Hrev.
  { intros s acc. rewrite rev_app_rev_app. now rewrite append_empty_r. }
  pose proof (Hrev a EmptyString) as Ha.
  pose proof (Hrev b EmptyString) as Hb.
  simpl in Ha, Hb. congruence.
Qed.

(** The distance that the matrix gives is at least the difference of the
    two lengths, and it is 0 only for equal strings. *)
Lemma levenshteinDistance_sound (a b : string) :
  (String.length b <= levenshteinDistance a b + String.length a)%nat
  /\ (String.length a <= levenshteinDistance a b + String.length b)%nat
  /\ (levenshteinDistance a b = 0%nat -> a = b).
Proof.
  unfold levenshteinDistance.
  assert (rowSound EmptyString 0 a (seq 0 (S (String.length a)))) as H0.
  { simpl. split; [repeat split; lia|apply firstRow_sound]. }
  apply (lastRow_sound a b) in H0.
  change (0 + String.length b)%nat with (String.length b) in H0.
  unfold rowSound in H0.
  destruct (lastRow a 0 (seq 0 (S (String.length a))) b) as [|v row];
    [destruct H0|].
  destruct H0 as [Hv Hrow].
  pose proof (last_sound _ _ a _ _ _ _ Hv Hrow) as (H1 & H2 & H3).
  change (0 + String.length a)%nat with (String.length a) in H1, H2.
  split; [exact H1|]. split; [exact H2|].
  intros Hz. now apply rev_app_injective, H3.
Qed.

Lemma ratio_positive (n d : nat) :
  (0 < n)%nat -> (0 < d)%nat -> 0 < ratio n d.
Proof.
  intros Hn Hd. unfold ratio. apply Qlt_shift_div_l.
  - change 0 with (inject_Z 0). rewrite <- Zlt_Qlt. lia.
  - rewrite Qmult_0_l. change 0 with (inject_Z 0). rewrite <- Zlt_Qlt. lia.
Qed.

(** The text similarity of two non-empty strings is 1 only when they are
    equal once lower-cased and trimmed.  For strings that are different
    then, the distance in the last cell of the matrix is at least 1, at
    least the difference of the two lengths and at most the longer
    length, and the similarity is below 1. *)
Theorem calculateLevenshteinSimilarity_of_different (str1 str2 : string) :
  let a := trim (toLowerCase str1) in
  let b := trim (toLowerCase str2) in
  str1 <> EmptyString -> str2 <> EmptyString ->
  (calculateLevenshteinSimilarity str1 str2 == 1 <-> a = b)
  /\ (a <> b ->
      (1 <= levenshteinDistance a b)%nat
      /\ (String.length a - String.length b <= levenshteinDistance a b)%nat
      /\ (String.length b - String.length a <= levenshteinDistance a b)%nat
      /\ (levenshteinDistance a b
          <= Nat.max (String.length a) (String.length b))%nat
      /\ calculateLevenshteinSimilarity str1 str2 < 1).
Proof.
  intros a b H1 H2. unfold calculateLevenshteinSimilarity.
  destruct str1 as [|c1 s1]; [congruence|].
  destruct str2 as [|c2 s2]; [congruence|].
  simpl isEmpty. simpl orb. cbv iota. fold a b.
  destruct (String.eqb_spec a b) as [Heq|Hne].
  - split; [split; [intros _; exact Heq|reflexivity]|congruence].
  - destruct (levenshteinDistance_sound a b) as (Hb & Ha & Hzero).
    pose proof (levenshteinDistance_bounded a b) as Hmax.
    assert (0 < levenshteinDistance a b)%nat as Hpos.
    { destruct (levenshteinDistance a b); [now destruct Hne; apply Hzero|lia]. }
    destruct (Nat.eqb_spec (Nat.max (String.length a) (String.length b)) 0)
      as [Hz|Hnz]; [lia|].
    pose proof (ratio_positive (levenshteinDistance a b)
                  (Nat.max (String.length a) (String.length b)) Hpos
                  ltac:(lia)) as Hr.
    split.
    + split; [|congruence]. intros Hone. lra.
    + intros _. repeat split; try lia. lra.
Qed.

Lemma calculateLevenshteinSimilarity_of_different_witness :
  (String.length "who painted the mona lisa?" - String.length "who?"
   <= levenshteinDistance "who?" "who painted the mona lisa?")%nat
  /\ calculateLevenshteinSimilarity "Who?" "Who painted the Mona Lisa?" < 1.
Proof.
  pose proof (calculateLevenshteinSimilarity_of_different
                "Who?" "Who painted the Mona Lisa?"
                ltac:(discriminate) ltac:(discriminate)) as [_ H].
  destruct (H ltac:(discriminate)) as (_ & _ & Hlen & _ & Hlt).
  split; [exact Hlen|exact Hlt].
Defined.

End EditDistance.

(* --------------------------------------------------------------------- *)
(** ** The semantic comparison on a normalised question                   *)
(* --------------------------------------------------------------------- *)

Section SemanticOnNormalText.
Import JsString Fingerprint NormalText Semantic Async QuestionStore.
Local Open Scope Q_scope.

Lemma intent_in_intents (question : string) :
  In (extractQuestionIntent question) intents.
Proof.
  unfold extractQuestionIntent, intents.
  repeat match goal with
         | |- context [if ?c then _ else _] => destruct c
         end; simpl; tauto.
Qed.

Lemma intent_lacks_bar (question : string) :
  lacks "|" (extractQuestionIntent question) = true.
Proof.
  pose proof (intent_in_intents question) as H.
  unfold intents in H. simpl in H.
  repeat destruct H as [<-|H]; try reflexivity. destruct H.
Qed.

(** The intent is one of eleven words, [unknown] for the empty question;
    no intent contains the separator [|] of the enhanced fingerprint; and
    the intent does not depend on the letter case of the question. *)
Theorem extractQuestionIntent_values (question : string) :
  In (extractQuestionIntent question) intents
  /\ extractQuestionIntent EmptyString = "unknown"
  /\ lacks "|" (extractQuestionIntent question) = true
  /\ extractQuestionIntent question
     = extractQuestionIntent (toLowerCase question).
Proof.
  split; [apply intent_in_intents|split; [reflexivity|]].
  split; [apply intent_lacks_bar|].
  assert (forall s, toLowerCase (toLowerCase s) = toLowerCase s) as Hidem.
  { induction s as [|c s IH]; simpl; [reflexivity|]. rewrite IH. f_equal.
    destruct c as [[] [] [] [] [] [] [] []]; reflexivity. }
  unfold extractQuestionIntent. rewrite Hidem.
  now destruct question.
Qed.

Lemma normal_units (s : string) (p : Position) :
  normalFrom p s = true -> allUnits isNormalUnit s = true.
Proof.
  revert p. induction s as [|c s IH]; intros p; simpl; [reflexivity|].
  unfold isNormalUnit.
  destruct (isLowerWordChar c); simpl; [apply IH|].
  destruct (code c =? 32)%N; [|discriminate].
  destruct p; try discriminate. apply IH.
Qed.

Lemma allUnits_rev_app (P : ascii -> bool) (a b : string) :
  allUnits P (String.rev_app a b) = allUnits P a && allUnits P b.
Proof.
  revert b. induction a as [|c a IH]; intros b; simpl; [reflexivity|].
  rewrite IH. simpl. now destruct (P c), (allUnits P a), (allUnits P b).
Qed.

Lemma splitSpaces_units (P : ascii -> bool) (cur s : string) (b : bool) :
  allUnits P cur = true -> allUnits P s = true ->
  Forall (fun w => allUnits P w = true) (splitSpacesFrom cur b s).
Proof.
  revert cur b. induction s as [|c s IH]; intros cur b Hcur; simpl.
  - intros _. constructor; [|constructor].
    unfold String.rev. now rewrite allUnits_rev_app, Hcur.
  - intros [Hc Hs]%andb_true_iff.
    destruct (isSpace c); [destruct b|].
    + now apply IH.
    + constructor; [|now apply IH].
      unfold String.rev. now rewrite allUnits_rev_app, Hcur.
    + apply IH; [simpl; now rewrite Hc|exact Hs].
Qed.

Lemma normal_unit_not_capital (c : ascii) :
  isNormalUnit c = true -> isUpperLetter c = false /\ isQuote c = false.
Proof.
  destruct c as [[] [] [] [] [] [] [] []]; try discriminate; split; reflexivity.
Qed.

Lemma entityLoop_no_capital (previous : option string) (words : list string) :
  Forall (fun w => allUnits isNormalUnit w = true) words ->
  entityLoop previous [] words = [].
Proof.
  revert previous. induction words as [|w words IH]; intros previous H;
    simpl; [reflexivity|].
  inversion H as [|? ? Hw Hwords]; subst.
  assert (startsCapitalized w = false) as ->.
  { destruct w as [|c [|d w]]; try reflexivity. simpl in *.
    apply andb_true_iff in Hw as [Hc _].
    now rewrite (proj1 (normal_unit_not_capital c Hc)). }
  simpl. now apply IH.
Qed.

Lemma quotedFrom_no_quote (skip : nat) (s : string) :
  allUnits isNormalUnit s = true -> quotedFrom skip s = [].
Proof.
  revert skip. induction s as [|c s IH]; intros skip; simpl; [reflexivity|].
  intros [Hc Hs]%andb_true_iff.
  destruct skip; [|now apply IH].
  rewrite (proj2 (normal_unit_not_capital c Hc)). now apply IH.
Qed.

(** A normalised text has no named entity. *)
Lemma extractNamedEntities_normal (s : string) :
  isNormalText s = true -> extractNamedEntities s = [].
Proof.
  intros H. pose proof (normal_units s AtStart H) as Hunits.
  unfold extractNamedEntities. destruct (isEmpty s); [reflexivity|].
  unfold quotedEntities, splitSpaces.
  rewrite (quotedFrom_no_quote 0 s Hunits).
  rewrite entityLoop_no_capital; [reflexivity|].
  now apply splitSpaces_units.
Qed.

(** The pieces of the enhanced fingerprint of a normalised text. *)
Lemma enhanced_normal_pieces (s : string) :
  isNormalText s = true ->
  split "|" (generateEnhancedFingerprint s [])
  = [extractQuestionIntent s; EmptyString; s; EmptyString].
Proof.
  intros H. unfold generateEnhancedFingerprint.
  rewrite (extractNamedEntities_normal s H).
  rewrite (normalizeText_fixed s H). simpl join. simpl toLowerCase.
  change (split "|" (extractQuestionIntent s
                     ++ String "|" (String "|" (s ++ String "|" EmptyString)))
          = [extractQuestionIntent s; EmptyString; s; EmptyString]).
  unfold split.
  rewrite (splitFrom_piece "|" EmptyString _ _ (intent_lacks_bar s)).
  change (String "|" (s ++ String "|" EmptyString))
    with (EmptyString ++ String "|" (s ++ String "|" EmptyString)).
  rewrite (splitFrom_piece "|" EmptyString EmptyString _ eq_refl).
  rewrite (splitFrom_piece "|" EmptyString s _
             (normal_lacks_bar s AtStart H)).
  reflexivity.
Qed.

Lemma semanticSimilarity_normal (s text : string) :
  isNormalText s = true -> semanticSimilarity s text <= 0.6.
Proof.
  intros H. unfold semanticSimilarity, calculateFingerprintSimilarity.
  destruct (isEmpty _ || isEmpty _); [discriminate|].
  rewrite (enhanced_normal_pieces s H).
  set (parts2 := split "|" (generateEnhancedFingerprint text [])).
  set (intent := if decide _ then 1 else 0).
  assert (intent <= 1) as Hi.
  { subst intent. destruct (decide _); discriminate. }
  change (component [extractQuestionIntent s; EmptyString; s; EmptyString] 1)
    with (@None string).
  change (component [extractQuestionIntent s; EmptyString; s; EmptyString] 3)
    with (@None string).
  set (textSimilarity :=
         match component [extractQuestionIntent s; EmptyString; s; EmptyString] 2
         with Some q1 => _ | None => 0 end).
  assert (textSimilarity <= 1) as Ht.
  { subst textSimilarity. destruct (component _ 2); [|discriminate].
    destruct (component parts2 2); [|discriminate].
    apply levenshteinSimilarity_bounds. }
  cbv iota. lra.
Qed.

Lemma semantic_comparison_never_fires_aux (question text : string) :
  isNormalText question = true ->
  semanticSimilarity question text <= 0.6
  /\ semanticallySimilar question text = Returned false.
Proof.
  intros H. pose proof (semanticSimilarity_normal question text H) as Hle.
  split; [exact Hle|].
  unfold semanticallySimilar. f_equal. apply negb_false_iff.
  destruct (Qle_bool _ 0.75) eqn:E; [reflexivity|].
  assert (semanticSimilarity question text <= 0.75) as Hle' by lra.
  apply Qle_bool_iff in Hle'. congruence.
Qed.

(** For a question that is already normalised, as the first piece of every
    generated fingerprint is, the semantic similarity stays at 0.6 or
    below: the enhanced fingerprint has no entity and no tag, so only the
    text and the intent count.  The test against 0.75 then fails, whatever
    the stored question is. *)
Theorem semantic_comparison_never_fires (question text : string) :
  isNormalText question = true ->
  semanticSimilarity question text <= 0.6
  /\ semanticallySimilar question text = Returned false.
Proof. apply semantic_comparison_never_fires_aux. Qed.

Lemma semantic_comparison_never_fires_witness :
  semanticallySimilar "who painted the mona lisa" "Who painted the Mona Lisa?"
  = Returned false.
Proof.
  apply (semantic_comparison_never_fires "who painted the mona lisa").
  reflexivity.
Defined.

(** With the semantic comparison of the source, a generated fingerprint is
    reported as similar to a stored question only through the count of
    differing words: some stored question with a text is within three
    words of it. *)
Theorem checkQuestionSimilarity_by_words_only
  (store : Store) (question : string) (tags : list string) :
  let fp := generateQuestionFingerprint question tags in
  checkQuestionSimilarity semanticallySimilar store fp = Returned true ->
  exists r rows stored text,
    selectAll store = Resolved r /\ error r = None /\ data r = Some rows
    /\ In stored rows
    /\ nonEmptyText (question_text stored) = Some text
    /\ (wordDifferences (normalizeText question)
          (storedNormalizedOf text (fingerprint stored)) <= 3)%nat.
Proof.
  intros fp H. apply checkQuestionSimilarity_true in H.
  destruct H as (r & rows & stored & text & Hsel & Herr & Hdata & Hin
                 & Htext & Hsim).
  subst fp. rewrite firstPiece_fingerprint in Hsim.
  exists r, rows, stored, text. repeat split; try assumption.
  destruct Hsim as [Hwords|Hsem]; [exact Hwords|].
  destruct (semantic_comparison_never_fires_aux (normalizeText question) text)
    as [_ Hfalse]; [apply normalizeText_normal|].
  congruence.
Qed.

End SemanticOnNormalText.

(* --------------------------------------------------------------------- *)
(** ** What the duplicate check always finds                              *)
(* --------------------------------------------------------------------- *)

Section DuplicatesFound.
Import JsString Fingerprint Async QuestionStore.

Variable semanticallySimilar : string -> string -> Outcome bool.

Lemma similarityLoop_finds (normalizedQuestion : string)
  (questions : list QuestionRow) (stored : QuestionRow) (text : string) :
  In stored questions ->
  nonEmptyText (question_text stored) = Some text ->
  (wordDifferences normalizedQuestion
     (storedNormalizedOf text (fingerprint stored)) <= 3)%nat ->
  similarityLoop semanticallySimilar normalizedQuestion questions
  = Returned true.
Proof.
  intros Hin Htext Hwords.
  induction questions as [|question rest IH]; [destruct Hin|].
  simpl. destruct Hin as [->|Hin].
  - rewrite Htext. apply Nat.leb_le in Hwords. now rewrite Hwords.
  - specialize (IH Hin).
    destruct (nonEmptyText (question_text question)) as [t|]; [|exact IH].
    destruct (_ <=? 3)%nat; [reflexivity|].
    destruct (semanticallySimilar normalizedQuestion t) as [[|]|e]; simpl;
      auto.
Qed.

Lemma fallbackLoop_finds (normalizedQuestion : string)
  (questions : list QuestionRow) (stored : QuestionRow) (text : string) :
  In stored questions ->
  nonEmptyText (question_text stored) = Some text ->
  textsMatch (normalizeText text) normalizedQuestion = true ->
  fallbackLoop normalizedQuestion questions = true.
Proof.
  intros Hin Htext Hmatch.
  induction questions as [|question rest IH]; [destruct Hin|].
  simpl. destruct Hin as [->|Hin].
  - now rewrite Htext, Hmatch.
  - specialize (IH Hin).
    destruct (nonEmptyText (question_text question)) as [t|]; [|exact IH].
    now destruct (textsMatch (normalizeText t) normalizedQuestion).
Qed.

(** When the fingerprint query answers without error and the similarity
    query returns a stored question that is within three words of the new
    one, the question is reported as existing, whatever the semantic
    comparison answers or throws on the questions before it. *)
Theorem checkQuestionExists_finds_similar
  (store : Store) (fp : string) (r0 r : Response string)
  (rAll : Response QuestionRow) (rows : list QuestionRow)
  (stored : QuestionRow) (text : string) :
  selectByFingerprint store fp = Resolved r0 -> error r0 = None ->
  selectAll store = Resolved rAll -> error rAll = None ->
  data rAll = Some rows -> In stored rows ->
  nonEmptyText (question_text stored) = Some text ->
  (wordDifferences (firstPiece "|" fp)
     (storedNormalizedOf text (fingerprint stored)) <= 3)%nat ->
  checkQuestionExists semanticallySimilar store fp = Returned true.
Proof.
  intros Hsel Herr HselAll HerrAll Hdata Hin Htext Hwords.
  rewrite checkQuestionExists_paths, Hsel, Herr.
  destruct (data r0) as [[|row0 rows0]|]; try reflexivity;
    unfold checkQuestionSimilarity; rewrite HselAll;
    cbn -[similarityLoop]; rewrite HerrAll, Hdata;
    (destruct rows as [|q qs]; [destruct Hin|]);
    now rewrite (similarityLoop_finds _ (q :: qs) stored text Hin Htext Hwords).
Qed.

(** When the fingerprint column is missing and the fallback query returns
    a stored question whose normalised text equals, contains or is
    contained in the new question, the question is reported as existing. *)
Theorem checkQuestionExists_fallback_finds
  (store : Store) (fp message : string) (r0 : Response string)
  (r10 : Response QuestionRow) (rows : list QuestionRow)
  (stored : QuestionRow) (text : string) :
  selectByFingerprint store fp = Resolved r0 ->
  error r0 = Some (Some message) ->
  includes message missingColumnMessage = true ->
  selectTen store = Resolved r10 -> error r10 = None ->
  data r10 = Some rows -> In stored rows ->
  nonEmptyText (question_text stored) = Some text ->
  textsMatch (normalizeText text) (firstPiece "|" fp) = true ->
  checkQuestionExists semanticallySimilar store fp = Returned true.
Proof.
  intros Hsel Herr Hmsg Hsel10 Herr10 Hdata Hin Htext Hmatch.
  rewrite checkQuestionExists_paths, Hsel, Herr, Hmsg.
  unfold fallbackQuestionCheck. rewrite Hsel10. cbn -[fallbackLoop].
  rewrite Herr10, Hdata.
  destruct rows as [|q qs]; [destruct Hin|].
  now rewrite (fallbackLoop_finds _ (q :: qs) stored text Hin Htext Hmatch).
Qed.

End DuplicatesFound.

Section WordDifferences.
Import JsString QuestionStore.

Lemma distinct_In (w : string) (words : list string) :
  In w (distinct words) <-> In w words.
Proof.
  induction words as [|v words IH]; simpl; [tauto|]. split.
  - intros [H|H]; [now left|]. apply filter_In in H as [H _].
    right. now apply IH.
  - intros [H|H]; [now left|].
    destruct (String.eqb_spec w v) as [->|Hne]; [now left|].
    right. apply filter_In. split; [now apply IH|].
    apply negb_true_iff. now apply String.eqb_neq.
Qed.

Lemma has_In (set : list string) (w : string) :
  has set w = true <-> In w set.
Proof.
  unfold has. rewrite existsb_exists. split.
  - intros (x & Hx & Heq). apply String.eqb_eq in Heq. congruence.
  - intros H. exists w. split; [exact H|apply String.eqb_refl].
Qed.

Lemma filter_nil_iff {A : Type} (f : A -> bool) (l : list A) :
  List.filter f l = [] <-> forall x, In x l -> f x = false.
Proof.
  induction l as [|a l IH]; simpl; [tauto|].
  destruct (f a) eqn:Ha.
  - split; [discriminate|]. intros H. specialize (H a (or_introl eq_refl)).
    congruence.
  - rewrite IH. split.
    + intros H x [<-|Hx]; auto.
    + intros H x Hx. apply H. now right.
Qed.

(** The count of differing words is symmetric, and it is 0 exactly when
    the two texts have the same set of words, in whatever order and
    however often repeated. *)
Theorem wordDifferences_same_words (a b : string) :
  wordDifferences a b = wordDifferences b a
  /\ (wordDifferences a b = 0%nat <->
      forall w, In w (split " " a) <-> In w (split " " b)).
Proof.
  unfold wordDifferences. split; [apply Nat.add_comm|].
  rewrite Nat.eq_add_0, !length_zero_iff_nil, !filter_nil_iff.
  split.
  - intros [Hab Hba] w. split; intros Hw.
    + apply (proj2 (distinct_In w _)) in Hw. apply Hab in Hw.
      apply negb_false_iff in Hw. apply (proj1 (has_In _ w)) in Hw.
      exact (proj1 (distinct_In w _) Hw).
    + apply (proj2 (distinct_In w _)) in Hw. apply Hba in Hw.
      apply negb_false_iff in Hw. apply (proj1 (has_In _ w)) in Hw.
      exact (proj1 (distinct_In w _) Hw).
  - intros H. split; intros w Hw; apply negb_false_iff;
      apply (proj2 (has_In _ w)); apply (proj2 (distinct_In w _));
      apply (proj1 (distinct_In w _)) in Hw; now apply H.
Qed.

End WordDifferences.

(* --------------------------------------------------------------------- *)
(** ** The topics of [generateQuestions]                                  *)
(* --------------------------------------------------------------------- *)

Section Topics.
Import JsString NormalText TopicHierarchy.

Lemma lacks_rev_app (sep : ascii) (a b : string) :
  lacks sep (String.rev_app a b) = lacks sep a && lacks sep b.
Proof.
  revert b. induction a as [|c a IH]; intros b; simpl; [reflexivity|].
  rewrite IH. simpl.
  now destruct (negb (Ascii.eqb c sep)), (lacks sep a), (lacks sep b).
Qed.

(** No piece of a split has the separator. *)
Lemma splitFrom_lacks (sep : ascii) (cur s : string) :
  lacks sep cur = true ->
  Forall (fun piece => lacks sep piece = true) (splitFrom sep cur s).
Proof.
  revert cur. induction s as [|c s IH]; intros cur Hcur; simpl.
  - constructor; [|constructor].
    unfold String.rev. now rewrite lacks_rev_app, Hcur.
  - destruct (Ascii.eqb c sep) eqn:E.
    + constructor; [|now apply IH].
      unfold String.rev. now rewrite lacks_rev_app, Hcur.
    + apply IH. simpl. now rewrite E.
Qed.

Lemma includes_unit (s : string) (c : ascii) :
  includes s (String c EmptyString) = negb (lacks c s).
Proof.
  induction s as [|d s IH]; [reflexivity|].
  simpl. rewrite IH, (Ascii.eqb_sym c d).
  destruct (Ascii.eqb d c); [reflexivity|].
  simpl. now destruct (lacks c s).
Qed.

Lemma nth_lacks (sep : ascii) (pieces : list string) (n : nat) :
  Forall (fun piece => lacks sep piece = true) pieces ->
  lacks sep (nth n pieces EmptyString) = true.
Proof.
  intros H. revert n. induction H as [|p pieces Hp _ IH]; intros [|n];
    simpl; auto.
Qed.

Lemma arrayIncludes_In (array : list string) (x : string) :
  arrayIncludes array x = true <-> In x array.
Proof.
  unfold arrayIncludes. rewrite existsb_exists. split.
  - intros (y & Hy & Heq). apply String.eqb_eq in Heq. congruence.
  - intros H. exists x. split; [exact H|apply String.eqb_refl].
Qed.

Lemma mainTopicOf_plain (topic : string) :
  includes topic ":" = false -> mainTopicOf topic = topic.
Proof.
  rewrite includes_unit. intros H%negb_false_iff.
  unfold mainTopicOf, firstPiece, split.
  now rewrite (splitFrom_last ":" EmptyString topic H).
Qed.

Lemma mainTopicOf_nth (topic : string) :
  mainTopicOf topic = nth 0 (split ":" topic) EmptyString.
Proof. unfold mainTopicOf, firstPiece. now destruct (split ":" topic). Qed.

Lemma processTopic_keeps (ps pb seen : list string) (h : Hierarchy)
  (topic : string) :
  hierarchyOf ps pb seen h ->
  hierarchyOf ps pb (seen ++ [topic]) (processTopic ps pb h topic).
Proof.
  intros (Hcolon & Hcover & Horigin & Hcount & Hbranch).
  assert (forall (processed : list string),
             processed = processedPrimaryTopics h
             \/ processed = (processedPrimaryTopics h ++ [mainTopicOf topic])%list ->
             In (mainTopicOf topic) processed ->
             Forall (fun t => lacks ":" t = true) processed
             /\ (forall t0, In t0 (seen ++ [topic]) ->
                            In (mainTopicOf t0) processed)
             /\ (forall t, In t processed ->
                           exists t0, In t0 (seen ++ [topic])
                                      /\ t = mainTopicOf t0)) as Hprocessed.
  { intros processed Hp Hmain. repeat split.
    - destruct Hp as [->| ->]; [exact Hcolon|].
      apply Forall_app. split; [exact Hcolon|].
      constructor; [|constructor]. rewrite mainTopicOf_nth.
      apply nth_lacks, splitFrom_lacks. reflexivity.
    - intros t0 [H0|[<-|[]]]%in_app_or; [|exact Hmain].
      destruct Hp as [->| ->]; [auto|]. apply in_or_app. left. auto.
    - intros t Ht.
      destruct Hp as [->| ->].
      + destruct (Horigin t Ht) as (t0 & H0 & ->). exists t0.
        split; [apply in_or_app; now left|reflexivity].
      + apply in_app_or in Ht as [Ht|[<-|[]]].
        * destruct (Horigin t Ht) as (t0 & H0 & ->). exists t0.
          split; [apply in_or_app; now left|reflexivity].
        * exists topic. split; [apply in_or_app; right; now left|reflexivity]. }
  unfold processTopic.
  destruct (includes topic ":") eqn:Einc.
  - rewrite <- mainTopicOf_nth.
    set (secondaryItem := nth 1 (split ":" topic) EmptyString).
    assert (let processed :=
              if arrayIncludes (processedPrimaryTopics h) (mainTopicOf topic)
              then processedPrimaryTopics h
              else (processedPrimaryTopics h ++ [mainTopicOf topic])%list in
            (processed = processedPrimaryTopics h
             \/ processed
                = (processedPrimaryTopics h ++ [mainTopicOf topic])%list)
            /\ In (mainTopicOf topic) processed) as [Hp Hmain].
    { destruct (arrayIncludes _ _) eqn:E; simpl.
      - split; [now left|]. now apply arrayIncludes_In.
      - split; [now right|]. apply in_or_app. right. now left. }
    destruct (Hprocessed _ Hp Hmain) as (H1 & H2 & H3).
    assert (List.length (List.filter (fun t => includes t ":") (seen ++ [topic]))
            = S (List.length (List.filter (fun t => includes t ":") seen)))
      as Hlen.
    { rewrite List.filter_app, List.length_app. simpl. rewrite Einc. simpl.
      lia. }
    destruct (arrayIncludes ps secondaryItem) eqn:Eps;
      [|destruct (arrayIncludes pb secondaryItem) eqn:Epb];
      (split; [exact H1|split; [exact H2|split; [exact H3|]]]); simpl;
      rewrite ?List.length_app, Hlen; simpl; (split; [lia|]); try exact Hbranch.
    intros pair [Hpair|[<-|[]]]%in_app_or; [auto|]. simpl. auto.
  - assert (In (mainTopicOf topic)
               (processedPrimaryTopics h ++ [mainTopicOf topic])%list) as Hmain.
    { apply in_or_app. right. now left. }
    destruct (Hprocessed _ (or_intror eq_refl) Hmain) as (H1 & H2 & H3).
    rewrite (mainTopicOf_plain topic Einc) in H1, H2, H3.
    split; [exact H1|split; [exact H2|split; [exact H3|]]]. simpl.
    rewrite List.filter_app. simpl. rewrite Einc, List.app_nil_r.
    split; [exact Hcount|exact Hbranch].
Qed.

Lemma processTopics_from (ps pb seen topics : list string) (h : Hierarchy) :
  hierarchyOf ps pb seen h ->
  hierarchyOf ps pb (seen ++ topics)
    (fold_left (processTopic ps pb) topics h).
Proof.
  revert seen h. induction topics as [|topic topics IH]; intros seen h H;
    simpl.
  - now rewrite List.app_nil_r.
  - replace (seen ++ topic :: topics)%list
      with ((seen ++ [topic]) ++ topics)%list
      by (now rewrite <- List.app_assoc).
    apply IH. now apply processTopic_keeps.
Qed.

(** What [generateQuestions] makes of its primary topics.  No processed
    topic has a colon; the part before the first colon of every given
    topic is a processed topic, and nothing else is; every topic with a
    colon gives exactly one pair; and a pair is a topic-branch pair only
    when its second part is a preferred branch and not a preferred
    subtopic. *)
Theorem processTopics_hierarchy
  (preferredSubtopics preferredBranches primaryTopics : list string) :
  let h := processTopics preferredSubtopics preferredBranches primaryTopics in
  Forall (fun t => lacks ":" t = true) (processedPrimaryTopics h)
  /\ (forall topic, In topic primaryTopics ->
                    In (mainTopicOf topic) (processedPrimaryTopics h))
  /\ (forall t, In t (processedPrimaryTopics h) ->
                exists topic, In topic primaryTopics /\ t = mainTopicOf topic)
  /\ (List.length (explicitSubtopics h) + List.length (explicitBranches h)
      = List.length (List.filter (fun topic => includes topic ":")
                                 primaryTopics))%nat
  /\ (forall pair, In pair (explicitBranches h) ->
                   arrayIncludes preferredBranches (snd pair) = true
                   /\ arrayIncludes preferredSubtopics (snd pair) = false).
Proof.
  apply (processTopics_from preferredSubtopics preferredBranches []
           primaryTopics noTopics).
  unfold hierarchyOf. simpl.
  split; [constructor|]. split; [intros ? []|]. split; [intros ? []|].
  split; [reflexivity|]. intros ? [].
Qed.

End Topics.

(* --------------------------------------------------------------------- *)
(** ** The duplicate check on the example stores                          *)
(* --------------------------------------------------------------------- *)

Section DuplicatesOnStores.
Import JsString Fingerprint Async QuestionStore Semantic.

Lemma checkQuestionSimilarity_by_words_only_witness :
  exists r rows stored text,
    selectAll Examples.currentStore = Resolved r
    /\ error r = None /\ data r = Some rows
    /\ In stored rows
    /\ nonEmptyText (question_text stored) = Some text
    /\ (wordDifferences (normalizeText "Who painted Mona Lisa?")
          (storedNormalizedOf text (fingerprint stored)) <= 3)%nat.
Proof.
  apply (checkQuestionSimilarity_by_words_only Examples.currentStore
           "Who painted Mona Lisa?" ["art"]).
  vm_compute. reflexivity.
Defined.

Lemma checkQuestionExists_finds_similar_witness :
  checkQuestionExists (fun _ _ => Thrown TypeError) Examples.currentStore
    "who painted mona lisa|art"
  = Returned true.
Proof.
  apply (checkQuestionExists_finds_similar
           (fun _ _ => Thrown TypeError) Examples.currentStore
           "who painted mona lisa|art"
           {| data := Some []; error := None |}
           {| data := Some []; error := None |}
           {| data :=
                Some [ {| id := "1";
                          question_text := Some "Who painted the Mona Lisa?";
                          fingerprint := Some "who painted the mona lisa|art" |} ];
              error := None |}
           [ {| id := "1";
                question_text := Some "Who painted the Mona Lisa?";
                fingerprint := Some "who painted the mona lisa|art" |} ]
           {| id := "1";
              question_text := Some "Who painted the Mona Lisa?";
              fingerprint := Some "who painted the mona lisa|art" |}
           "Who painted the Mona Lisa?");
    try reflexivity.
  - simpl. now left.
  - vm_compute. lia.
Defined.

Lemma checkQuestionExists_fallback_finds_witness :
  checkQuestionExists (fun _ _ => Thrown TypeError) Examples.legacyStore
    "who painted it|art"
  = Returned true.
Proof.
  apply (checkQuestionExists_fallback_finds
           (fun _ _ => Thrown TypeError) Examples.legacyStore
           "who painted it|art" missingColumnMessage
           {| data := None; error := Some (Some missingColumnMessage) |}
           {| data :=
                Some [ {| id := "1";
                          question_text := Some "Who painted it?";
                          fingerprint := None |} ];
              error := None |}
           [ {| id := "1"; question_text := Some "Who painted it?";
                fingerprint := None |} ]
           {| id := "1"; question_text := Some "Who painted it?";
              fingerprint := None |}
           "Who painted it?");
    try reflexivity.
  simpl. now left.
Defined.

End DuplicatesOnStores.

(* --------------------------------------------------------------------- *)
(** ** The initial load of the sync manager                               *)
(* --------------------------------------------------------------------- *)

Section InitialLoad.
Import Async Profile SimplifiedSyncManager.

Lemma forallb_false {A : Type} (f : A -> bool) (l : list A) :
  forallb f l = false -> exists x, In x l /\ f x = false.
Proof.
  induction l as [|a l IH]; simpl; [discriminate|].
  destruct (f a) eqn:Ha; simpl.
  - intros H. destruct (IH H) as (x & Hin & Hx). eauto.
  - intros _. eauto.
Qed.

Lemma hasAllDefaultWeights_true (profile : UserProfile) :
  hasAllDefaultWeights profile = true <-> allWeightsDefault profile.
Proof.
  unfold hasAllDefaultWeights, allWeightsDefault.
  rewrite forallb_forall. split.
  - intros H name t Hlook. apply Qeq_bool_iff.
    apply (H (name, t)). apply list_elem_of_In.
    now apply elem_of_map_to_list.
  - intros H [name t] Hin. apply Qeq_bool_iff. apply (H name).
    apply list_elem_of_In in Hin. now apply elem_of_map_to_list in Hin.
Qed.

Lemma hasAllDefaultWeights_false (profile : UserProfile) :
  hasAllDefaultWeights profile = false <-> hasNonDefaultWeight profile.
Proof.
  unfold hasAllDefaultWeights, hasNonDefaultWeight. split.
  - intros H. apply forallb_false in H as ([name t] & Hin & Hw).
    exists name, t. split.
    + apply list_elem_of_In in Hin. now apply elem_of_map_to_list in Hin.
    + intros Heq. apply Qeq_bool_iff in Heq. simpl in Hw. congruence.
  - intros (name & t & Hlook & Hw).
    destruct (forallb _ _) eqn:Hall; [|reflexivity].
    exfalso. apply Hw. apply Qeq_bool_iff.
    rewrite forallb_forall in Hall. apply (Hall (name, t)).
    apply list_elem_of_In. now apply elem_of_map_to_list.
Qed.

Ltac run_initial_load :=
  unfold initialLoad, loadInitialData; simpl;
  repeat match goal with
         | H : _ = _ |- _ => rewrite H; simpl
         end.

(** C1. The initial load resolves as the three-way rule.  With a fetched
    remote profile: a strictly greater [lastRefreshed] of the remote profile
    adopts it wholesale; otherwise all-default local weights together with
    a non-default remote weight adopt it too; otherwise the local profile is
    kept and pushed.  Without a remote profile the local profile is kept
    and pushed. *)
Theorem loadInitialData_three_way_rule
  (userId : string) (local : UserProfile) (pushResult : Awaited unit) :
  (forall remote,
      let effects := initialLoad userId local (Resolved (Some remote)) pushResult in
      ((lastRefreshed remote > lastRefreshed local)%Z ->
       resultingProfile local effects = remote /\ pushed effects = [])
      /\ (~ (lastRefreshed remote > lastRefreshed local)%Z ->
          allWeightsDefault local -> hasNonDefaultWeight remote ->
          resultingProfile local effects = remote /\ pushed effects = [])
      /\ (~ (lastRefreshed remote > lastRefreshed local)%Z ->
          ~ (allWeightsDefault local /\ hasNonDefaultWeight remote) ->
          resultingProfile local effects = local /\ pushed effects = [local]))
  /\ (forall fetched,
         fetched = Resolved None \/ fetched = Rejected ->
         let effects := initialLoad userId local fetched pushResult in
         resultingProfile local effects = local /\ pushed effects = [local]).
Proof.
  split.
  - intros remote effects. subst effects. split; [|split].
    + intros Hnewer. apply Z.gtb_gt in Hnewer. run_initial_load.
      now destruct (hasAllDefaultWeights remote).
    + intros Hnot Hlocal Hremote.
      apply hasAllDefaultWeights_true in Hlocal.
      apply hasAllDefaultWeights_false in Hremote.
      destruct (lastRefreshed remote >? lastRefreshed local)%Z eqn:Hgt;
        [apply Z.gtb_gt in Hgt; contradiction|].
      now run_initial_load.
    + intros Hnot Hboth.
      destruct (lastRefreshed remote >? lastRefreshed local)%Z eqn:Hgt;
        [apply Z.gtb_gt in Hgt; contradiction|].
      assert (hasAllDefaultWeights local && negb (hasAllDefaultWeights remote)
              = false) as Hguard.
      { destruct (hasAllDefaultWeights local) eqn:Hl,
          (hasAllDefaultWeights remote) eqn:Hr; try reflexivity.
        exfalso. apply Hboth.
        now rewrite <- hasAllDefaultWeights_true, <- hasAllDefaultWeights_false. }
      run_initial_load.
      destruct pushResult; simpl; [|split; reflexivity].
      now destruct (hasAllDefaultWeights remote).
  - intros fetched [-> | ->] effects; subst effects; run_initial_load;
      (destruct pushResult; simpl; [|split; reflexivity]);
      now destruct (hasAllDefaultWeights local).
Qed.

(** A witness of the second rule: the local profile is all-default, the
    remote one has [Science] at 0.9 and the same [lastRefreshed]. *)
Lemma loadInitialData_three_way_rule_witness :
  let local := Examples.scienceProfile 0.5 10 in
  let remote := Examples.scienceProfile 0.9 10 in
  let effects := initialLoad "u1" local (Resolved (Some remote)) (Resolved tt) in
  resultingProfile local effects = remote /\ pushed effects = [].
Proof.
  intros local remote.
  apply (loadInitialData_three_way_rule "u1" local (Resolved tt)).
  - subst local remote. simpl. lia.
  - apply hasAllDefaultWeights_true. reflexivity.
  - apply hasAllDefaultWeights_false. reflexivity.
Defined.

(** Whenever the initial load switches to write-only, the resulting
    profile has a non-default weight. *)
Lemma initialLoad_writeOnly_has_personalization
  (userId : string) (local : UserProfile)
  (fetched : Awaited (option UserProfile)) (pushResult : Awaited unit) :
  let effects := initialLoad userId local fetched pushResult in
  modeAfter effects = WriteOnly ->
  hasAllDefaultWeights (resultingProfile local effects) = false.
Proof.
  intros effects. subst effects.
  unfold initialLoad, loadInitialData, modeAfter, resultingProfile.
  destruct fetched as [[remote|]|]; simpl;
    try destruct (lastRefreshed remote >? lastRefreshed local)%Z; simpl;
    try destruct (hasAllDefaultWeights remote) eqn:Hr; simpl;
    destruct (hasAllDefaultWeights local) eqn:Hl; simpl;
    try destruct pushResult; simpl;
    rewrite ?Hr, ?Hl; simpl; congruence.
Qed.

(** The initial load on its own, at an input where it keeps a
    personalised local profile.  The local profile has [Science] at 0.9 and
    is the newer one, the remote profile is all-default.  The initial load
    keeps the local profile, which has a non-default weight, but inspects
    the remote one and leaves the module read-enabled: the switch to
    write-only is left to the check that follows. *)
Theorem loadInitialData_inspects_remote_not_resulting_profile :
  let local := Examples.scienceProfile 0.9 10 in
  let remote := Examples.scienceProfile 0.5 5 in
  let effects := initialLoad "u1" local (Resolved (Some remote)) (Resolved tt) in
  resultingProfile local effects = local
  /\ hasAllDefaultWeights (resultingProfile local effects) = false
  /\ modeAfter effects = ReadEnabled.
Proof. repeat split. Qed.

(** The check that runs once [initialDataLoaded] is set switches a profile
    with a non-default weight to write-only. *)
Lemma checkDefaultWeights_marks_personalized
  (userId : string) (profile : UserProfile)
  (fetched : Awaited (option UserProfile)) :
  hasAllDefaultWeights profile = false ->
  checkDefaultWeights (Some userId) profile false fetched
  = [CheckMarkInitialDataLoadComplete].
Proof. unfold checkDefaultWeights. now intros ->. Qed.

End InitialLoad.

(* --------------------------------------------------------------------- *)
(** ** The sync manager: failures, the later check, the app state         *)
(* --------------------------------------------------------------------- *)

Section SyncManagerMore.
Import Async Profile SimplifiedSyncManager.

(** [loadInitialData] never rejects, and it does nothing without a user or
    once the data is loaded.  It pushes at most once, and only the local
    profile.  When that push fails it dispatches [syncFailed] and nothing
    else follows: no profile is dispatched, [initialDataLoaded] stays
    unset and the mode stays read-enabled.  In every other run that starts,
    exactly one profile is dispatched and [initialDataLoaded] is set. *)
Theorem loadInitialData_contains_failures (env : Env) :
  let effects := fst (loadInitialData env) in
  snd (loadInitialData env) = Returned tt
  /\ (user env = None \/ initialDataLoaded env = true -> effects = [])
  /\ (pushed effects = [] \/ pushed effects = [userProfile env])
  /\ (In DispatchSyncFailed effects <->
      user env <> None /\ initialDataLoaded env = false
      /\ syncUserProfile env = Rejected
      /\ pushed effects = [userProfile env])
  /\ (In DispatchSyncFailed effects ->
      loaded effects = [] /\ ~ In SetInitialDataLoaded effects
      /\ modeAfter effects = ReadEnabled)
  /\ (~ In DispatchSyncFailed effects -> effects <> [] ->
      List.length (loaded effects) = 1%nat /\ In SetInitialDataLoaded effects).
Proof.
  destruct env as [u loadedFlag local fetched push].
  unfold loadInitialData, modeAfter. simpl.
  destruct u as [userId|]; simpl.
  2:{ repeat split; auto; try tauto; try congruence;
      intros; intuition congruence. }
  destruct loadedFlag; simpl.
  1:{ repeat split; auto; try tauto; try congruence;
      intros; intuition congruence. }
  destruct fetched as [[remote|]|]; simpl;
    try destruct (lastRefreshed remote >? lastRefreshed local)%Z; simpl;
    try destruct (hasAllDefaultWeights local) eqn:Hl; simpl;
    try destruct (hasAllDefaultWeights remote) eqn:Hr; simpl;
    try destruct push; simpl;
    rewrite ?Hl, ?Hr; simpl;
    repeat split; auto; try tauto; try congruence;
    try (intros; intuition congruence);
    try (intros; intuition discriminate).
Qed.

Lemma loadInitialData_contains_failures_witness :
  let effects :=
    initialLoad "u1" (Examples.scienceProfile 0.9 10) (Resolved None) Rejected in
  loaded effects = [] /\ ~ In SetInitialDataLoaded effects
  /\ modeAfter effects = ReadEnabled.
Proof.
  apply (loadInitialData_contains_failures
           {| user := Some "u1"; initialDataLoaded := false;
              userProfile := Examples.scienceProfile 0.9 10;
              loadUserData := Resolved None; syncUserProfile := Rejected |}).
  simpl. auto.
Defined.

(** [checkDefaultWeights] dispatches a fetched profile only when the
    profile in memory is all-default and the fetched one is not.  It
    switches to write-only only from read-enabled, and only when the
    profile in memory then has a non-default weight: its own, or the one it
    has just dispatched.  With a non-default profile in memory and
    read-enabled it always switches; with an all-default profile and no
    fetched profile, or a failed fetch, it does nothing. *)
Theorem checkDefaultWeights_gates_writeOnly
  (userId : string) (profile : UserProfile) (writeOnly : bool)
  (fetched : Awaited (option UserProfile)) :
  let effects := checkDefaultWeights (Some userId) profile writeOnly fetched in
  (forall p, In (CheckDispatchLoadUserDataSuccess p) effects ->
             hasAllDefaultWeights profile = true
             /\ hasAllDefaultWeights p = false
             /\ fetched = Resolved (Some p))
  /\ (In CheckMarkInitialDataLoadComplete effects ->
      writeOnly = false
      /\ (hasAllDefaultWeights profile = false
          \/ exists p, In (CheckDispatchLoadUserDataSuccess p) effects
                       /\ hasAllDefaultWeights p = false))
  /\ (hasAllDefaultWeights profile = false -> writeOnly = false ->
      effects = [CheckMarkInitialDataLoadComplete])
  /\ (hasAllDefaultWeights profile = true ->
      fetched = Rejected \/ fetched = Resolved None -> effects = []).
Proof.
  unfold checkDefaultWeights. cbv zeta.
  split; [|split; [|split]].
  - intros p Hin.
    destruct (hasAllDefaultWeights profile) eqn:Hp.
    + destruct fetched as [[remote|]|]; try now destruct Hin.
      destruct (hasAllDefaultWeights remote) eqn:Hr; simpl in Hin;
        [now destruct Hin|].
      destruct Hin as [H|Hin].
      * injection H as <-. auto.
      * destruct writeOnly; simpl in Hin; [now destruct Hin|].
        destruct Hin as [H|[]]. discriminate H.
    + destruct writeOnly; simpl in Hin; [now destruct Hin|].
      destruct Hin as [H|[]]. discriminate H.
  - intros Hin.
    destruct (hasAllDefaultWeights profile) eqn:Hp.
    + destruct fetched as [[remote|]|]; try now destruct Hin.
      destruct (hasAllDefaultWeights remote) eqn:Hr; simpl in Hin;
        [now destruct Hin|].
      destruct writeOnly; simpl in Hin.
      * destruct Hin as [H|[]]. discriminate H.
      * split; [reflexivity|]. right. exists remote. simpl. auto.
    + destruct writeOnly; simpl in Hin; [now destruct Hin|]. auto.
  - intros Hp ->. now rewrite Hp.
  - intros Hp [-> | ->]; now rewrite Hp.
Qed.

Lemma checkDefaultWeights_gates_writeOnly_witness :
  checkDefaultWeights (Some "u1") (Examples.scienceProfile 0.9 10) false Rejected
  = [CheckMarkInitialDataLoadComplete].
Proof.
  apply (checkDefaultWeights_gates_writeOnly "u1"
           (Examples.scienceProfile 0.9 10) false Rejected); reflexivity.
Defined.

End SyncManagerMore.

Section AppState.
Import AppStateSync.

Lemma listen_by_changes (userId : string) (ref : AppStateStatus)
  (changes : list AppStateStatus) :
  listen (Some userId) ref changes
  = List.map (fun _ => userId)
             (List.filter leavesActive (changesFrom ref changes)).
Proof.
  revert ref. induction changes as [|next rest IH]; intros ref;
    [reflexivity|].
  change (changesFrom ref (next :: rest))
    with ((ref, next) :: changesFrom next rest).
  change (listen (Some userId) ref (next :: rest))
    with ((if isActive ref && isBackgroundOrInactive next
           then [userId] else [])
          ++ listen (Some userId) next rest)%list.
  rewrite IH. simpl List.filter. unfold leavesActive at 2. simpl fst. simpl snd.
  now destruct (isActive ref && isBackgroundOrInactive next).
Qed.

(** The listener writes exactly when the app leaves [active] for
    [background] or [inactive]: with a user it dispatches one write of the
    user's id for each such change of the sequence, in order, and nothing
    for any other change (from a state that is not [active], or from
    [active] to [active], [unknown] or [extension]); without a user it
    never writes. *)
Theorem listen_writes_on_leaving_active
  (ref : AppStateStatus) (changes : list AppStateStatus) :
  listen None ref changes = []
  /\ (forall userId,
         listen (Some userId) ref changes
         = List.map (fun _ => userId)
                    (List.filter leavesActive (changesFrom ref changes)))
  /\ (forall userId next,
         listen (Some userId) ref (next :: changes)
         <> listen (Some userId) next changes ->
         ref = active /\ (next = background \/ next = inactive))
  /\ (forall userId next,
         isBackgroundOrInactive next = true ->
         listen (Some userId) active (next :: changes)
         = userId :: listen (Some userId) next changes).
Proof.
  split; [|split; [|split]].
  - revert ref. induction changes as [|next rest IH]; intros ref; simpl; auto.
  - intros userId. apply listen_by_changes.
  - intros userId next. simpl.
    destruct ref, next; simpl; intros H;
      try (now destruct H); split; auto.
  - intros userId next Hnext. simpl. now rewrite Hnext.
Qed.

Lemma listen_writes_on_leaving_active_witness :
  listen (Some "u1") active [background; active; unknown; active; inactive]
  = ["u1"; "u1"].
Proof.
  exact (proj2 (proj2 (proj2
           (listen_writes_on_leaving_active active
              [active; unknown; active; inactive])))
           "u1" background eq_refl).
Defined.

End AppState.

Section AfterInitialLoad.
Import Async Profile SimplifiedSyncManager SessionStart.

Lemma initialLoad_writeOnly_has_personalization_witness :
  hasAllDefaultWeights
    (resultingProfile (Examples.scienceProfile 0.5 10)
       (initialLoad "u1" (Examples.scienceProfile 0.5 10)
          (Resolved (Some (Examples.scienceProfile 0.9 20))) (Resolved tt)))
  = false.
Proof.
  apply (initialLoad_writeOnly_has_personalization "u1"
           (Examples.scienceProfile 0.5 10)
           (Resolved (Some (Examples.scienceProfile 0.9 20))) (Resolved tt)).
  reflexivity.
Defined.

(** Once the initial load has set [initialDataLoaded], the check that the
    next render runs puts the mode right: after it the module is
    write-only exactly when the profile of the store has a non-default
    weight, also when the initial load itself inspected the wrong profile.
    From then on a write-only module stays so and the check does nothing
    more.  When the initial load failed, the check does not run. *)
Theorem check_after_load_settles_mode
  (userId : string) (local : UserProfile)
  (fetched : Awaited (option UserProfile)) (pushResult : Awaited unit)
  (fetchedAgain : Awaited (option UserProfile)) :
  let effects := initialLoad userId local fetched pushResult in
  let profile := resultingProfile local effects in
  let mode := modeAfter effects in
  let checks :=
    checkEffect (Some userId) (initialDataLoadedAfter effects) profile
      (isWriteOnlyMode mode) fetchedAgain in
  let profile' := profileAfterCheck profile checks in
  let mode' := modeAfterCheck mode checks in
  (initialDataLoadedAfter effects = true ->
   (mode' = WriteOnly <-> hasAllDefaultWeights profile' = false)
   /\ (mode' = WriteOnly ->
       forall later,
         checkEffect (Some userId) true profile' (isWriteOnlyMode mode') later
         = []))
  /\ (initialDataLoadedAfter effects = false ->
      checks = [] /\ mode' = ReadEnabled).
Proof.
  cbv zeta.
  assert (modeAfter (initialLoad userId local fetched pushResult) = WriteOnly ->
          hasAllDefaultWeights
            (resultingProfile local
               (initialLoad userId local fetched pushResult)) = false)
    as Hwrite.
  { unfold initialLoad, loadInitialData, modeAfter, resultingProfile.
    destruct fetched as [[remote|]|]; simpl;
      try destruct (lastRefreshed remote >? lastRefreshed local)%Z; simpl;
      try destruct (hasAllDefaultWeights remote) eqn:Hr; simpl;
      destruct (hasAllDefaultWeights local) eqn:Hl; simpl;
      try destruct pushResult; simpl;
      rewrite ?Hr, ?Hl; simpl; congruence. }
  assert (initialDataLoadedAfter
            (initialLoad userId local fetched pushResult) = false ->
          modeAfter (initialLoad userId local fetched pushResult)
          = ReadEnabled) as Hfailed.
  { unfold initialLoad, loadInitialData, modeAfter, initialDataLoadedAfter.
    destruct fetched as [[remote|]|]; simpl;
      try destruct (lastRefreshed remote >? lastRefreshed local)%Z; simpl;
      try destruct (hasAllDefaultWeights remote) eqn:Hr; simpl;
      destruct (hasAllDefaultWeights local) eqn:Hl; simpl;
      try destruct pushResult; simpl;
      rewrite ?Hr, ?Hl; simpl; congruence. }
  generalize dependent
    (resultingProfile local (initialLoad userId local fetched pushResult)).
  generalize dependent
    (modeAfter (initialLoad userId local fetched pushResult)).
  generalize (initialDataLoadedAfter
                (initialLoad userId local fetched pushResult)).
  intros loaded mode Hfailed profile Hwrite.
  split.
  - intros ->.
    unfold checkEffect, checkDefaultWeights, modeAfterCheck, profileAfterCheck.
    destruct mode; simpl.
    + destruct (hasAllDefaultWeights profile) eqn:Hp.
      * destruct fetchedAgain as [[remote|]|]; simpl;
          try destruct (hasAllDefaultWeights remote) eqn:Hr; simpl;
          rewrite ?Hp, ?Hr; simpl;
          (split; [split; congruence|]);
          intros; congruence.
      * simpl. rewrite ?Hp. simpl.
        split; [split; congruence|]. intros; congruence.
    + specialize (Hwrite eq_refl).
      rewrite ?Hwrite. simpl. rewrite ?Hwrite. simpl.
      split; [split; congruence|]. intros; congruence.
  - intros ->. rewrite (Hfailed eq_refl). split; reflexivity.
Qed.

Lemma check_after_load_settles_mode_witness :
  let local := Examples.scienceProfile 0.9 10 in
  let remote := Examples.scienceProfile 0.5 5 in
  let effects := initialLoad "u1" local (Resolved (Some remote)) (Resolved tt) in
  modeAfter effects = ReadEnabled
  /\ modeAfterCheck (modeAfter effects)
       (checkEffect (Some "u1") (initialDataLoadedAfter effects)
          (resultingProfile local effects)
          (isWriteOnlyMode (modeAfter effects)) Rejected)
     = WriteOnly.
Proof.
  split; [reflexivity|].
  apply (check_after_load_settles_mode "u1" (Examples.scienceProfile 0.9 10)
           (Resolved (Some (Examples.scienceProfile 0.5 5))) (Resolved tt)
           Rejected).
  - reflexivity.
  - reflexivity.
Defined.



End AfterInitialLoad.

(* --------------------------------------------------------------------- *)
(** ** Conflict resolution: the merge                                     *)
(* --------------------------------------------------------------------- *)

Section Merge.
Import Profile ConflictResolver.

Lemma Qmax_same (w : Q) : Qmax w w = w.
Proof. unfold Qmax, GenericMinMax.gmax. now destruct (w ?= w)%Q. Qed.

Lemma mergeBranch_idemp (b : TopicBranch) : mergeBranch b b = b.
Proof. destruct b. unfold mergeBranch. simpl. now rewrite Qmax_same. Qed.

Lemma mergeSubTopic_idemp (s : SubTopic) : mergeSubTopic s s = s.
Proof.
  destruct s as [w bs lv]. unfold mergeSubTopic. simpl.
  rewrite Qmax_same. f_equal.
  apply union_with_idemp. intros name b _. now rewrite mergeBranch_idemp.
Qed.

Lemma mergeRootTopic_idemp (t : RootTopic) : mergeRootTopic t t = t.
Proof.
  destruct t as [w ss lv]. unfold mergeRootTopic. simpl.
  rewrite Qmax_same. f_equal.
  apply union_with_idemp. intros name s _. now rewrite mergeSubTopic_idemp.
Qed.

Lemma mergeTopics_idemp (m : gmap string RootTopic) : mergeTopics m m = m.
Proof.
  apply union_with_idemp. intros name t _. now rewrite mergeRootTopic_idemp.
Qed.

Lemma sameSubTopicWeights_refl (s : SubTopic) : sameSubTopicWeights s s.
Proof.
  split; [reflexivity|]. intros name.
  destruct (branches s !! name); constructor. unfold sameBranchWeight.
  reflexivity.
Qed.

Lemma sameRootTopicWeights_refl (t : RootTopic) : sameRootTopicWeights t t.
Proof.
  split; [reflexivity|]. intros name.
  destruct (subtopics t !! name); constructor. apply sameSubTopicWeights_refl.
Qed.

Lemma mergeSubTopic_comm (a b : SubTopic) :
  sameSubTopicWeights (mergeSubTopic a b) (mergeSubTopic b a).
Proof.
  split; simpl; [apply Q.max_comm|]. intros name.
  rewrite !lookup_union_with.
  destruct (branches a !! name), (branches b !! name); simpl; constructor;
    unfold sameBranchWeight; simpl; try reflexivity.
  apply Q.max_comm.
Qed.

Lemma mergeRootTopic_comm (a b : RootTopic) :
  sameRootTopicWeights (mergeRootTopic a b) (mergeRootTopic b a).
Proof.
  split; simpl; [apply Q.max_comm|]. intros name.
  rewrite !lookup_union_with.
  destruct (subtopics a !! name), (subtopics b !! name); simpl; constructor;
    auto using sameSubTopicWeights_refl, mergeSubTopic_comm.
Qed.

Lemma mergeTopics_comm (m1 m2 : gmap string RootTopic) :
  sameWeights (mergeTopics m1 m2) (mergeTopics m2 m1).
Proof.
  intros name. unfold mergeTopics. rewrite !lookup_union_with.
  destruct (m1 !! name), (m2 !! name); simpl; constructor;
    auto using sameRootTopicWeights_refl, mergeRootTopic_comm.
Qed.

(** The merged weight of a topic that both sides have is the greater of
    the two. *)
Lemma mergeTopics_max (m1 m2 : gmap string RootTopic) (name : string)
  (a b : RootTopic) :
  m1 !! name = Some a -> m2 !! name = Some b ->
  weight <$> (mergeTopics m1 m2 !! name) = Some (Qmax (weight a) (weight b)).
Proof.
  intros Ha Hb. unfold mergeTopics. now rewrite lookup_union_with, Ha, Hb.
Qed.

Lemma mergeInteractions_lookup
  (local remote : gmap string QuestionInteraction) (item : string) :
  mergeInteractions local remote !! item
  = match local !! item with
    | Some i => Some i
    | None => remote !! item
    end.
Proof.
  unfold mergeInteractions. rewrite lookup_union.
  now destruct (local !! item), (remote !! item).
Qed.

(** C2, as the code has it.  Merging a profile with itself gives back its
    weight tree and its interactions.  Merging (A, B) and (B, A) gives the
    same nodes with the same weights, the greater of the two at every node,
    and interaction maps over the same item ids.  On an item id of both
    profiles the merge keeps the interaction of its first argument, the
    local profile, whatever the two [viewedAt] are. *)
Theorem merge_idempotent_weights_commute_local_interaction_kept
  (A B : UserProfile) :
  mergeTopics (topics A) (topics A) = topics A
  /\ mergeInteractions (interactions A) (interactions A) = interactions A
  /\ sameWeights (mergeTopics (topics A) (topics B))
                 (mergeTopics (topics B) (topics A))
  /\ dom (mergeInteractions (interactions A) (interactions B))
     = dom (mergeInteractions (interactions B) (interactions A))
  /\ forall item,
       mergeInteractions (interactions A) (interactions B) !! item
       = match interactions A !! item with
         | Some i => Some i
         | None => interactions B !! item
         end.
Proof.
  split; [apply mergeTopics_idemp|].
  split.
  { apply map_eq. intros item. rewrite mergeInteractions_lookup.
    now destruct (interactions A !! item). }
  split; [apply mergeTopics_comm|].
  split; [|apply mergeInteractions_lookup].
  unfold mergeInteractions. rewrite !dom_union_L. apply union_comm_L.
Qed.

(** C2 as stated fails: with the item [q1] seen at 100 by the local
    profile and at 200 by the remote one, the merge keeps the earlier
    interaction, and the two orders of merging give different maps. *)
Lemma merge_keeps_local_interaction_counterexample :
  let a := interactions (Examples.viewedProfile (AnswerBool true) 100) in
  let b := interactions (Examples.viewedProfile (AnswerBool true) 200) in
  viewedAt <$> (mergeInteractions a b !! "q1") = Some 100%Z
  /\ mergeInteractions a b <> mergeInteractions b a.
Proof.
  intros a b. split; [reflexivity|].
  intros H. apply (f_equal (fun m => viewedAt <$> (m !! "q1"))) in H.
  vm_compute in H. discriminate.
Qed.

(** The scenario of the spec: the push at version 3 is refused, the remote
    row is at version 4 with the greater [History] weight; the retry
    carries that weight and version 5. *)
Example resolveConflict_scenario :
  let local :=
    {| topics := Examples.historyTopics 0.6; interactions := ∅;
       lastRefreshed := 10; coldStartComplete := None;
       totalQuestionsAnswered := Some 7%Z |} in
  let latest :=
    {| rowTopics := Examples.historyTopics 0.8; rowInteractions := ∅;
       total_questions_answered := 5; last_refreshed := 9; version := 4 |} in
  let retry := resolveConflict 20 local latest in
  (weight <$> (rowTopics retry !! "History")) = Some (0.8)%Q
  /\ version retry = 5%Z
  /\ total_questions_answered retry = 7%Z.
Proof. repeat split. Qed.

End Merge.

(* --------------------------------------------------------------------- *)
(** ** The weight range is preserved by every outcome                     *)
(* --------------------------------------------------------------------- *)

Section WeightRange.
Import Profile WeightModel.
Local Open Scope Q_scope.

Lemma raise_in_range (w delta : Q) :
  inWeightRange w -> 0 <= delta -> inWeightRange (raise w delta).
Proof.
  unfold inWeightRange, raise. intros [Hlo Hhi] Hd. split.
  - apply Q.min_glb; lra.
  - apply Q.le_min_l.
Qed.

Lemma lower_in_range (w delta : Q) :
  inWeightRange w -> 0 <= delta -> inWeightRange (lower w delta).
Proof.
  unfold inWeightRange, lower. intros [Hlo Hhi] Hd. split.
  - apply Q.le_max_l.
  - apply Q.max_lub; lra.
Qed.

Lemma adjust_in_range (outcome : Outcome) (w delta : Q) :
  inWeightRange w -> 0 <= delta -> inWeightRange (adjust outcome w delta).
Proof.
  destruct outcome; simpl; auto using raise_in_range, lower_in_range.
Qed.

Lemma default_in_range : inWeightRange DEFAULT_TOPIC_WEIGHT.
Proof. unfold inWeightRange, DEFAULT_TOPIC_WEIGHT. lra. Qed.

Lemma deltas_nonnegative (skippedBefore : bool) (outcome : Outcome) :
  let deltas :=
    if skippedBefore && negb (isSkip outcome) then compensation outcome
    else deltaTable outcome in
  0 <= topicDelta deltas /\ 0 <= subtopicDelta deltas /\ 0 <= branchDelta deltas.
Proof. destruct skippedBefore, outcome; simpl; repeat split; lra. Qed.

Lemma topicNode_in_range (profile : UserProfile) (name : string) :
  weightsInRange profile ->
  topicInRange (default newRootTopic (topics profile !! name)).
Proof.
  intros H. destruct (topics profile !! name) as [t|] eqn:E; simpl.
  - exact (H name t E).
  - split; [apply default_in_range|apply map_Forall_empty].
Qed.

Lemma subtopicNode_in_range (t : RootTopic) (name : string) :
  topicInRange t ->
  subtopicInRange (default newSubTopic (subtopics t !! name)).
Proof.
  intros [_ H]. destruct (subtopics t !! name) as [s|] eqn:E; simpl.
  - exact (H name s E).
  - split; [apply default_in_range|apply map_Forall_empty].
Qed.

Lemma branchNode_in_range (s : SubTopic) (name : string) :
  subtopicInRange s ->
  branchInRange (default newBranch (branches s !! name)).
Proof.
  intros [_ H]. destruct (branches s !! name) as [b|] eqn:E; simpl.
  - exact (H name b E).
  - apply default_in_range.
Qed.

(** C3. In a profile whose weights all lie in [0.1, 1.0], applying any
    outcome to any item leaves every topic, subtopic and branch weight in
    [0.1, 1.0]. *)
Theorem applyOutcome_preserves_weight_range
  (now : Z) (profile : UserProfile) (item : FeedItem)
  (outcome : Outcome) (timeSpentMs : Z) :
  weightsInRange profile ->
  weightsInRange (applyOutcome now profile item outcome timeSpentMs).
Proof.
  intros Hrange. unfold weightsInRange, applyOutcome. simpl.
  set (skippedBefore := match interactions profile !! itemId item with
                        | Some i => wasSkipped i
                        | None => false
                        end).
  destruct (deltas_nonnegative skippedBefore outcome) as (Ht & Hs & Hb).
  pose proof (topicNode_in_range profile (topic item) Hrange) as Htopic.
  pose proof (subtopicNode_in_range _ (subtopic item) Htopic) as Hsub.
  pose proof (branchNode_in_range _ (branch item) Hsub) as Hbranch.
  apply map_Forall_insert_2; [|exact Hrange].
  split; simpl.
  { apply adjust_in_range; [apply Htopic|exact Ht]. }
  apply map_Forall_insert_2; [|apply Htopic].
  split; simpl.
  { apply adjust_in_range; [apply Hsub|exact Hs]. }
  apply map_Forall_insert_2; [|apply Hsub].
  apply adjust_in_range; [exact Hbranch|exact Hb].
Qed.

Lemma scienceProfile_in_range (refreshed : Z) :
  weightsInRange (Examples.scienceProfile 0.5 refreshed).
Proof.
  unfold weightsInRange, Examples.scienceProfile. simpl.
  apply map_Forall_singleton. split; simpl.
  - apply default_in_range.
  - apply map_Forall_empty.
Qed.

(** A witness: a correct answer to a Science/Physics/Mechanics item in a
    profile with [Science] at 0.5. *)
Lemma applyOutcome_preserves_weight_range_witness :
  weightsInRange
    (applyOutcome 1000 (Examples.scienceProfile 0.5 0)
       Examples.mechanicsItem Correct 5000).
Proof.
  apply applyOutcome_preserves_weight_range.
  apply scienceProfile_in_range.
Defined.

(** The scenario of the spec: the three weights become 0.6, 0.65 and 0.70. *)
Lemma applyOutcome_correct_scenario :
  let after := applyOutcome 1000 (Examples.scienceProfile 0.5 0)
                 Examples.mechanicsItem Correct 5000 in
  exists t s b,
    topics after !! "Science" = Some t
    /\ subtopics t !! "Physics" = Some s
    /\ branches s !! "Mechanics" = Some b
    /\ weight t == 0.6 /\ subtopicWeight s == 0.65 /\ branchWeight b == 0.70.
Proof.
  eexists _, _, _. repeat split; try reflexivity.
Qed.

(** Answering correctly an item that was skipped before takes the
    compensation step: 0.5, then 0.45 after the skip, then 0.5 again. *)
Lemma applyOutcome_compensation_scenario :
  let skipped := applyOutcome 1000 (Examples.scienceProfile 0.5 0)
                   Examples.mechanicsItem Skipped 0 in
  let after := applyOutcome 2000 skipped Examples.mechanicsItem Correct 5000 in
  exists t u,
    topics skipped !! "Science" = Some t /\ weight t == 0.45
    /\ topics after !! "Science" = Some u /\ weight u == 0.5.
Proof.
  eexists _, _. repeat split; try reflexivity.
Qed.

End WeightRange.

(* --------------------------------------------------------------------- *)
(** ** The score                                                          *)
(* --------------------------------------------------------------------- *)

Section Score.
Import Profile Scoring.
Local Open Scope Q_scope.


Lemma cooldown_of_code (now : Z) (i : QuestionInteraction) :
  Qmin (inject_Z (now - viewedAt i) / inject_Z millisecondsPerDay * 0.1) 0.5
  == cooldownBonus now i.
Proof.
  unfold cooldownBonus, daysSinceViewed.
  apply Q.min_compat; [ring|reflexivity].
Qed.

(** The score of a seen item is a part that does not read the clock, plus
    the cool-down bonus. *)
Lemma score_of_seen (question : FeedItem) (userProfile : UserProfile)
  (i : QuestionInteraction) :
  interactions userProfile !! itemId question = Some i ->
  exists base,
    forall now,
      calculateQuestionScore now question userProfile
      == base + cooldownBonus now i.
Proof.
  intros Hi. eexists. intros now.
  unfold calculateQuestionScore. rewrite Hi.
  rewrite <- cooldown_of_code. reflexivity.
Qed.

Lemma score_of_unseen (question : FeedItem) (userProfile : UserProfile)
  (now1 now2 : Z) :
  interactions userProfile !! itemId question = None ->
  calculateQuestionScore now1 question userProfile
  = calculateQuestionScore now2 question userProfile.
Proof. intros Hi. unfold calculateQuestionScore. now rewrite Hi. Qed.

Lemma cooldown_saturated (now : Z) (i : QuestionInteraction) :
  (viewedAt i + 5 * millisecondsPerDay <= now)%Z ->
  cooldownBonus now i == 0.5.
Proof.
  intros H. unfold cooldownBonus, daysSinceViewed. apply Q.min_r.
  assert (432000000 <= inject_Z (now - viewedAt i)) as Hx.
  { change 432000000 with (inject_Z 432000000). rewrite <- Zle_Qle.
    unfold millisecondsPerDay in H. lia. }
  change (inject_Z millisecondsPerDay) with 86400000.
  generalize dependent (inject_Z (now - viewedAt i)). intros x Hx.
  assert (x / 86400000 == x * (1 # 86400000)) as -> by reflexivity.
  lra.
Qed.





(** C5, as the code has it.  The score reads the clock only for the
    cool-down bonus: for an item without interaction two evaluations agree
    whatever the clock shows; for an item with an interaction they differ
    by the difference of the two cool-down bonuses, and agree once five
    days have passed since the item was viewed. *)
Theorem score_reads_clock_only_for_cooldown
  (question : FeedItem) (userProfile : UserProfile) (now1 now2 : Z) :
  match interactions userProfile !! itemId question with
  | None =>
      calculateQuestionScore now1 question userProfile
      = calculateQuestionScore now2 question userProfile
  | Some i =>
      calculateQuestionScore now1 question userProfile
      - calculateQuestionScore now2 question userProfile
      == cooldownBonus now1 i - cooldownBonus now2 i
      /\ ((viewedAt i + 5 * millisecondsPerDay <= now1)%Z ->
          (viewedAt i + 5 * millisecondsPerDay <= now2)%Z ->
          calculateQuestionScore now1 question userProfile
          == calculateQuestionScore now2 question userProfile)
  end.
Proof.
  destruct (interactions userProfile !! itemId question) as [i|] eqn:Hi.
  - destruct (score_of_seen question userProfile i Hi) as (base & Hbase).
    split.
    + rewrite (Hbase now1), (Hbase now2). ring.
    + intros H1 H2. rewrite (Hbase now1), (Hbase now2).
      now rewrite (cooldown_saturated now1 i H1), (cooldown_saturated now2 i H2).
  - now apply score_of_unseen.
Qed.

(** A witness: the item was viewed at time 0 and is scored after five and
    after ten days. *)
Lemma score_reads_clock_only_for_cooldown_witness :
  calculateQuestionScore 432000000 Examples.mechanicsItem
    (Examples.viewedProfile (AnswerBool true) 0)
  == calculateQuestionScore 864000000 Examples.mechanicsItem
       (Examples.viewedProfile (AnswerBool true) 0).
Proof.
  apply (score_reads_clock_only_for_cooldown Examples.mechanicsItem
           (Examples.viewedProfile (AnswerBool true) 0)
           432000000 864000000); vm_compute; discriminate.
Defined.

(** C5 as stated fails: the same item and profile, scored when the item is
    viewed and one day later, get two different scores. *)
Lemma score_clock_counterexample :
  let profile := Examples.viewedProfile (AnswerBool true) 0 in
  calculateQuestionScore 0 Examples.mechanicsItem profile == 0.40
  /\ calculateQuestionScore 86400000 Examples.mechanicsItem profile == 0.50
  /\ ~ (calculateQuestionScore 0 Examples.mechanicsItem profile
        == calculateQuestionScore 86400000 Examples.mechanicsItem profile).
Proof.
  repeat split. intros H. vm_compute in H. discriminate.
Qed.

End Score.

(* --------------------------------------------------------------------- *)
(** ** The score over time                                                *)
(* --------------------------------------------------------------------- *)

Section ScoreOverTime.
Import Profile Scoring.
Local Open Scope Q_scope.

Lemma daysSinceViewed_monotone (now1 now2 : Z) (i : QuestionInteraction) :
  (now1 <= now2)%Z -> daysSinceViewed now1 i <= daysSinceViewed now2 i.
Proof.
  intros H. unfold daysSinceViewed.
  assert (inject_Z (now1 - viewedAt i) <= inject_Z (now2 - viewedAt i)) as Hx.
  { rewrite <- Zle_Qle. lia. }
  change (inject_Z millisecondsPerDay) with 86400000.
  generalize dependent (inject_Z (now1 - viewedAt i)).
  generalize (inject_Z (now2 - viewedAt i)). intros y x Hx.
  assert (x / 86400000 == x * (1 # 86400000)) as -> by reflexivity.
  assert (y / 86400000 == y * (1 # 86400000)) as -> by reflexivity.
  lra.
Qed.

Lemma cooldownBonus_monotone (now1 now2 : Z) (i : QuestionInteraction) :
  (now1 <= now2)%Z -> cooldownBonus now1 i <= cooldownBonus now2 i.
Proof.
  intros H. unfold cooldownBonus.
  pose proof (daysSinceViewed_monotone now1 now2 i H) as Hd.
  apply Q.min_le_compat_r. lra.
Qed.

(** The score never goes down as time passes: for the same item and
    profile, a later reading of the clock gives a score that is at least
    as high. *)
Theorem score_nondecreasing_in_clock
  (now1 now2 : Z) (question : FeedItem) (userProfile : UserProfile) :
  (now1 <= now2)%Z ->
  calculateQuestionScore now1 question userProfile
  <= calculateQuestionScore now2 question userProfile.
Proof.
  intros H.
  destruct (interactions userProfile !! itemId question) as [i|] eqn:Hi.
  - destruct (score_of_seen question userProfile i Hi) as [base Hbase].
    rewrite (Hbase now1), (Hbase now2).
    pose proof (cooldownBonus_monotone now1 now2 i H). lra.
  - rewrite (score_of_unseen question userProfile now1 now2 Hi).
    apply Qle_refl.
Qed.

Lemma score_nondecreasing_in_clock_witness :
  calculateQuestionScore 0 Examples.mechanicsItem
    (Examples.answeredProfile 0.9 0)
  <= calculateQuestionScore 86400000 Examples.mechanicsItem
       (Examples.answeredProfile 0.9 0).
Proof.
  apply (score_nondecreasing_in_clock 0 86400000). lia.
Defined.

End ScoreOverTime.

(* --------------------------------------------------------------------- *)
(** ** The phases of the cold start                                       *)
(* --------------------------------------------------------------------- *)

Section ColdStartPhases.
Import Profile ColdStart.

Lemma claimedPhase_monotone (n m : Z) :
  (n <= m)%Z ->
  (phaseNumber (claimedPhase n) <= phaseNumber (claimedPhase m))%nat.
Proof.
  intros H. unfold claimedPhase.
  destruct (Z.ltb_spec n 5), (Z.ltb_spec n 12), (Z.ltb_spec n 20),
    (Z.ltb_spec m 5), (Z.ltb_spec m 12), (Z.ltb_spec m 20); simpl; lia.
Qed.

Lemma phaseOf_cold (p : UserProfile) :
  isColdStart p = true -> (totalAnswered p < 20)%Z ->
  phaseOf p = Some (claimedPhase (totalAnswered p)).
Proof.
  intros Hcold Hlt. unfold phaseOf, claimedPhase. rewrite Hcold.
  destruct (Z.ltb_spec (totalAnswered p) 5); [reflexivity|].
  destruct (Z.ltb_spec (totalAnswered p) 12); [reflexivity|].
  destruct (Z.ltb_spec (totalAnswered p) 20); [reflexivity|lia].
Qed.

Lemma phaseOf_complete (p : UserProfile) :
  isColdStart p = false -> phaseOf p = Some SteadyState.
Proof. intros H. unfold phaseOf. now rewrite H. Qed.

Lemma phaseOf_cold_inv (p : UserProfile) (ph : Phase) :
  isColdStart p = true -> phaseOf p = Some ph ->
  (totalAnswered p < 20)%Z /\ ph = claimedPhase (totalAnswered p).
Proof.
  intros Hcold Hph.
  destruct (Z.ltb_spec (totalAnswered p) 20) as [Hlt|Hge].
  - split; [exact Hlt|]. rewrite (phaseOf_cold p Hcold Hlt) in Hph.
    congruence.
  - unfold phaseOf in Hph. rewrite Hcold in Hph.
    destruct (Z.ltb_spec (totalAnswered p) 5); [lia|].
    destruct (Z.ltb_spec (totalAnswered p) 12); [lia|].
    destruct (Z.ltb_spec (totalAnswered p) 20); [lia|discriminate].
Qed.

Lemma phaseNumber_le_4 (ph : Phase) : (phaseNumber ph <= 4)%nat.
Proof. destruct ph; simpl; lia. Qed.

(** C7, as the code has it.  The filter applies the phase that
    [coldStartComplete] and [totalAnswered] select together: while
    [coldStartComplete] is not set, phase 1 below 5 answers, phase 2 below
    12 and phase 3 below 20, each with its filter; once it is set, phase 4,
    whatever [totalAnswered] is.  From a profile to a later one, where
    [totalAnswered] has not decreased and [coldStartComplete] has not gone
    back, the phase does not decrease. *)
Theorem coldStart_phase_by_flag_and_count
  (p q : UserProfile) (existingIds : gset string) (item : FeedItem) :
  eligible p existingIds item
  = (fun ph => phaseFilter ph p existingIds item) <$> phaseOf p
  /\ (isColdStart p = true -> (totalAnswered p < 20)%Z ->
      phaseOf p = Some (claimedPhase (totalAnswered p)))
  /\ (isColdStart p = false -> phaseOf p = Some SteadyState)
  /\ (laterThan p q ->
      forall ph1 ph2,
        phaseOf p = Some ph1 -> phaseOf q = Some ph2 ->
        (phaseNumber ph1 <= phaseNumber ph2)%nat).
Proof.
  split; [|split; [|split]].
  - unfold eligible, phaseOf.
    destruct (isColdStart p); [|reflexivity].
    destruct (totalAnswered p <? 5)%Z; [reflexivity|].
    destruct (totalAnswered p <? 12)%Z; [reflexivity|].
    now destruct (totalAnswered p <? 20)%Z.
  - apply phaseOf_cold.
  - apply phaseOf_complete.
  - intros [Hcount Hflag] ph1 ph2 H1 H2.
    destruct (isColdStart q) eqn:Hq.
    + destruct (isColdStart p) eqn:Hp; [|now specialize (Hflag eq_refl)].
      apply phaseOf_cold_inv in H1 as [_ ->]; [|exact Hp].
      apply phaseOf_cold_inv in H2 as [_ ->]; [|exact Hq].
      now apply claimedPhase_monotone.
    + rewrite (phaseOf_complete q Hq) in H2. injection H2 as <-.
      apply phaseNumber_le_4.
Qed.

(** A witness: from 4 to 13 answers within the cold start, the phase goes
    from 1 to 3. *)
Lemma coldStart_phase_by_flag_and_count_witness :
  (phaseNumber Exploration <= phaseNumber Adaptive)%nat.
Proof.
  apply (coldStart_phase_by_flag_and_count
           (Examples.countedProfile 0.5 (Some false) 4 0)
           (Examples.countedProfile 0.5 (Some false) 13 0)
           ∅ Examples.mechanicsItem).
  - split; [vm_compute; discriminate|]. intros H. vm_compute in H. discriminate.
  - reflexivity.
  - reflexivity.
Defined.

(** C7 as stated fails: the phase is not a function of [totalAnswered].
    A profile with [coldStartComplete] set and 3 answers is filtered by
    phase 4, which drops an item of a topic at weight 0.1; phase 1, which
    the claim gives to 3 answers, keeps that item.  Nor is the phase kept
    from going back: the initial load adopts a newer remote profile
    wholesale, and with it a [coldStartComplete] that is false and a
    smaller [totalAnswered]. *)
Lemma coldStart_phase_counterexample :
  (let p := Examples.countedProfile 0.1 (Some true) 3 0 in
   phaseOf p = Some SteadyState
   /\ claimedPhase (totalAnswered p) = Exploration
   /\ eligible p ∅ Examples.mechanicsItem = Some false
   /\ phaseFilter (claimedPhase (totalAnswered p)) p ∅ Examples.mechanicsItem
      = true)
  /\ (let local := Examples.countedProfile 0.5 (Some true) 25 10 in
      let remote := Examples.countedProfile 0.5 (Some false) 3 20 in
      let after :=
        SimplifiedSyncManager.resultingProfile local
          (SimplifiedSyncManager.initialLoad "u1" local
             (Async.Resolved (Some remote)) (Async.Resolved tt)) in
      isColdStart local = false /\ phaseOf local = Some SteadyState
      /\ isColdStart after = true /\ phaseOf after = Some Exploration).
Proof. repeat split. Qed.

(** Within the cold start, a profile with 20 answers or more takes no
    branch of the filter. *)
Lemma coldStart_no_branch_at_20 :
  eligible (Examples.countedProfile 0.5 (Some false) 20 0) ∅
    Examples.mechanicsItem = None.
Proof. reflexivity. Qed.

End ColdStartPhases.

(* --------------------------------------------------------------------- *)
(** ** The checkpoint filter against the feed filter                      *)
(* --------------------------------------------------------------------- *)

Section CheckpointFilter.
Import Profile ColdStart Checkpoint.

Lemma filter_none {A : Type} (f : A -> bool) (l : list A) :
  (forall a, f a = false) -> List.filter f l = [].
Proof.
  intros H. induction l as [|a l IH]; simpl; [reflexivity|].
  now rewrite H.
Qed.

(** The two filters select the same items while the profile is in cold
    start with fewer than 20 answers.  At 20 answers and more, still in
    cold start, the feed filter selects nothing and the checkpoint filter
    goes on with the rule of phase 3.  Once [coldStartComplete] is set the
    checkpoint filter selects nothing, and the feed filter applies the
    rule of phase 4.  Neither ever selects an item whose id is among the
    existing ones. *)
Theorem checkpoint_filter_against_feed_filter
  (userProfile : UserProfile) (existingIds : gset string)
  (feedData : list FeedItem) :
  (isColdStart userProfile = true ->
   (totalAnswered userProfile < 20)%Z ->
   availableQuestions userProfile existingIds feedData
   = eligibleQuestions userProfile existingIds feedData)
  /\ (isColdStart userProfile = true ->
      (20 <= totalAnswered userProfile)%Z ->
      eligibleQuestions userProfile existingIds feedData = []
      /\ availableQuestions userProfile existingIds feedData
         = List.filter (phaseFilter Adaptive userProfile existingIds) feedData)
  /\ (isColdStart userProfile = false ->
      availableQuestions userProfile existingIds feedData = []
      /\ eligibleQuestions userProfile existingIds feedData
         = List.filter (phaseFilter SteadyState userProfile existingIds)
                       feedData)
  /\ (forall item,
         In item (availableQuestions userProfile existingIds feedData)
         \/ In item (eligibleQuestions userProfile existingIds feedData) ->
         In item feedData /\ itemId item ∉ existingIds).
Proof.
  unfold availableQuestions, eligibleQuestions.
  split; [|split; [|split]].
  - intros Hcold Hlt. apply filter_ext. intros item.
    unfold available, eligible. rewrite Hcold. cbv zeta.
    destruct (totalAnswered userProfile <? 5)%Z; [reflexivity|].
    destruct (totalAnswered userProfile <? 12)%Z; [reflexivity|].
    destruct (Z.ltb_spec (totalAnswered userProfile) 20); [reflexivity|lia].
  - intros Hcold Hge.
    assert ((totalAnswered userProfile <? 5)%Z = false) as H5
      by (apply Z.ltb_ge; lia).
    assert ((totalAnswered userProfile <? 12)%Z = false) as H12
      by (apply Z.ltb_ge; lia).
    assert ((totalAnswered userProfile <? 20)%Z = false) as H20
      by (apply Z.ltb_ge; lia).
    split.
    + apply filter_none. intros item. unfold eligible.
      now rewrite Hcold, H5, H12, H20.
    + apply filter_ext. intros item. unfold available.
      now rewrite Hcold, H5, H12.
  - intros Hdone. split.
    + apply filter_none. intros item. unfold available. now rewrite Hdone.
    + apply filter_ext. intros item. unfold eligible. now rewrite Hdone.
  - intros item [Hin|Hin]; apply filter_In in Hin as [Hin Hkept];
      (split; [assumption|]); intros Hex; revert Hkept;
      unfold available, eligible; cbv zeta;
      rewrite (bool_decide_eq_true_2 _ Hex); simpl;
      destruct (isColdStart userProfile);
      destruct (totalAnswered userProfile <? 5)%Z;
      destruct (totalAnswered userProfile <? 12)%Z;
      destruct (totalAnswered userProfile <? 20)%Z;
      simpl; discriminate.
Qed.

Lemma checkpoint_filter_against_feed_filter_witness :
  availableQuestions (Examples.countedProfile 0.1 (Some true) 25 0) ∅
    [Examples.mechanicsItem] = []
  /\ eligibleQuestions (Examples.countedProfile 0.1 (Some true) 25 0) ∅
       [Examples.mechanicsItem]
     = List.filter
         (phaseFilter SteadyState (Examples.countedProfile 0.1 (Some true) 25 0) ∅)
         [Examples.mechanicsItem].
Proof.
  apply (checkpoint_filter_against_feed_filter
           (Examples.countedProfile 0.1 (Some true) 25 0) ∅
           [Examples.mechanicsItem]).
  reflexivity.
Defined.

End CheckpointFilter.

(* --------------------------------------------------------------------- *)
(** ** The profile row: what is written is what is read back             *)
(* --------------------------------------------------------------------- *)

Section RowRoundTrip.
Import Profile SyncRow.

Lemma profileOfRow_profileData (userId : string) (userProfile : UserProfile) :
  let loaded := profileOfRow (profileData userId userProfile) in
  topics loaded = topics userProfile
  /\ interactions loaded = interactions userProfile
  /\ lastRefreshed loaded = lastRefreshed userProfile
  /\ ColdStart.isColdStart loaded = ColdStart.isColdStart userProfile
  /\ ColdStart.totalAnswered loaded = ColdStart.totalAnswered userProfile.
Proof.
  cbv zeta. split; [reflexivity|]. split; [reflexivity|].
  split; [reflexivity|]. split.
  - unfold ColdStart.isColdStart. simpl.
    now destruct (coldStartComplete userProfile) as [[]|].
  - unfold ColdStart.totalAnswered. simpl.
    now destruct (totalQuestionsAnswered userProfile).
Qed.

(** A profile written with [_syncUserProfile] and read back by the
    profile sync of a device whose local profile is older comes back with
    the same topics, interactions and [lastRefreshed], the same cold-start
    flag and answer count as the code reads them, hence with the same
    eligibility verdicts and scores; writing it again leaves the table as
    it is.  A device whose local profile is not older reads nothing.  The
    rows of other users are untouched. *)
Theorem sync_then_load_round_trip
  (table : Table) (userId : string)
  (userProfile localProfile : UserProfile) :
  let table' := _syncUserProfile table userId userProfile in
  ((lastRefreshed localProfile < lastRefreshed userProfile)%Z ->
   exists loaded,
     loadNewer table' userId localProfile = Some loaded
     /\ topics loaded = topics userProfile
     /\ interactions loaded = interactions userProfile
     /\ lastRefreshed loaded = lastRefreshed userProfile
     /\ (forall existingIds item,
            ColdStart.eligible loaded existingIds item
            = ColdStart.eligible userProfile existingIds item)
     /\ (forall now question,
            Scoring.calculateQuestionScore now question loaded
            = Scoring.calculateQuestionScore now question userProfile)
     /\ _syncUserProfile table' userId loaded = table')
  /\ ((lastRefreshed userProfile <= lastRefreshed localProfile)%Z ->
      loadNewer table' userId localProfile = None)
  /\ (forall other, other <> userId -> table' !! other = table !! other).
Proof.
  cbv zeta. unfold loadNewer, _syncUserProfile, Table in *.
  rewrite lookup_insert_eq.
  change (last_refreshed (profileData userId userProfile))
    with (lastRefreshed userProfile).
  split; [|split].
  - intros Hlt.
    destruct (Z.gtb_spec (lastRefreshed userProfile)
                (lastRefreshed localProfile)) as [_|]; [|lia].
    exists (profileOfRow (profileData userId userProfile)).
    destruct (profileOfRow_profileData userId userProfile)
      as [Ht [Hi [Hr [Hc Hn]]]]. cbv zeta in *.
    split; [reflexivity|]. split; [exact Ht|]. split; [exact Hi|].
    split; [exact Hr|]. split; [|split].
    + intros existingIds item. unfold ColdStart.eligible. cbv zeta.
      unfold ColdStart.isLowWeight. now rewrite Hc, Hn, Ht.
    + intros now question. unfold Scoring.calculateQuestionScore.
      unfold Scoring.branchNodeOf, Scoring.subtopicNodeOf, Scoring.topicNodeOf.
      now rewrite Ht, Hi.
    + rewrite insert_insert_eq. f_equal.
  - intros Hle.
    destruct (Z.gtb_spec (lastRefreshed userProfile)
                (lastRefreshed localProfile)) as [|_]; [lia|reflexivity].
  - intros other Hne. now rewrite lookup_insert_ne.
Qed.

Lemma sync_then_load_round_trip_witness :
  exists loaded,
    loadNewer (_syncUserProfile ∅ "u1" (Examples.scienceProfile 0.9 10)) "u1"
      (Examples.scienceProfile 0.5 5)
    = Some loaded
    /\ topics loaded = topics (Examples.scienceProfile 0.9 10)
    /\ interactions loaded = interactions (Examples.scienceProfile 0.9 10)
    /\ lastRefreshed loaded = lastRefreshed (Examples.scienceProfile 0.9 10)
    /\ (forall existingIds item,
           ColdStart.eligible loaded existingIds item
           = ColdStart.eligible (Examples.scienceProfile 0.9 10)
               existingIds item)
    /\ (forall now question,
           Scoring.calculateQuestionScore now question loaded
           = Scoring.calculateQuestionScore now question
               (Examples.scienceProfile 0.9 10))
    /\ _syncUserProfile
         (_syncUserProfile ∅ "u1" (Examples.scienceProfile 0.9 10)) "u1" loaded
       = _syncUserProfile ∅ "u1" (Examples.scienceProfile 0.9 10).
Proof.
  apply (sync_then_load_round_trip ∅ "u1" (Examples.scienceProfile 0.9 10)
           (Examples.scienceProfile 0.5 5)).
  simpl. lia.
Defined.

End RowRoundTrip.

(* --------------------------------------------------------------------- *)
(** ** The definitions at work                                            *)
(* --------------------------------------------------------------------- *)

Section Evaluation.
Import JsString Fingerprint JsObject Async QuestionStore.

Example fingerprint_of_a_question :
  generateQuestionFingerprint "  What's the  CAPITAL, of France?? "
    ["geography"; "Europe"; "capitals"]
  = "whats the capital of france|europe|capitals|geography".
Proof. reflexivity. Qed.

Example fingerprint_without_text_or_tags :
  generateQuestionFingerprint EmptyString [] = "|".
Proof. reflexivity. Qed.

Example topic_color_direct : DesignIndex.getTopicColor "History" = JsStr "#D500F9".
Proof. reflexivity. Qed.

Example topic_color_partial :
  UseDesignSystem.getTopicColor "American History" = JsStr "#D500F9".
Proof. reflexivity. Qed.

Example topic_color_default :
  UseDesignSystem.getTopicColor "Knitting" = JsStr "#455A64".
Proof. reflexivity. Qed.

(** Every key contains the empty string: the first key matches. *)
Example topic_color_empty :
  DesignIndex.getTopicColor EmptyString = JsStr "#6200EA".
Proof. reflexivity. Qed.

(** A name of [Object.prototype] is found by both direct tests. *)
Example topic_color_inherited :
  DesignIndex.getTopicColor "toString" = JsInherited "toString".
Proof. reflexivity. Qed.

(** Without the imported table the hook module knows seven keys only. *)
Example topic_color_import_failed :
  UseDesignSystem.getTopicColorWith None "Sports" = JsStr "#455A64"
  /\ DesignIndex.getTopicColor "Sports" = JsStr "#FF6D00".
Proof. split; reflexivity. Qed.

Example exists_by_fallback :
  checkQuestionExists (fun _ _ => Returned false) Examples.legacyStore
    "who painted it|art"
  = Returned true.
Proof. reflexivity. Qed.

Example exists_by_similarity :
  checkQuestionExists (fun _ _ => Thrown TypeError) Examples.currentStore
    "who painted mona lisa|art"
  = Returned true.
Proof. reflexivity. Qed.

Example not_existing :
  checkQuestionExists (fun _ _ => Thrown TypeError) Examples.currentStore
    "how many moons orbit the planet mars|astronomy"
  = Returned false.
Proof. reflexivity. Qed.

Example word_differences :
  wordDifferences "who painted mona lisa" "who painted the mona lisa" = 1%nat.
Proof. reflexivity. Qed.

End Evaluation.
